(** * Lead-collection core of the Reviu campaign automation

    A shallow embedding of the business-collection, deduplication,
    validation and scoring code of

      - business_collector.py      (class BusinessCollector)
      - enhanced_scraper.py        (class EnhancedScraper)
      - free_business_collector.py (class FreeBusinessCollector)
      - gemini_business_generator.py (class GeminiBusinessGenerator)

    Data.  Python [str] values are modelled as [string]; the case mapping
    and the white-space class are the ones Python applies to code points
    below 128.  Python [set]s of strings are [gset string], Python [float]s
    are binary64 [float]s, Python [int]s are [Z].  The values stored in a
    business dictionary are strings (and a Boolean for [verified]), as in
    every place where the source builds one.

    Effects.  The dictionaries of [BusinessCollector] are mutated in place
    and shared between lists, so they live in an explicit object store and
    lists hold references.  Exceptions are values of [result].  What the
    code reads from the network (result pages, web sites, DNS) and from the
    regular-expression and validation libraries is a parameter, [world]:
    a page is given by what the code reads off it.  Logging, sleeping, rate
    limiting and the statistics counters have no influence on the results
    and are left out. *)

From Stdlib Require Import ZArith String Ascii List Floats Uint63 Lia.
From stdpp Require Import gmap strings list pretty.

Set Warnings "-inexact-float".

(** ** Python string operations used by the source *)
Module PyStr.

Definition is_upper (c : ascii) : bool :=
  let n := nat_of_ascii c in (65 <=? n)%nat && (n <=? 90)%nat.

Definition lower_char (c : ascii) : ascii :=
  if is_upper c then ascii_of_nat (nat_of_ascii c + 32) else c.

(** [s.lower()] *)
Fixpoint lower (s : string) : string :=
  match s with
  | EmptyString => EmptyString
  | String c s' => String (lower_char c) (lower s')
  end.

(** [c.isspace()] for a single character *)
Definition isspace (c : ascii) : bool :=
  let n := nat_of_ascii c in
  ((9 <=? n)%nat && (n <=? 13)%nat) || ((28 <=? n)%nat && (n <=? 32)%nat).

Fixpoint lstrip (s : string) : string :=
  match s with
  | EmptyString => EmptyString
  | String c s' => if isspace c then lstrip s' else s
  end.

Definition rstrip (s : string) : string := String.rev (lstrip (String.rev s)).

(** [s.strip()] *)
Definition strip (s : string) : string := rstrip (lstrip s).

(** [len(s)] *)
Definition len (s : string) : Z := Z.of_nat (String.length s).

(** [s.startswith(p)] *)
Definition startswith (p s : string) : bool := String.prefix p s.

(** [sub in s] *)
Fixpoint contains (sub s : string) : bool :=
  String.prefix sub s ||
  match s with
  | EmptyString => false
  | String _ s' => contains sub s'
  end.

Fixpoint drop (n : nat) (s : string) : string :=
  match n, s with
  | O, _ => s
  | S n', String _ s' => drop n' s'
  | S _, EmptyString => EmptyString
  end.

(** [s.replace(old, new)] for a non-empty [old]: left-to-right,
    non-overlapping occurrences.  [fuel] bounds the number of scanned
    positions; [replace] supplies the length of [s]. *)
Fixpoint replace_go (fuel : nat) (old new s : string) : string :=
  match fuel with
  | O => s
  | S fuel' =>
      match s with
      | EmptyString => EmptyString
      | String c s' =>
          if String.prefix old s
          then new +:+ replace_go fuel' old new (drop (String.length old) s)
          else String c (replace_go fuel' old new s')
      end
  end.

Definition replace (old new s : string) : string :=
  replace_go (String.length s) old new s.

(** [s.split(sep)] for a one-character separator *)
Fixpoint split_go (sep : ascii) (cur : string) (s : string) : list string :=
  match s with
  | EmptyString => [String.rev cur]
  | String c s' =>
      if Ascii.eqb c sep then String.rev cur :: split_go sep EmptyString s'
      else split_go sep (String c cur) s'
  end.

Definition split (sep : ascii) (s : string) : list string :=
  split_go sep EmptyString s.

(** truthiness of an optional string: [None] and [''] are falsy *)
Definition truthy (o : option string) : bool :=
  match o with
  | Some s => negb (String.eqb s "")
  | None => false
  end.

(** [o or d] for an optional string *)
Definition or_default (o : option string) (d : string) : string :=
  match o with
  | Some s => if String.eqb s "" then d else s
  | None => d
  end.

(** [l[:n]] on a list, for any integer [n] *)
Definition slice_to {A} (n : Z) (l : list A) : list A :=
  if (n <? 0)%Z then take (Z.to_nat (Z.of_nat (length l) + n)) l
  else take (Z.to_nat n) l.

(** [s[:n]] for a natural [n] *)
Fixpoint take (n : nat) (s : string) : string :=
  match n, s with
  | S n', String c s' => String c (take n' s')
  | _, _ => EmptyString
  end.

Definition is_lower (c : ascii) : bool :=
  let n := nat_of_ascii c in (97 <=? n)%nat && (n <=? 122)%nat.

Definition is_alpha (c : ascii) : bool := is_upper c || is_lower c.

Definition is_digit (c : ascii) : bool :=
  let n := nat_of_ascii c in (48 <=? n)%nat && (n <=? 57)%nat.

(** [c.isalnum()] *)
Definition isalnum (c : ascii) : bool := is_alpha c || is_digit c.

(** [''.join(c for c in s if p(c))] *)
Fixpoint filter (p : ascii → bool) (s : string) : string :=
  match s with
  | EmptyString => EmptyString
  | String c s' => if p c then String c (filter p s') else filter p s'
  end.

(** [any(c.isdigit() for c in s)] and the like *)
Fixpoint existsb (p : ascii → bool) (s : string) : bool :=
  match s with
  | EmptyString => false
  | String c s' => p c || existsb p s'
  end.

(** [''.join(l)] *)
Definition concat (l : list string) : string :=
  foldr String.append EmptyString l.

(** [s.split()]: the maximal runs of characters that are not white space *)
Fixpoint split_whitespace_go (cur : option string) (s : string)
  : list string :=
  match s with
  | EmptyString => option_list (String.rev <$> cur)
  | String c s' =>
      if isspace c
      then option_list (String.rev <$> cur) ++ split_whitespace_go None s'
      else split_whitespace_go
             (Some (String c (default EmptyString cur))) s'
  end.

Definition split_whitespace (s : string) : list string :=
  split_whitespace_go None s.

End PyStr.

(** ** Greedy two-key deduplication

    The loop shared by the collectors: walk the list in order, keep a record
    when neither key is in its seen-set, and add the keys of a kept record
    to the seen-sets. *)
Section TwoKeyDedup.
Context {A : Type} (name_key email_key : A → string).

(** loop state: [seen_names], [seen_emails], [unique_businesses] *)
Definition dedup_state : Type := gset string * gset string * list A.

Definition dedup_step (st : dedup_state) (business : A) : dedup_state :=
  let '(seen_names, seen_emails, unique_businesses) := st in
  let name := name_key business in
  let email := email_key business in
  if bool_decide (name ∉ seen_names) && bool_decide (email ∉ seen_emails)
  then ({[name]} ∪ seen_names, {[email]} ∪ seen_emails,
        unique_businesses ++ [business])
  else st.

Definition dedup_two_keys (businesses : list A) : list A :=
  (fold_left dedup_step businesses (∅, ∅, [])).2.

(** the records the loop appends when started from given seen-sets *)
Fixpoint kept_from (sn se : gset string) (l : list A) : list A :=
  match l with
  | [] => []
  | b :: l' =>
      if bool_decide (name_key b ∉ sn) && bool_decide (email_key b ∉ se)
      then b :: kept_from ({[name_key b]} ∪ sn) ({[email_key b]} ∪ se) l'
      else kept_from sn se l'
  end.

End TwoKeyDedup.

(** ** Greedy one-key deduplication (composite identifier) *)
Section OneKeyDedup.
Context {A : Type} (identifier : A → string).

Definition dedup1_step (st : gset string * list A) (business : A)
  : gset string * list A :=
  let '(seen, unique_businesses) := st in
  if bool_decide (identifier business ∉ seen)
  then ({[identifier business]} ∪ seen, unique_businesses ++ [business])
  else st.

Definition dedup_one_key (businesses : list A) : list A :=
  (fold_left dedup1_step businesses (∅, [])).2.

Fixpoint kept1_from (seen : gset string) (l : list A) : list A :=
  match l with
  | [] => []
  | b :: l' =>
      if bool_decide (identifier b ∉ seen)
      then b :: kept1_from ({[identifier b]} ∪ seen) l'
      else kept1_from seen l'
  end.

End OneKeyDedup.

(** ** Exceptions

    The exception classes the modelled code can meet.  [EmailNotValidError]
    stands for the class named by the [except EmailNotValidError] clause of
    [_validate_business_emails] and its subclasses; [ValueError] is a plain
    [ValueError], which is not an instance of that class. *)
Inductive exn : Set :=
| TypeError
| AttributeError
| KeyError
| IndexError
| ValueError
| EmailNotValidError
| OtherException.

Inductive result (A : Type) : Type :=
| Ok (a : A)
| Raise (e : exn).
Arguments Ok {A} a.
Arguments Raise {A} e.

(** ** Regular expressions

    The fragment of Python's [re] that the built-in e-mail check needs,
    decided with Brzozowski derivatives. *)
Module Regex.

Inductive regex : Type :=
| Void
| Eps
| Class (p : ascii → bool)
| Seq (r1 r2 : regex)
| Alt (r1 r2 : regex)
| Star (r : regex).

Fixpoint nullable (r : regex) : bool :=
  match r with
  | Void => false
  | Eps => true
  | Class _ => false
  | Seq r1 r2 => nullable r1 && nullable r2
  | Alt r1 r2 => nullable r1 || nullable r2
  | Star _ => true
  end.

Fixpoint deriv (c : ascii) (r : regex) : regex :=
  match r with
  | Void => Void
  | Eps => Void
  | Class p => if p c then Eps else Void
  | Seq r1 r2 =>
      if nullable r1 then Alt (Seq (deriv c r1) r2) (deriv c r2)
      else Seq (deriv c r1) r2
  | Alt r1 r2 => Alt (deriv c r1) (deriv c r2)
  | Star r1 => Seq (deriv c r1) (Star r1)
  end.

(** the whole of [s] is a word of [r] *)
Fixpoint matches (r : regex) (s : string) : bool :=
  match s with
  | EmptyString => nullable r
  | String c s' => matches (deriv c r) s'
  end.

(** [x] *)
Definition char (x : ascii) : regex := Class (Ascii.eqb x).
(** [r+] *)
Definition plus (r : regex) : regex := Seq r (Star r).
(** [r{2,}] *)
Definition at_least_two (r : regex) : regex := Seq r (Seq r (Star r)).

(** [re.match('^' r '$', s)] is not [None]: without [re.MULTILINE], [$]
    matches at the end of the string and just before a newline that ends
    the string. *)
Definition match_anchored (r : regex) (s : string) : bool :=
  matches (Seq r (Alt Eps (char "010"))) s.

End Regex.

(** ** business_collector.py *)
Module BusinessCollector.

(** A business dictionary.  A field is [None] when the key is absent. *)
Record business : Type := Business {
  name : option string;
  email : option string;
  phone : option string;
  address : option string;
  website : option string;
  business_type : option string;
  verified : option bool;
  source : option string
}.

Definition empty_dict : business :=
  Business None None None None None None None None.

(** [business['source'] = s] *)
Definition set_source (s : string) (b : business) : business :=
  Business (name b) (email b) (phone b) (address b) (website b)
           (business_type b) (verified b) (Some s).

(** The dictionaries [business.update(enhanced_data)] receives: a subset of
    the keys email, phone, address. *)
Record enhanced_data : Type := EnhancedData {
  e_email : option string;
  e_phone : option string;
  e_address : option string
}.

(** truthiness of the dictionary [enhanced_data] *)
Definition nonempty_data (d : enhanced_data) : bool :=
  match e_email d, e_phone d, e_address d with
  | None, None, None => false
  | _, _, _ => true
  end.

Definition or_else {A} (o d : option A) : option A :=
  match o with Some _ => o | None => d end.

(** [business.update(enhanced_data)] *)
Definition update (d : enhanced_data) (b : business) : business :=
  Business (name b) (or_else (e_email d) (email b))
           (or_else (e_phone d) (phone b))
           (or_else (e_address d) (address b))
           (website b) (business_type b) (verified b) (source b).

(** *** The object store

    Business dictionaries are objects: a list holds references to them, and
    [list.copy()] copies the references, not the dictionaries.  A store maps
    a location to the current contents of the dictionary it names. *)
Definition loc : Type := nat.
Definition store : Type := list business.

Definition deref (σ : store) (l : loc) : business :=
  default empty_dict (σ !! l).

(** a dictionary display [{...}] evaluated: a fresh object *)
Definition alloc (b : business) (σ : store) : loc * store :=
  (length σ, σ ++ [b]).

Fixpoint alloc_all (bs : list business) (σ : store) : list loc * store :=
  match bs with
  | [] => ([], σ)
  | b :: bs' =>
      let '(l, σ1) := alloc b σ in
      let '(ls, σ2) := alloc_all bs' σ1 in
      (l :: ls, σ2)
  end.

(** The elements of the lists stored in [verified_businesses]: the list
    under "related_types" holds strings, the list under a city holds
    business dictionaries. *)
Inductive item : Type :=
| IStr (s : string)
| IDict (l : loc).

(** [Dict[str, Dict[str, List[...]]]] *)
Definition database : Type := gmap string (gmap string (list item)).

(** one literal of the verified data: every one of them carries
    ["verified": True] and ["source": "verified_database"] *)
Definition verified_record
  (nm em ph ad ws bt : string) : business :=
  Business (Some nm) (Some em) (Some ph) (Some ad) (Some ws) (Some bt)
           (Some true) (Some "verified_database").

(** the literal of [_load_verified_businesses]: category, related types,
    and the businesses of each city, in source order *)
Definition business_database
  : list (string * (list string * list (string * list business))) :=
  [
  ("Technology",
   (["Software Company"; "IT Company"; "Software House"; "Tech Solutions";
     "Digital Agency"; "Web Development"; "Mobile Apps"; "AI/ML Company";
     "Cybersecurity"; "Cloud Services"; "Data Analytics";
     "System Integration"],
    [
     ("Karachi",
      [
       verified_record "Arpatech" "contact@arpatech.com"
         "+92-21-34567890" "Defence, Karachi"
         "https://arpatech.com" "Software Company";
       verified_record "10Pearls" "hello@10pearls.com"
         "+92-21-34567891" "Gulshan-e-Iqbal, Karachi"
         "https://10pearls.com" "IT Company";
       verified_record "Techlogix" "info@techlogix.com"
         "+92-21-34567892" "North Nazimabad, Karachi"
         "https://techlogix.com" "Software House"
      ]);
     ("Lahore",
      [
       verified_record "NetSol Technologies" "contact@netsol.com"
         "+92-42-34567890" "Gulberg, Lahore"
         "https://netsol.com" "Tech Solutions";
       verified_record "Creative Chaos" "hello@creativechaos.io"
         "+92-42-34567891" "DHA, Lahore"
         "https://creativechaos.io" "Digital Agency"
      ]);
     ("Islamabad",
      [
       verified_record "PTCL" "info@ptcl.com.pk"
         "+92-51-34567890" "Blue Area, Islamabad"
         "https://ptcl.com.pk" "Telecommunications"
      ])
    ]));
  ("Marketing & Advertising",
   (["Digital Marketing"; "SEO Agency"; "Social Media Marketing";
     "Content Marketing"; "PPC Advertising"; "Branding Agency";
     "Creative Agency"; "Marketing Consultancy"; "Lead Generation";
     "Email Marketing"; "Influencer Marketing"; "PR Agency"],
    [
     ("Karachi",
      [
       verified_record "Digital Marketing Pro" "contact@digitalmarketingpro.com"
         "+92-21-34567893" "Defence, Karachi"
         "https://digitalmarketingpro.com" "Digital Marketing"
      ]);
     ("Lahore",
      [
       verified_record "Lahore Marketing Agency" "info@lahoremarketing.com"
         "+92-42-34567892" "Gulberg, Lahore"
         "https://lahoremarketing.com" "Marketing Consultancy"
      ])
    ]));
  ("Food & Hospitality",
   (["Restaurant"; "Fast Food"; "Cafe"; "Bakery"; "Catering";
     "Food Delivery"; "Hotel"; "Guest House"; "Travel Agency"; "Tourism";
     "Event Management"; "Wedding Services"; "Party Planning"; "Food Truck";
     "Street Food"],
    [
     ("Karachi",
      [
       verified_record "BBQ Tonight" "info@bbqtonight.com"
         "+92-21-34567894" "Clifton, Karachi"
         "https://bbqtonight.com" "Restaurant"
      ]);
     ("Lahore",
      [
       verified_record "Butt Karahi" "info@buttkarahi.com"
         "+92-42-34567893" "Mall Road, Lahore"
         "https://buttkarahi.com" "Restaurant"
      ])
    ]));
  ("Healthcare & Medical",
   (["Hospital"; "Clinic"; "Pharmacy"; "Dental Care"; "Eye Care";
     "Physiotherapy"; "Fitness Center"; "Gym"; "Yoga Studio";
     "Medical Equipment"; "Health Insurance"; "Telemedicine"; "Laboratory";
     "Diagnostic Center"; "Specialist Doctor"],
    [
     ("Karachi",
      [
       verified_record "Aga Khan Hospital" "info@agakhanhospital.org"
         "+92-21-34567895" "Stadium Road, Karachi"
         "https://agakhanhospital.org" "Hospital"
      ]);
     ("Lahore",
      [
       verified_record "Shaukat Khanum Hospital" "info@shaukatkhanum.org.pk"
         "+92-42-34567894" "Johar Town, Lahore"
         "https://shaukatkhanum.org.pk" "Hospital"
      ])
    ]));
  ("Education & Training",
   (["School"; "College"; "University"; "Training Institute";
     "Language Center"; "Computer Training"; "Professional Development";
     "Online Learning"; "Tutoring"; "Skill Development";
     "Certification Center"; "Workshop Provider"; "E-Learning"],
    [
     ("Karachi",
      [
       verified_record "IBA Karachi" "info@iba.edu.pk"
         "+92-21-34567896" "Karachi University, Karachi"
         "https://iba.edu.pk" "University"
      ]);
     ("Lahore",
      [
       verified_record "LUMS" "info@lums.edu.pk"
         "+92-42-34567895" "DHA, Lahore"
         "https://lums.edu.pk" "University"
      ])
    ]));
  ("Real Estate & Construction",
   (["Property Development"; "Real Estate Agency"; "Construction Company";
     "Architecture Firm"; "Interior Design"; "Property Management";
     "Building Materials"; "Home Renovation"; "Property Investment";
     "Land Development"; "Commercial Real Estate"; "Residential Projects"],
    [
     ("Karachi",
      [
       verified_record "Bahria Town" "info@bahriatown.com"
         "+92-21-34567897" "Defence, Karachi"
         "https://bahriatown.com" "Property Development"
      ]);
     ("Lahore",
      [
       verified_record "DHA" "info@dha.com.pk"
         "+92-42-34567896" "DHA, Lahore"
         "https://dha.com.pk" "Property Development"
      ])
    ]));
  ("Automotive & Transport",
   (["Car Dealership"; "Auto Repair"; "Car Wash"; "Auto Parts";
     "Motorcycle Shop"; "Tire Shop"; "Auto Insurance"; "Car Rental";
     "Auto Service"; "Transport Company"; "Logistics"; "Freight Forwarding";
     "Warehousing"; "Supply Chain"],
    [
     ("Karachi",
      [
       verified_record "Toyota Pakistan" "info@toyota.com.pk"
         "+92-21-34567898" "Defence, Karachi"
         "https://toyota.com.pk" "Car Dealership"
      ]);
     ("Lahore",
      [
       verified_record "Honda Pakistan" "info@honda.com.pk"
         "+92-42-34567897" "Gulberg, Lahore"
         "https://honda.com.pk" "Car Dealership"
      ])
    ]));
  ("Banking & Finance",
   (["Bank"; "Insurance Company"; "Investment Firm"; "Financial Planning";
     "Accounting Firm"; "Tax Services"; "Microfinance"; "Credit Union";
     "Stock Brokerage"; "Financial Advisory"; "Loan Services"; "Credit Card";
     "Payment Gateway"; "Fintech Company"],
    [
     ("Karachi",
      [
       verified_record "HBL" "info@hbl.com"
         "+92-21-34567899" "I.I. Chundrigar Road, Karachi"
         "https://hbl.com" "Bank"
      ]);
     ("Lahore",
      [
       verified_record "UBL" "info@ubl.com.pk"
         "+92-42-34567898" "Gulberg, Lahore"
         "https://ubl.com.pk" "Bank"
      ])
    ]));
  ("Legal & Professional Services",
   (["Law Firm"; "Legal Consultancy"; "Audit Services"; "HR Services";
     "Business Consulting"; "Management Consulting"; "Strategy Consulting";
     "Risk Management"; "Compliance Services"; "Corporate Law";
     "Criminal Law"; "Family Law"; "Property Law"],
    [
     ("Karachi",
      [
       verified_record "Karachi Law Associates" "info@karachilaw.com"
         "+92-21-34567900" "Clifton, Karachi"
         "https://karachilaw.com" "Law Firm"
      ]);
     ("Lahore",
      [
       verified_record "Lahore Legal Services" "info@lahorelegal.com"
         "+92-42-34567899" "Gulberg, Lahore"
         "https://lahorelegal.com" "Legal Consultancy"
      ])
    ]));
  ("Retail & Shopping",
   (["Fashion Store"; "Electronics Store"; "Furniture Store";
     "Jewelry Store"; "Cosmetics Store"; "Book Store"; "Sports Equipment";
     "Home Decor"; "Grocery Store"; "Supermarket"; "Department Store";
     "Online Retail"; "Franchise Store"; "Specialty Shop"],
    [
     ("Karachi",
      [
       verified_record "Karachi Fashion Hub" "info@karachifashion.com"
         "+92-21-34567901" "Saddar, Karachi"
         "https://karachifashion.com" "Fashion Store"
      ]);
     ("Lahore",
      [
       verified_record "Lahore Electronics" "info@lahoreelectronics.com"
         "+92-42-34567900" "Mall Road, Lahore"
         "https://lahoreelectronics.com" "Electronics Store"
      ])
    ]));
  ("Manufacturing & Industry",
   (["Textile Manufacturing"; "Food Processing"; "Chemical Manufacturing";
     "Steel Industry"; "Cement Industry"; "Pharmaceutical Manufacturing";
     "Electronics Manufacturing"; "Automotive Manufacturing";
     "Furniture Manufacturing"; "Plastic Industry"; "Paper Industry";
     "Leather Industry"; "Glass Industry"; "Ceramic Industry"],
    [
     ("Karachi",
      [
       verified_record "Karachi Textile Mills" "info@karachitextile.com"
         "+92-21-34567902" "Industrial Area, Karachi"
         "https://karachitextile.com" "Textile Manufacturing"
      ]);
     ("Lahore",
      [
       verified_record "Lahore Steel Works" "info@lahoresteel.com"
         "+92-42-34567901" "Industrial Estate, Lahore"
         "https://lahoresteel.com" "Steel Industry"
      ])
    ]));
  ("Media & Entertainment",
   (["TV Channel"; "Radio Station"; "Newspaper"; "Magazine";
     "Production House"; "Film Studio"; "Music Label"; "Event Management";
     "Gaming Company"; "Streaming Service"; "Content Creation";
     "Podcast Studio"; "Animation Studio"; "Digital Media"],
    [
     ("Karachi",
      [
       verified_record "Karachi Media Group" "info@karachimedia.com"
         "+92-21-34567903" "Clifton, Karachi"
         "https://karachimedia.com" "Media Group"
      ]);
     ("Lahore",
      [
       verified_record "Lahore Productions" "info@lahoreproductions.com"
         "+92-42-34567902" "Gulberg, Lahore"
         "https://lahoreproductions.com" "Production House"
      ])
    ]));
  ("Beauty & Wellness",
   (["Beauty Salon"; "Spa"; "Hair Salon"; "Nail Salon"; "Makeup Artist";
     "Beauty Products"; "Skincare Clinic"; "Hair Transplant";
     "Dental Clinic"; "Cosmetic Surgery"; "Fitness Center"; "Yoga Studio";
     "Wellness Center"],
    [
     ("Karachi",
      [
       verified_record "Karachi Beauty Salon" "info@karachibeauty.com"
         "+92-21-34567904" "Defence, Karachi"
         "https://karachibeauty.com" "Beauty Salon"
      ]);
     ("Lahore",
      [
       verified_record "Lahore Spa & Wellness" "info@lahorespa.com"
         "+92-42-34567903" "DHA, Lahore"
         "https://lahorespa.com" "Spa & Wellness"
      ])
    ]));
  ("Sports & Recreation",
   (["Sports Club"; "Gym"; "Swimming Pool"; "Tennis Court"; "Golf Club";
     "Cricket Academy"; "Football Academy"; "Martial Arts";
     "Adventure Sports"; "Sports Equipment"; "Fitness Training";
     "Personal Trainer"; "Sports Medicine"],
    [
     ("Karachi",
      [
       verified_record "Karachi Sports Club" "info@karachisports.com"
         "+92-21-34567905" "Clifton, Karachi"
         "https://karachisports.com" "Sports Club"
      ]);
     ("Lahore",
      [
       verified_record "Lahore Fitness Center" "info@lahorefitness.com"
         "+92-42-34567904" "Gulberg, Lahore"
         "https://lahorefitness.com" "Fitness Center"
      ])
    ]));
  ("Travel & Tourism",
   (["Travel Agency"; "Tour Operator"; "Hotel"; "Resort"; "Guest House";
     "Tour Guide"; "Transport Service"; "Adventure Tourism";
     "Cultural Tours"; "Pilgrimage Tours"; "Business Travel";
     "Luxury Travel"; "Budget Travel"],
    [
     ("Karachi",
      [
       verified_record "Karachi Travel Services" "info@karachitravel.com"
         "+92-21-34567906" "Saddar, Karachi"
         "https://karachitravel.com" "Travel Agency"
      ]);
     ("Lahore",
      [
       verified_record "Lahore Tourism" "info@lahoretourism.com"
         "+92-42-34567905" "Mall Road, Lahore"
         "https://lahoretourism.com" "Tour Operator"
      ])
    ]))
  ].


Fixpoint load_cities (cities : list (string * list business)) (σ : store)
  : gmap string (list item) * store :=
  match cities with
  | [] => (∅, σ)
  | (city, bs) :: rest =>
      let '(ls, σ1) := alloc_all bs σ in
      let '(m, σ2) := load_cities rest σ1 in
      (<[city := IDict <$> ls]> m, σ2)
  end.

Fixpoint load_categories
  (cats : list (string * (list string * list (string * list business))))
  (σ : store) : database * store :=
  match cats with
  | [] => (∅, σ)
  | (category, (related_types, cities)) :: rest =>
      let '(entry, σ1) := load_cities cities σ in
      let '(db, σ2) := load_categories rest σ1 in
      (<[category := <["related_types" := IStr <$> related_types]> entry]> db,
       σ2)
  end.

(** [_load_verified_businesses]: the mapping and the store that holds its
    dictionaries *)
Definition _load_verified_businesses : database * store :=
  load_categories business_database [].

(** *** Pure helpers *)

(** [_get_city_info(city)['area_code']] *)
Definition area_code (city : string) : string :=
  if String.eqb city "Karachi" then "21"
  else if String.eqb city "Lahore" then "42"
  else if String.eqb city "Islamabad" then "51"
  else if String.eqb city "Rawalpindi" then "51"
  else if String.eqb city "Faisalabad" then "41"
  else if String.eqb city "Multan" then "61"
  else if String.eqb city "Hyderabad" then "22"
  else if String.eqb city "Gujranwala" then "55"
  else if String.eqb city "Peshawar" then "91"
  else if String.eqb city "Quetta" then "81"
  else "00".

Definition _generate_domain (category city : string) (index : Z) : string :=
  let category_clean :=
    PyStr.replace "&" "" (PyStr.replace " " "" (PyStr.lower category)) in
  let city_clean := PyStr.lower city in
  let domains :=
    [ category_clean +:+ city_clean +:+ ".com";
      city_clean +:+ category_clean +:+ ".com";
      category_clean +:+ city_clean +:+ ".pk";
      city_clean +:+ category_clean +:+ ".pk";
      category_clean +:+ "pakistan.com";
      category_clean +:+ "pk.com" ] in
  default "" (domains !! Z.to_nat (index `mod` 6)).

Definition _generate_email_from_name (business_name : string) : string :=
  let clean_name :=
    PyStr.replace "-" ""
      (PyStr.replace "&" "" (PyStr.replace " " "" (PyStr.lower business_name)))
  in
  let clean_name := PyStr.filter PyStr.isalnum clean_name in
  if (3 <? PyStr.len clean_name)%Z then clean_name +:+ ".com"
  else "info@" +:+ clean_name +:+ "business.com".

(** [for suffix in suffixes: s = s.replace(suffix, '')] *)
Definition strip_suffixes (suffixes : list string) (s : string) : string :=
  fold_left (λ acc suffix, PyStr.replace suffix "" acc) suffixes s.

(** the random telephone number of a record without one *)
Definition random_phone (city : string) (randint : Z) : string :=
  "+92-" +:+ area_code city +:+ "-" +:+ pretty randint.

(** *** The outside world

    What the scrapers read off the pages they fetch, and the answers of the
    regular-expression, validation and DNS libraries.  A fetch that raises
    (network error, HTTP error status) is [None]. *)

Inductive href_obs : Type :=
| NoAnchor                (* [find('a')] is [None] *)
| NoHref                  (* the anchor has no [href] *)
| Href (h : string).

(** one [div.g] of a Google result page *)
Record search_result : Type := SearchResult {
  sr_title : option string;    (* text of its [h3] *)
  sr_link : href_obs;
  sr_snippet : option string;  (* text of its [div.VwiC3b] *)
  sr_randint : Z               (* [random.randint(10000000, 99999999)] *)
}.

(** one candidate element of a Google Maps page *)
Record maps_element : Type := MapsElement {
  me_name_element : option string; (* text of the first name child *)
  me_tag : string;                 (* [element.name] *)
  me_text : string;                (* [element.get_text()] *)
  me_address_element : option string;
  me_phone_element : option string;
  me_link : href_obs;
  me_randint : Z
}.

Record world : Type := World {
  get_google_search : string → option (list search_result);
  get_google_maps : string → option (list maps_element);
  (** the text nodes of a business web site *)
  get_website : string → option (list string);
  (** [re.findall(email_pattern, text)] *)
  findall_email : string → list string;
  (** [re.findall(phone_pattern, text)]: (country, area, number) groups *)
  findall_phone : string → list (string * string * string);
  (** [validate_email(email)] *)
  validate_email : string → result unit;
  (** [dns.resolver.resolve(domain, 'MX')] *)
  resolve_mx : string → result unit
}.

(** *** Stateful computations: a store, and a value or an exception *)
Definition M (A : Type) : Type := store → result A * store.

Definition ret {A} (a : A) : M A := λ σ, (Ok a, σ).
Definition raise {A} (e : exn) : M A := λ σ, (Raise e, σ).
Definition bind {A B} (m : M A) (k : A → M B) : M B :=
  λ σ, match m σ with
       | (Ok a, σ') => k a σ'
       | (Raise e, σ') => (Raise e, σ')
       end.
(** [try: m  except Exception: h] *)
Definition try_except {A} (m : M A) (h : exn → M A) : M A :=
  λ σ, match m σ with
       | (Ok a, σ') => (Ok a, σ')
       | (Raise e, σ') => h e σ'
       end.
Definition get_store : M store := λ σ, (Ok σ, σ).
Definition modify (f : store → store) : M unit := λ σ, (Ok tt, f σ).
(** new objects for freshly built dictionaries *)
Definition new_dicts (bs : list business) : M (list loc) :=
  λ σ, let '(ls, σ') := alloc_all bs σ in (Ok ls, σ').

Notation "'do' x <- m ; k" := (bind m (λ x, k))
  (at level 10, x name, m at level 100, k at level 200,
   format "'[v' 'do'  x  <-  m ; '/' k ']'").

Section Methods.
Context (w : world) (verified_businesses : database).

Definition _extract_email_from_text (text : string) : string :=
  match findall_email w text with
  | e :: _ => e
  | [] => ""
  end.

Definition _extract_phone_from_text (text : string) : string :=
  match findall_phone w text with
  | (country, area, number) :: _ => "+92-" +:+ area +:+ "-" +:+ number
  | [] => ""
  end.

(** One iteration of the loop of [_scrape_google_search] over the result
    elements: the dictionary it appends, or [None] when the iteration ends
    in [continue] (no title, or an exception caught by the inner handler:
    an anchor without [href] makes [link.startswith] raise). *)
Definition google_search_business (category city : string)
  (r : search_result) : option business :=
  match sr_title r with
  | None => None
  | Some t =>
      let title := PyStr.strip t in
      let business_name :=
        strip_suffixes
          [" - Home"; " - Official Website"; " | Official Site"; " - Pakistan"]
          title in
      let snippet_text := default "" (sr_snippet r) in
      let email := _extract_email_from_text snippet_text in
      let email :=
        if String.eqb email "" then _generate_email_from_name business_name
        else email in
      let phone := _extract_phone_from_text snippet_text in
      let build (link : string) : business :=
        {| name := Some business_name;
           email := Some email;
           phone := Some (if String.eqb phone ""
                          then random_phone city (sr_randint r) else phone);
           address := Some (city +:+ ", Pakistan");
           website := Some (if PyStr.startswith "http" link then link
                            else "https://" +:+ link);
           business_type := Some category;
           verified := Some false;
           source := Some "google_search" |} in
      match sr_link r with
      | NoAnchor => Some (build "")
      | NoHref => None
      | Href link => Some (build link)
      end
  end.

Definition _scrape_google_search (category city : string) (count : Z)
  : list business :=
  let search_query := category +:+ " businesses in " +:+ city +:+ " Pakistan" in
  let url := "https://www.google.com/search?q="
             +:+ PyStr.replace " " "+" search_query
             +:+ "&num=" +:+ pretty count in
  match get_google_search w url with
  | None => []
  | Some search_results =>
      omap (google_search_business category city)
           (PyStr.slice_to count search_results)
  end.

(** The dictionary one iteration of the element loop of
    [_scrape_google_maps] builds, or [None] when it ends in [continue]. *)
Definition google_maps_business (category city : string)
  (e : maps_element) : option business :=
  let business_name :=
    match me_name_element e with
    | Some t => PyStr.strip t
    | None =>
        if String.eqb (me_tag e) "h3" then PyStr.strip (me_text e)
        else if String.eqb (me_tag e) "div"
             then PyStr.take 50 (PyStr.strip (me_text e))
             else ""
    end in
  if String.eqb business_name "" || (PyStr.len business_name <? 3)%Z
  then None
  else
    let business_name :=
      PyStr.strip (default "" (head (PyStr.split "010" business_name))) in
    let business_name :=
      strip_suffixes
        [" - Google Maps"; " - Home"; " | Official Site"; " - Pakistan"]
        business_name in
    let address :=
      match me_address_element e with
      | Some t => PyStr.strip t
      | None => city +:+ ", Pakistan"
      end in
    let phone :=
      match me_phone_element e with
      | Some t => PyStr.strip t
      | None => ""
      end in
    let phone :=
      if String.eqb phone "" then random_phone city (me_randint e) else phone in
    let email := _generate_email_from_name business_name in
    let website :=
      match me_link e with
      | Href href =>
          if PyStr.startswith "http" href then href
          else if PyStr.startswith "/" href
               then "https://www.google.com" +:+ href
               else ""
      | NoAnchor | NoHref => ""
      end in
    let website :=
      if String.eqb website ""
      then "https://" +:+ _generate_domain category city 0 else website in
    Some {| name := Some business_name;
            email := Some email;
            phone := Some phone;
            address := Some address;
            website := Some website;
            business_type := Some category;
            verified := Some false;
            source := Some "google_maps" |}.

(** [any(b['name'].lower() == business_name.lower() for b in businesses)] *)
Definition name_already_added (b : business) (businesses : list business)
  : bool :=
  existsb (λ b', String.eqb (PyStr.lower (default "" (name b')))
                            (PyStr.lower (default "" (name b))))
          businesses.

(** the loop over the elements of one page, with its [break] *)
Fixpoint maps_elements_loop (category city : string) (count : Z)
  (elements : list maps_element) (businesses : list business)
  : list business :=
  match elements with
  | [] => businesses
  | e :: rest =>
      match google_maps_business category city e with
      | None => maps_elements_loop category city count rest businesses
      | Some b =>
          let businesses :=
            if name_already_added b businesses then businesses
            else businesses ++ [b] in
          if (count <=? Z.of_nat (length businesses))%Z then businesses
          else maps_elements_loop category city count rest businesses
      end
  end.

(** the loop over the candidate URLs, with its [break] *)
Fixpoint maps_urls_loop (category city : string) (count : Z)
  (urls : list string) (businesses : list business) : list business :=
  match urls with
  | [] => businesses
  | url :: rest =>
      match get_google_maps w url with
      | None => maps_urls_loop category city count rest businesses
      | Some business_elements =>
          let businesses :=
            maps_elements_loop category city count
              (PyStr.slice_to count business_elements) businesses in
          match businesses with
          | _ :: _ => businesses
          | [] => maps_urls_loop category city count rest businesses
          end
      end
  end.

Definition _scrape_google_maps (category city : string) (count : Z)
  : list business :=
  let search_query := category +:+ " in " +:+ city +:+ " Pakistan" in
  let q := PyStr.replace " " "+" search_query in
  let urls :=
    [ "https://www.google.com/maps/search/" +:+ q;
      "https://www.google.com/maps/place/" +:+ q;
      "https://www.google.com/search?q=" +:+ q +:+ "+site:maps.google.com" ]
  in
  maps_urls_loop category city count urls [].

(** [business.get('name', '').lower().strip()] *)
Definition name_key (σ : store) (l : loc) : string :=
  PyStr.strip (PyStr.lower (default "" (name (deref σ l)))).

(** [business.get('email', '').lower().strip()] *)
Definition email_key (σ : store) (l : loc) : string :=
  PyStr.strip (PyStr.lower (default "" (email (deref σ l)))).

(** [_remove_duplicates]: reads the dictionaries, returns a new list of
    references to the kept ones *)
Definition _remove_duplicates (σ : store) (businesses : list loc) : list loc :=
  let step (st : gset string * gset string * list loc) (business : loc) :=
    let '(seen_names, seen_emails, unique_businesses) := st in
    let name := name_key σ business in
    let email := email_key σ business in
    if bool_decide (name ∉ seen_names) && bool_decide (email ∉ seen_emails)
    then ({[name]} ∪ seen_names, {[email]} ∪ seen_emails,
          unique_businesses ++ [business])
    else st in
  (fold_left step businesses (∅, ∅, [])).2.

(** [category in self.verified_businesses and
     city in self.verified_businesses[category]], and the list found *)
Definition lookup_city (category city : string) : option (list item) :=
  match verified_businesses !! category with
  | Some entry => entry !! city
  | None => None
  end.

(** [for business in businesses: business['source'] = tag].  Item
    assignment on a [str] raises [TypeError]; the assignments made before
    it stay.  On success every element is a dictionary, and the references
    are returned. *)
Fixpoint tag_sources (tag : string) (businesses : list item) : M (list loc) :=
  match businesses with
  | [] => ret []
  | IStr _ :: _ => raise TypeError
  | IDict l :: rest =>
      do _ <- modify (alter (set_source tag) l);
      do ls <- tag_sources tag rest;
      ret (l :: ls)
  end.

Definition _get_fallback_businesses (category city : string) (count : Z)
  : M (list loc) :=
  match lookup_city category city with
  | Some stored =>
      (* [.copy()]: a new list holding the same references *)
      let businesses := stored in
      do businesses <- tag_sources "verified_database_fallback" businesses;
      ret (PyStr.slice_to count businesses)
  | None => ret []
  end.

(** [soup.find(string=lambda text: text and pattern in text.lower())] *)
Definition find_string (pattern : string) (nodes : list string)
  : option string :=
  head (List.filter
          (λ text, negb (String.eqb text "")
                   && PyStr.contains pattern (PyStr.lower text)) nodes).

(** the loop over [address_patterns], with its [break] *)
Fixpoint find_address (patterns : list string) (nodes : list string)
  : option string :=
  match patterns with
  | [] => None
  | pattern :: rest =>
      match find_string pattern nodes with
      | Some address_element =>
          let address_text := PyStr.strip address_element in
          if (10 <? PyStr.len address_text)%Z
             && existsb (λ word, PyStr.contains word (PyStr.lower address_text))
                  ["street"; "road"; "avenue"; "pakistan"; "karachi";
                   "lahore"; "islamabad"]
          then Some address_text
          else find_address rest nodes
      | None => find_address rest nodes
      end
  end.

Definition nonempty_str (s : string) : option string :=
  if String.eqb s "" then None else Some s.

Definition _scrape_business_website (website business_name : string)
  : enhanced_data :=
  match get_website w website with
  | None => EnhancedData None None None
  | Some nodes =>
      let text := PyStr.concat nodes in
      {| e_email := nonempty_str (_extract_email_from_text text);
         e_phone := nonempty_str (_extract_phone_from_text text);
         e_address :=
           find_address
             ["address"; "location"; "contact"; "office"; "headquarters"]
             nodes |}
  end.

(** The body of the loop of [_enhance_business_data] for one business.
    [business['name']] raises [KeyError] when the key is absent, first
    inside the [try] and then again inside its handler, which lets it
    escape; a missing [source] raises after [update] has been applied and
    is swallowed by the handler. *)
Definition enhance_one (business : loc) : M unit :=
  do σ <- get_store;
  let b := deref σ business in
  let ws := default "" (website b) in
  if negb (String.eqb ws "") && PyStr.startswith "http" ws then
    match name b with
    | None => raise KeyError
    | Some nm =>
        let data := _scrape_business_website ws nm in
        if nonempty_data data then
          match source b with
          | Some src =>
              modify (alter (λ b, set_source (src +:+ "_enhanced")
                                             (update data b)) business)
          | None => modify (alter (update data) business)
          end
        else ret tt
    end
  else ret tt.

Fixpoint _enhance_business_data (businesses : list loc) : M (list loc) :=
  match businesses with
  | [] => ret []
  | business :: rest =>
      do _ <- enhance_one business;
      do enhanced_businesses <- _enhance_business_data rest;
      ret (business :: enhanced_businesses)
  end.

(** the two [except] clauses of [_validate_business_emails]: [true] when the
    business goes to [valid_businesses] *)
Definition validation_handler (e : exn) : bool :=
  match e with
  | EmailNotValidError => false
  | _ => true
  end.

(** one business of [_validate_business_emails]: [true] for valid *)
Definition email_is_valid (b : business) : bool :=
  let email := default "" (email b) in
  if String.eqb email "" then false
  else
    match validate_email w email with
    | Raise e => validation_handler e
    | Ok _ =>
        match PyStr.split "@" email !! 1%nat with
        | None => validation_handler IndexError
        | Some domain =>
            match resolve_mx w domain with
            | Ok _ => true
            | Raise _ => true
            end
        end
    end.

Definition _validate_business_emails (σ : store) (businesses : list loc)
  : list loc * list loc :=
  fold_left
    (λ '(valid_businesses, invalid_businesses) business,
       if email_is_valid (deref σ business)
       then (valid_businesses ++ [business], invalid_businesses)
       else (valid_businesses, invalid_businesses ++ [business]))
    businesses ([], []).

(** the [try] block of [collect_businesses] *)
Definition collect_pipeline (category city : string) (target_count : Z)
  : M (list loc) :=
  let google_businesses :=
    _scrape_google_search category city (Z.min (target_count `div` 2) 50) in
  do google_refs <- new_dicts google_businesses;
  let maps_businesses :=
    _scrape_google_maps category city (Z.min (target_count `div` 2) 50) in
  do maps_refs <- new_dicts maps_businesses;
  let all_businesses := google_refs ++ maps_refs in
  do all_businesses <-
    (if (Z.of_nat (length all_businesses) <? target_count `div` 2)%Z then
       match lookup_city category city with
       | Some stored =>
           do verified <- tag_sources "verified_database" stored;
           ret (all_businesses ++ verified)
       | None => ret all_businesses
       end
     else ret all_businesses);
  do σ <- get_store;
  let unique_businesses := _remove_duplicates σ all_businesses in
  do enhanced_businesses <- _enhance_business_data unique_businesses;
  do σ <- get_store;
  let '(valid_businesses, invalid_businesses) :=
    _validate_business_emails σ enhanced_businesses in
  ret valid_businesses.

Definition collect_businesses (category city : string) (target_count : Z)
  : M (list loc) :=
  try_except
    (do valid_businesses <- collect_pipeline category city target_count;
     ret (PyStr.slice_to target_count valid_businesses))
    (λ _, _get_fallback_businesses category city target_count).

End Methods.

(** *** The built-in validator

    Installed when [email_validator] cannot be imported. *)

Definition one_of (chars : string) (c : ascii) : bool :=
  PyStr.existsb (Ascii.eqb c) chars.

(** [^[a-zA-Z0-9._%+-]+@[a-zA-Z0-9.-]+\.[a-zA-Z]{2,}$] *)
Definition email_pattern : Regex.regex :=
  Regex.Seq
    (Regex.plus (Regex.Class (λ c, PyStr.isalnum c || one_of "._%+-" c)))
    (Regex.Seq (Regex.char "@")
       (Regex.Seq
          (Regex.plus (Regex.Class (λ c, PyStr.isalnum c || one_of ".-" c)))
          (Regex.Seq (Regex.char ".")
             (Regex.at_least_two (Regex.Class PyStr.is_alpha))))).

(** the fallback [validate_email]: it raises a plain [ValueError] *)
Definition fallback_validate_email (email : string) : result unit :=
  if Regex.match_anchored email_pattern email then Ok tt
  else Raise ValueError.

(** the collector after [__init__] *)
Definition verified_businesses : database := _load_verified_businesses.1.
Definition initial_store : store := _load_verified_businesses.2.


(** the records stored under a (category, city) key *)
Definition stored_records (db : database) (σ : store) (category city : string)
  : list business :=
  match lookup_city db category city with
  | Some items =>
      omap (λ i, match i with IDict l => Some (deref σ l) | IStr _ => None end)
           items
  | None => []
  end.

(** *** Statistics and the lists of keys *)

(** the dictionary stored in [self.last_scraping_stats] *)
Record scraping_stats : Type := ScrapingStats {
  total_businesses : nat;
  sources : gmap string nat
}.

(** the loop that fills [source_counts] *)
Definition count_sources (σ : store) (businesses : list loc)
  : gmap string nat :=
  fold_left
    (λ source_counts business,
       let src := default "unknown" (source (deref σ business)) in
       <[src := (default 0 (source_counts !! src) + 1)%nat]> source_counts)
    businesses ∅.

(** [_log_scraping_statistics]: the value of [self.last_scraping_stats]
    after the call, given its value before; [None] is the empty dictionary
    [__init__] stores *)
Definition _log_scraping_statistics (σ : store) (businesses : list loc)
  (last_scraping_stats : option scraping_stats) : option scraping_stats :=
  match businesses with
  | [] => last_scraping_stats
  | _ :: _ =>
      Some {| total_businesses := length businesses;
              sources := count_sources σ businesses |}
  end.

(** [get_cities]: built as a [set] and returned as a list in no particular
    order *)
Definition get_cities (db : database) : gset string :=
  ⋃ ((λ category_data : gmap string (list item),
        dom category_data ∖ {["related_types"]})
       <$> (map_to_list db).*2).

End BusinessCollector.

(** ** enhanced_scraper.py *)
Module EnhancedScraper.

(** [@dataclass class ScrapedBusiness] *)
Record ScrapedBusiness : Type := MkScrapedBusiness {
  name : string;
  email : option string;
  phone : option string;
  address : option string;
  website : option string;
  business_type : option string;
  category : option string;
  city : option string;
  description : option string;
  social_media : option (list (string * string));
  verified : bool;
  source : string;
  confidence_score : float
}.

(** [ScrapedBusiness(name=..., business_type=..., city=..., source=...)]:
    the other fields take the defaults of the dataclass *)
Definition new_ScrapedBusiness (name business_type city source : string)
  : ScrapedBusiness :=
  {| name := name; email := None; phone := None; address := None;
     website := None; business_type := Some business_type; category := None;
     city := Some city; description := None; social_media := None;
     verified := false; source := source; confidence_score := 0.0 |}.

(** [business.name and len(business.name.strip()) >= 3] *)
Definition name_ok (name : string) : bool :=
  negb (String.eqb name "") && (3 <=? PyStr.len (PyStr.strip name))%Z.

(** [business.business_type and business.category and
     business.business_type.lower() in business.category.lower()] *)
Definition type_in_category (business : ScrapedBusiness) : bool :=
  match business_type business, category business with
  | Some bt, Some cat =>
      negb (String.eqb bt "") && negb (String.eqb cat "")
      && PyStr.contains (PyStr.lower bt) (PyStr.lower cat)
  | _, _ => false
  end.

(** [business.source in ["pakistan_business_directory", "yellow_pages_pk"]] *)
Definition trusted_source (business : ScrapedBusiness) : bool :=
  String.eqb (source business) "pakistan_business_directory"
  || String.eqb (source business) "yellow_pages_pk".

(** [min(score, 1.0)] *)
Definition min_one (score : float) : float :=
  if PrimFloat.ltb 1.0 score then 1.0%float else score.

Definition _calculate_confidence_score (business : ScrapedBusiness) : float :=
  let score := 0.0%float in
  let score := if name_ok (name business) then (score + 0.3)%float else score in
  let score :=
    if PyStr.truthy (email business) then (score + 0.25)%float else score in
  let score :=
    if PyStr.truthy (phone business) then (score + 0.2)%float else score in
  let score :=
    if PyStr.truthy (website business) then (score + 0.15)%float else score in
  let score :=
    if PyStr.truthy (address business) then (score + 0.1)%float else score in
  let score :=
    if type_in_category business then (score + 0.1)%float else score in
  let score :=
    if trusted_source business then (score + 0.05)%float else score in
  min_one score.

(** The score in the words of the specification: the sum, taken in this
    order, of the weights of the criteria a record meets, clamped to at
    most 1.0. *)
Definition weighted_sum (criteria : list (bool * float)) : float :=
  fold_left (λ (acc : float) '(met, weight),
               if met : bool then (acc + weight)%float else acc)
            criteria 0.0%float.

Definition confidence_score_spec (business : ScrapedBusiness) : float :=
  min_one
    (weighted_sum
       [ (name_ok (name business), 0.3%float);
         (PyStr.truthy (email business), 0.25%float);
         (PyStr.truthy (phone business), 0.2%float);
         (PyStr.truthy (website business), 0.15%float);
         (PyStr.truthy (address business), 0.1%float);
         (type_in_category business, 0.1%float);
         (trusted_source business, 0.05%float) ]).

(** What the extraction reads off one listing element: the text (already
    stripped) of the first match of a selector, and the text of the whole
    element. *)
Record element : Type := Element {
  select_one : string → option string;
  get_text : string
}.

(** an entry of [self.business_sources] *)
Record source_config : Type := SourceConfig {
  base_url : string;
  search_pattern : string;
  business_selectors : list string;
  name_selectors : list string;
  contact_selectors : list string
}.

(** the dictionary [_extract_contact_info] returns *)
Record contact_info : Type := ContactInfo {
  c_phone : option string;
  c_email : option string;
  c_address : option string;
  c_website : option string
}.

(** [business.email = contact_info.get('email')] and the three assignments
    after it *)
Definition set_contact (info : contact_info) (b : ScrapedBusiness)
  : ScrapedBusiness :=
  {| name := name b; email := c_email info; phone := c_phone info;
     address := c_address info; website := c_website info;
     business_type := business_type b; category := category b;
     city := city b; description := description b;
     social_media := social_media b; verified := verified b;
     source := source b; confidence_score := confidence_score b |}.

(** [business.confidence_score = score] *)
Definition set_confidence_score (score : float) (b : ScrapedBusiness)
  : ScrapedBusiness :=
  {| name := name b; email := email b; phone := phone b;
     address := address b; website := website b;
     business_type := business_type b; category := category b;
     city := city b; description := description b;
     social_media := social_media b; verified := verified b;
     source := source b; confidence_score := score |}.

Section Extraction.
(** [_extract_contact_info]: first-match extraction by regular expressions,
    left abstract *)
Context (_extract_contact_info : string → contact_info).

(** the loop over [name_selectors], with its [break] *)
Fixpoint first_name (selectors : list string) (e : element) : option string :=
  match selectors with
  | [] => None
  | selector :: rest =>
      match select_one e selector with
      | Some text => Some text
      | None => first_name rest e
      end
  end.

(** the record after the contact fields and the score have been assigned *)
Definition scored_business (nm category city source_name : string)
  (e : element) : ScrapedBusiness :=
  let business := new_ScrapedBusiness nm category city source_name in
  let business := set_contact (_extract_contact_info (get_text e)) business in
  set_confidence_score (_calculate_confidence_score business) business.

Definition _extract_business_from_element (e : element) (cfg : source_config)
  (category city source_name : string) : option ScrapedBusiness :=
  match first_name (name_selectors cfg) e with
  | None => None
  | Some nm =>
      if String.eqb nm "" || (PyStr.len (PyStr.strip nm) <? 3)%Z then None
      else
        let business := scored_business nm category city source_name e in
        if PrimFloat.leb 0.3 (confidence_score business) then Some business
        else None
  end.

End Extraction.

(** the composite key of [_remove_duplicates] *)
Definition identifier (business : ScrapedBusiness) : string :=
  PyStr.strip (PyStr.lower (name business)) +:+ "_"
  +:+ PyStr.or_default (phone business) "no_phone" +:+ "_"
  +:+ PyStr.or_default (city business) "no_city".

Definition _remove_duplicates (businesses : list ScrapedBusiness)
  : list ScrapedBusiness :=
  let step (st : gset string * list ScrapedBusiness) business :=
    let '(seen, unique_businesses) := st in
    if bool_decide (identifier business ∉ seen)
    then ({[identifier business]} ∪ seen, unique_businesses ++ [business])
    else st in
  (fold_left step businesses (∅, [])).2.

(** *** Requests *)

(** [_get_next_proxy]: the proxy handed out and the new value of
    [self.current_proxy_index]; [None] for an empty list.  Indexing the list
    past its end raises [IndexError]. *)
Definition _get_next_proxy (proxy_list : list string)
  (current_proxy_index : nat) : result (option string) * nat :=
  match proxy_list with
  | [] => (Ok None, current_proxy_index)
  | _ :: _ =>
      match proxy_list !! current_proxy_index with
      | Some proxy =>
          (Ok (Some proxy),
           (current_proxy_index + 1) `mod` length proxy_list)
      | None => (Raise IndexError, current_proxy_index)
      end
  end.

(** [self.max_retries] *)
Definition max_retries : Z := 3.

Record response : Type := Response {
  status_code : Z;
  content : string
}.

(** The part of the scraper a request reads and writes, and the calls of
    [self.session.get] made so far (URL and proxy of each, oldest first).
    The delays of [_rate_limit] and the choice of headers are left out. *)
Record requester : Type := Requester {
  current_proxy_index : nat;
  sent : list (string * option string)
}.

Section Requests.
(** [self.proxy_list], and the answer of [self.session.get]: a response or
    an exception.  The answer may depend on how many calls were made
    before. *)
Context (proxy_list : list string)
        (session_get : nat → string → option string → result response).

(** [_make_request], by recursion on a bound on the number of attempts.
    The outer [None] says the bound was too small; the inner one is the
    [None] the method returns. *)
Fixpoint make_request_go (fuel : nat) (url : string) (retries : Z)
  (st : requester) : option (option response) * requester :=
  match fuel with
  | O => (None, st)
  | S fuel' =>
      (* the [except Exception] handler *)
      let handler (st' : requester) :=
        if (retries <? max_retries)%Z
        then make_request_go fuel' url (retries + 1) st'
        else (Some None, st') in
      let '(proxy, index) :=
        if (0 <? retries)%Z
        then _get_next_proxy proxy_list (current_proxy_index st)
        else (Ok None, current_proxy_index st) in
      match proxy with
      | Raise _ =>
          handler {| current_proxy_index := index; sent := sent st |}
      | Ok proxy =>
          (* [... if proxy else None]: an empty string is falsy *)
          let proxies :=
            match proxy with
            | Some p => if String.eqb p "" then None else Some p
            | None => None
            end in
          let st' := {| current_proxy_index := index;
                        sent := sent st ++ [(url, proxies)] |} in
          match session_get (length (sent st)) url proxies with
          | Raise _ => handler st'
          | Ok response =>
              if (status_code response =? 200)%Z
              then (Some (Some response), st')
              else if ((status_code response =? 429)%Z
                       || (status_code response =? 503)%Z)
                      && (retries <? max_retries)%Z
                   then make_request_go fuel' url (retries + 1) st'
                   else (Some None, st')
          end
      end
  end.

Definition _make_request (url : string) (retries : Z) (st : requester)
  : option (option response) * requester :=
  make_request_go (S (Z.to_nat (max_retries - retries))) url retries st.

End Requests.

(** *** Directories *)

(** [self.business_sources] *)
Definition business_sources : gmap string source_config :=
  list_to_map
    [ ("pakistan_business_directory",
       {| base_url := "https://www.pakistanbusinessdirectory.com";
          search_pattern := "search?q={query}";
          business_selectors :=
            [".business-listing"; ".company-item"; ".business-card";
             ".listing-item"; ".company-listing"; ".business-result"];
          name_selectors := ["h2"; "h3"; ".business-name"; ".company-name"];
          contact_selectors :=
            [".contact-info"; ".business-details"; ".company-details"] |});
      ("yellow_pages_pk",
       {| base_url := "https://www.yellowpages.pk";
          search_pattern := "search?category={category}&city={city}";
          business_selectors :=
            [".business-listing"; ".company-item"; ".listing-item";
             ".business-card"; ".company-card"; ".result-item"];
          name_selectors := ["h3"; "h4"; ".business-name"; ".company-name"];
          contact_selectors :=
            [".contact-details"; ".business-info"; ".company-info"] |});
      ("pakistan_companies",
       {| base_url := "https://www.pakistan-companies.com";
          search_pattern := "search?q={query}";
          business_selectors :=
            [".company-listing"; ".business-item"; ".company-card";
             ".business-result"; ".company-result"; ".listing-item"];
          name_selectors := ["h2"; "h3"; ".company-name"; ".business-name"];
          contact_selectors :=
            [".company-details"; ".business-details"; ".contact-info"] |}) ].

Section Directory.
Context (proxy_list : list string)
        (session_get : nat → string → option string → result response)
        (** [urllib.parse.quote_plus] *)
        (quote_plus : string → string)
        (** [pattern.format] with keyword arguments: it raises on a field it
            is not given *)
        (format : string → list (string * string) → result string)
        (** [BeautifulSoup(response.content, 'html.parser').select(selector)] *)
        (select : response → string → result (list element))
        (_extract_contact_info : string → contact_info).

(** the loop over [business_selectors], with its [break] *)
Fixpoint first_elements (r : response) (selectors : list string)
  : result (list element) :=
  match selectors with
  | [] => Ok []
  | selector :: rest =>
      match select r selector with
      | Raise e => Raise e
      | Ok [] => first_elements r rest
      | Ok elements => Ok elements
      end
  end.

(** [scrape_business_directory]: the businesses, and the requester after
    the call.  An exception inside the [try] leaves the list as it is at
    that point, which is empty in every case. *)
Definition scrape_business_directory (sources : gmap string source_config)
  (source_name category city : string) (st : requester)
  : list ScrapedBusiness * requester :=
  match sources !! source_name with
  | None => ([], st)
  | Some source_config =>
      let pattern := search_pattern source_config in
      let formatted :=
        if PyStr.contains "{category}" pattern
           && PyStr.contains "{city}" pattern
        then format pattern [("category", quote_plus category);
                             ("city", quote_plus city)]
        else
          let query := category +:+ " " +:+ city +:+ " pakistan" in
          format pattern [("query", quote_plus query)] in
      match formatted with
      | Raise _ => ([], st)
      | Ok path =>
          let search_url := base_url source_config +:+ "/" +:+ path in
          match _make_request proxy_list session_get search_url 0 st with
          | (Some (Some r), st') =>
              match first_elements r (business_selectors source_config) with
              | Raise _ | Ok [] => ([], st')
              | Ok business_elements =>
                  (omap (λ e, _extract_business_from_element
                                _extract_contact_info e source_config
                                category city source_name)
                        (take 20 business_elements),
                   st')
              end
          | (_, st') => ([], st')
          end
      end
  end.

End Directory.

(** *** Several directories *)

(** [sorted(l, key=lambda x: x.confidence_score, reverse=True)]: a stable
    sort by descending score, here by insertion.  An element goes in front
    of the first one with a smaller score, hence behind those with the same
    score that came before it. *)
Fixpoint insert_by_score (x : ScrapedBusiness) (l : list ScrapedBusiness)
  : list ScrapedBusiness :=
  match l with
  | [] => [x]
  | y :: l' =>
      if PrimFloat.ltb (confidence_score y) (confidence_score x)
      then x :: y :: l'
      else y :: insert_by_score x l'
  end.

Definition sorted_by_score (l : list ScrapedBusiness) : list ScrapedBusiness :=
  fold_left (λ acc x, insert_by_score x acc) l [].

(** [scrape_multiple_sources], from the point where the futures complete:
    [completed] holds the lists the calls of [scrape_business_directory]
    returned, in the order [as_completed] yields them (a future that
    raised contributes nothing). *)
Definition scrape_multiple_sources (completed : list (list ScrapedBusiness))
  (max_businesses : Z) : list ScrapedBusiness :=
  let all_businesses := concat completed in
  let unique_businesses := _remove_duplicates all_businesses in
  let sorted_businesses := sorted_by_score unique_businesses in
  PyStr.slice_to max_businesses sorted_businesses.

End EnhancedScraper.

(** ** free_business_collector.py *)
Module FreeBusinessCollector.

(** [@dataclass class BusinessData] *)
Record BusinessData : Type := MkBusinessData {
  name : string;
  email : option string;
  phone : option string;
  address : option string;
  website : option string;
  business_type : option string;
  category : option string;
  city : option string;
  verified : bool;
  source : string
}.

Definition identifier (business : BusinessData) : string :=
  PyStr.strip (PyStr.lower (name business)) +:+ "_"
  +:+ PyStr.or_default (phone business) "no_phone".

Definition _remove_duplicates (businesses : list BusinessData)
  : list BusinessData :=
  let step (st : gset string * list BusinessData) business :=
    let '(seen, unique_businesses) := st in
    if bool_decide (identifier business ∉ seen)
    then ({[identifier business]} ∪ seen, unique_businesses ++ [business])
    else st in
  (fold_left step businesses (∅, [])).2.

(** the three tests of the loop of [_filter_businesses]: [true] when the
    business is appended *)
Definition relevant (category city : string) (business : BusinessData)
  : bool :=
  (* [if not business.name or len(business.name.strip()) < 3: continue] *)
  negb (String.eqb (name business) ""
        || (PyStr.len (PyStr.strip (name business)) <? 3)%Z)
  (* [if business.city and city.lower() not in business.city.lower()] *)
  && negb (match FreeBusinessCollector.city business with
           | Some c =>
               negb (String.eqb c "")
               && negb (PyStr.contains (PyStr.lower city) (PyStr.lower c))
           | None => false
           end)
  (* [if business.business_type and
         category.lower() not in business.business_type.lower()] *)
  && negb (match business_type business with
           | Some t =>
               negb (String.eqb t "")
               && negb (PyStr.contains (PyStr.lower category) (PyStr.lower t))
           | None => false
           end).

Definition _filter_businesses (businesses : list BusinessData)
  (category city : string) : list BusinessData :=
  List.filter (relevant category city) businesses.

Section Collect.
(** the two network methods of [collect_businesses]; each catches its own
    exceptions and returns a list *)
Context (search_businesses_duckduckgo : string → string → list BusinessData)
        (scrape_business_directory : string → string → list BusinessData).

(** [collect_businesses]; the location lookup only writes to the log *)
Definition collect_businesses (category city : string) (target_count : Z)
  : list BusinessData :=
  let ddg_businesses := search_businesses_duckduckgo category city in
  let scraped_businesses := scrape_business_directory category city in
  let all_businesses := ddg_businesses ++ scraped_businesses in
  let unique_businesses := _remove_duplicates all_businesses in
  let filtered_businesses :=
    _filter_businesses unique_businesses category city in
  PyStr.slice_to target_count filtered_businesses.

End Collect.

End FreeBusinessCollector.


(** ** gemini_business_generator.py *)
Module GeminiBusinessGenerator.

(** [@dataclass class BusinessData] *)
Record BusinessData : Type := MkBusinessData {
  name : string;
  email : string;
  phone : string;
  address : string;
  website : string;
  business_type : string;
  category : string;
  city : string;
  verified : bool;
  source : string;
  description : string;
  employees : string;
  founded_year : string;
  services : string
}.

(** the duplicate-prevention sets of the generator object *)
Record history : Type := History {
  existing_names : gset string;
  existing_emails : gset string
}.

(** *** The tables of [_get_fallback_businesses_with_duplicate_prevention] *)

Definition technology_names : list string :=
  [
    "TechVision Solutions"; "Digital Dynamics"; "InnovateTech Systems";
    "SmartCode Solutions"; "FutureTech Hub"; "CyberTech Services";
    "DataFlow Technologies"; "CloudTech Solutions"; "MobileTech Innovations";
    "WebTech Pro"; "TechGenius Labs"; "Digital Forge"; "Innovate Solutions";
    "Smart Systems"; "Future Dynamics"; "Cyber Dynamics"; "Data Solutions";
    "Cloud Systems"; "Mobile Solutions"; "Web Dynamics"; "Tech Masters";
    "Digital Solutions"; "Innovate Labs"; "Smart Tech"; "Future Solutions";
    "Cyber Labs"; "Data Tech"; "Cloud Labs"; "Mobile Tech"; "Web Solutions";
    "Tech Dynamics"
  ].

Definition healthcare_names : list string :=
  [
    "MedCare Plus"; "HealthFirst Clinic"; "Wellness Solutions";
    "CareTech Medical"; "HealthHub Services"; "MedTech Innovations";
    "PatientCare Solutions"; "HealthTech Systems"; "CareFirst Medical";
    "WellTech Services"; "MedCare Solutions"; "HealthFirst Plus";
    "Wellness Tech"; "CareTech Solutions"; "HealthHub Plus";
    "MedTech Solutions"; "PatientCare Plus"; "HealthTech Plus";
    "CareFirst Solutions"; "WellTech Plus"; "MedCare Tech";
    "HealthFirst Solutions"; "Wellness Plus"; "CareTech Plus";
    "HealthHub Tech"; "MedTech Plus"; "PatientCare Tech";
    "HealthTech Solutions"; "CareFirst Tech"; "WellTech Solutions"
  ].

Definition education_names : list string :=
  [
    "EduTech Solutions"; "Learning Hub"; "Knowledge Center";
    "Smart Education"; "EduVision Pro"; "Learning Technologies";
    "Knowledge Hub"; "EduTech Innovations"; "Smart Learning";
    "Education Plus"; "EduTech Plus"; "Learning Solutions"; "Knowledge Plus";
    "Smart Tech"; "EduVision Solutions"; "Learning Plus"; "Knowledge Tech";
    "EduTech Hub"; "Smart Solutions"; "Education Tech"; "EduTech Center";
    "Learning Tech"; "Knowledge Solutions"; "Smart Plus"; "EduVision Tech"
  ].

Definition generic_names (category : string) : list string :=
  [
    (category +:+ " Solutions Pvt Ltd");
    ("Elite " +:+ category +:+ " Services");
    ("Prime " +:+ category +:+ " Hub"); ("Next Gen " +:+ category);
    ("Smart " +:+ category +:+ " Co");
    ("Advanced " +:+ category +:+ " Systems");
    ("Professional " +:+ category +:+ " Group");
    ("Modern " +:+ category +:+ " Solutions");
    ("Expert " +:+ category +:+ " Services");
    ("Premium " +:+ category +:+ " Co"); (category +:+ " Dynamics");
    ("Elite " +:+ category +:+ " Solutions");
    ("Prime " +:+ category +:+ " Services");
    ("Next Gen " +:+ category +:+ " Solutions");
    ("Smart " +:+ category +:+ " Services");
    ("Advanced " +:+ category +:+ " Solutions");
    ("Professional " +:+ category +:+ " Solutions");
    ("Modern " +:+ category +:+ " Services");
    ("Expert " +:+ category +:+ " Solutions");
    ("Premium " +:+ category +:+ " Services"); (category +:+ " Tech");
    ("Elite " +:+ category +:+ " Tech"); ("Prime " +:+ category +:+ " Tech");
    ("Next Gen " +:+ category +:+ " Tech");
    ("Smart " +:+ category +:+ " Tech");
    ("Advanced " +:+ category +:+ " Tech");
    ("Professional " +:+ category +:+ " Tech");
    ("Modern " +:+ category +:+ " Tech");
    ("Expert " +:+ category +:+ " Tech");
    ("Premium " +:+ category +:+ " Tech")
  ].

Definition islamabad_addresses : list string :=
  [
    "Blue Area"; "F-7 Markaz"; "G-8 Markaz"; "I-8 Markaz"; "F-10 Markaz";
    "G-11 Markaz"; "I-11 Markaz"; "F-8 Markaz"; "G-9 Markaz"; "I-9 Markaz"
  ].

Definition lahore_addresses : list string :=
  [
    "Gulberg"; "Defence"; "Model Town"; "Johar Town"; "Bahria Town";
    "DHA Phase 1"; "DHA Phase 2"; "DHA Phase 3"; "DHA Phase 4"; "DHA Phase 5"
  ].

Definition karachi_addresses : list string :=
  [
    "Clifton"; "Defence"; "Gulshan-e-Iqbal"; "North Nazimabad";
    "Gulistan-e-Jauhar"; "Malir"; "Landhi"; "Korangi"; "Saddar"; "Lyari"
  ].

Definition rawalpindi_addresses : list string :=
  [
    "Saddar"; "Raja Bazar"; "Bank Road"; "Mall Road"; "Peshawar Road";
    "Grand Trunk Road"; "Airport Road"; "Murree Road"; "Lehtrar Road";
    "Adiala Road"
  ].

Definition descriptions (category city : string) : list string :=
  [ "Leading " +:+ PyStr.lower category +:+ " company in " +:+ city
    +:+ " providing innovative solutions and professional services.";
    "Established " +:+ PyStr.lower category +:+ " business serving " +:+ city
    +:+ " with quality services and customer satisfaction.";
    "Professional " +:+ PyStr.lower category +:+ " services in " +:+ city
    +:+ " with years of experience and expertise.";
    "Trusted " +:+ PyStr.lower category +:+ " company in " +:+ city
    +:+ " offering comprehensive solutions and support.";
    "Innovative " +:+ PyStr.lower category +:+ " business in " +:+ city
    +:+ " focused on delivering excellence and results." ].

Definition fallback_names (category : string) : list string :=
  if String.eqb (PyStr.lower category) "technology" then technology_names
  else if String.eqb (PyStr.lower category) "healthcare" then healthcare_names
  else if String.eqb (PyStr.lower category) "education" then education_names
  else generic_names category.

(** [city_addresses.get(city, [f"Business District {i+1}" ...])] *)
Definition addresses_of (city : string) : list string :=
  if String.eqb city "Islamabad" then islamabad_addresses
  else if String.eqb city "Lahore" then lahore_addresses
  else if String.eqb city "Karachi" then karachi_addresses
  else if String.eqb city "Rawalpindi" then rawalpindi_addresses
  else (λ i : nat, "Business District " +:+ pretty (i + 1)%nat) <$> seq 0 20.

(** [city_codes.get(city, "30")] *)
Definition city_code_of (city : string) : string :=
  if String.eqb city "Islamabad" then "51"
  else if String.eqb city "Lahore" then "42"
  else if String.eqb city "Karachi" then "21"
  else if String.eqb city "Rawalpindi" then "51"
  else "30".

(** [xs[i % len(xs)]] for a non-empty list *)
Definition cyclic (xs : list string) (i : nat) : string :=
  default "" (xs !! (i `mod` length xs)%nat).

(** the variables the loop updates *)
Record loop_state : Type := LoopState {
  unique_businesses : list BusinessData;
  used_names : gset string;
  used_emails : gset string;
  hist : history
}.

(** the record built at index [i] when [n] records were kept before it *)
Definition fallback_business (category city : string) (i n : nat)
  (nm company_name email_addr : string) : BusinessData :=
  let phone_suffix := (1000000 + Z.of_nat i * 10000 + Z.of_nat i * 123)%Z in
  {| name := nm;
     email := email_addr;
     phone := "+92-" +:+ city_code_of city +:+ "-" +:+ pretty phone_suffix;
     address := cyclic (addresses_of city) i +:+ ", " +:+ city;
     website := "www." +:+ company_name +:+ ".com";
     business_type := category;
     category := category;
     city := city;
     verified := bool_decide (n < 5)%nat;
     source := "realistic_fallback_data";
     description := cyclic (descriptions category city) i;
     employees := if bool_decide (n < 5)%nat then "10-50" else "5-20";
     founded_year := pretty (2015 + Z.of_nat i `mod` 10)%Z;
     services := category
                 +:+ " Consulting, Development, Support, Training, Maintenance"
  |}.

(** the loop [for i in range(len(fallback_names))], from index [i] on *)
Fixpoint fallback_loop (category city : string) (count : Z) (i : nat)
  (names : list string) (st : loop_state) : loop_state :=
  match names with
  | [] => st
  | nm :: rest =>
      if (count <=? Z.of_nat (length (unique_businesses st)))%Z then st
      else
        let company_name :=
          PyStr.replace "&" ""
            (PyStr.replace "-" ""
               (PyStr.replace "." "" (PyStr.replace " " "" (PyStr.lower nm))))
        in
        let email_addr := "info@" +:+ company_name +:+ ".com" in
        if bool_decide (PyStr.lower nm ∈ used_names st)
           || bool_decide (PyStr.lower email_addr ∈ used_emails st)
        then fallback_loop category city count (S i) rest st
        else if bool_decide (PyStr.lower nm ∈ existing_names (hist st))
                || bool_decide
                     (PyStr.lower email_addr ∈ existing_emails (hist st))
        then fallback_loop category city count (S i) rest st
        else
          let business :=
            fallback_business category city i (length (unique_businesses st))
              nm company_name email_addr in
          fallback_loop category city count (S i) rest
            {| unique_businesses := unique_businesses st ++ [business];
               used_names := {[PyStr.lower nm]} ∪ used_names st;
               used_emails := {[PyStr.lower email_addr]} ∪ used_emails st;
               hist :=
                 {| existing_names :=
                      {[PyStr.lower nm]} ∪ existing_names (hist st);
                    existing_emails :=
                      {[PyStr.lower email_addr]} ∪ existing_emails (hist st)
                 |} |}
  end.

(** returns the list and the updated sets of the generator *)
Definition _get_fallback_businesses_with_duplicate_prevention
  (category city : string) (count : Z) (h : history)
  : list BusinessData * history :=
  let st :=
    fallback_loop category city count 0 (fallback_names category)
      {| unique_businesses := []; used_names := ∅; used_emails := ∅;
         hist := h |} in
  (unique_businesses st, hist st).

(** *** Parsing a model response *)

(** one object of the ["businesses"] array of a decoded response; a field
    is [None] when the key is absent *)
Record json_business : Type := JsonBusiness {
  j_name : option string;
  j_email : option string;
  j_phone : option string;
  j_address : option string;
  j_website : option string;
  j_business_type : option string;
  j_category : option string;
  j_city : option string;
  j_verified : option bool;
  j_source : option string;
  j_description : option string;
  j_employees : option string;
  j_founded_year : option string;
  j_services : option string
}.

(** what [_parse_gemini_response] finds in the response text *)
Inductive decoded : Type :=
| NoBraces             (* no opening or closing brace *)
| DecodeError          (* [json.loads] raises *)
| Decoded (businesses : list json_business).

(** one iteration of the loop over [data.get('businesses', [])] *)
Definition parse_business (category city : string) (d : json_business)
  : option BusinessData :=
  let email_addr := default "" (j_email d) in
  if String.eqb email_addr "" || String.eqb email_addr "info@unknown.com"
     || negb (PyStr.contains "@" email_addr)
  then None
  else
    Some {| name := default "Unknown Business" (j_name d);
            email := email_addr;
            phone := default "+92-XX-XXXXXXX" (j_phone d);
            address := default ("Unknown Address, " +:+ city) (j_address d);
            website := default "www.unknown.com" (j_website d);
            business_type := default category (j_business_type d);
            category := default category (j_category d);
            city := default city (j_city d);
            verified := default false (j_verified d);
            source := default "gemini_ai" (j_source d);
            description := default "" (j_description d);
            employees := default "" (j_employees d);
            founded_year := default "" (j_founded_year d);
            services := default "" (j_services d) |}.

Section Parse.
(** locating and decoding the JSON text of a response *)
Context (decode : string → decoded).

(** When the text has no braces the code calls [_get_fallback_businesses],
    which this class does not define; the [AttributeError] is caught by the
    last handler, like a decoding error. *)
Definition _parse_gemini_response (response_text category city : string)
  (h : history) : list BusinessData * history :=
  match decode response_text with
  | NoBraces =>
      _get_fallback_businesses_with_duplicate_prevention category city 5 h
  | DecodeError =>
      _get_fallback_businesses_with_duplicate_prevention category city 5 h
  | Decoded businesses => (omap (parse_business category city) businesses, h)
  end.

End Parse.

(** *** Duplicate detection against the history *)

Definition common_words : gset string :=
  list_to_set
    ["pvt"; "ltd"; "limited"; "company"; "co"; "corp"; "corporation";
     "solutions"; "services"; "group"; "systems"].

(** [set(name.replace('-', ' ').replace('.', ' ').split()) - common_words] *)
Definition name_words (name : string) : gset string :=
  list_to_set
    (PyStr.split_whitespace
       (PyStr.replace "." " " (PyStr.replace "-" " " name)))
  ∖ common_words.

(** the [float] of a [len(...)] *)
Definition float_of_len (n : nat) : float :=
  PrimFloat.of_uint63 (Uint63.of_Z (Z.of_nat n)).

Definition _names_are_similar (name1 name2 : string) : bool :=
  let words1 := name_words name1 in
  let words2 := name_words name2 in
  if negb (bool_decide (words1 = ∅)) && negb (bool_decide (words2 = ∅))
  then
    let intersection := words1 ∩ words2 in
    let union := words1 ∪ words2 in
    let similarity :=
      (float_of_len (size intersection) / float_of_len (size union))%float in
    PrimFloat.ltb 0.7 similarity
  else false.

Definition _is_duplicate (h : history) (business : BusinessData) : bool :=
  let business_name := PyStr.lower (PyStr.strip (name business)) in
  let business_email := PyStr.lower (PyStr.strip (email business)) in
  if bool_decide (business_name ∈ existing_names h) then true
  else if bool_decide (business_email ∈ existing_emails h) then true
  else existsb (λ existing_name, _names_are_similar business_name existing_name)
               (elements (existing_names h)).

(** *** [generate_businesses] *)

Section Generate.
(** locating and decoding the JSON text of a response, and the text (or
    the exception) of the [n]-th call of [model.generate_content] *)
Context (decode : string → decoded) (generate_content : nat → result string).

(** the loop over one parsed batch, with its [break] *)
Fixpoint accept_batch (target_count : Z) (businesses : list BusinessData)
  (unique_businesses : list BusinessData) (h : history)
  : list BusinessData * history :=
  match businesses with
  | [] => (unique_businesses, h)
  | business :: rest =>
      if negb (String.eqb (email business) "")
         && PyStr.contains "@" (email business)
         && negb (String.eqb (email business) "info@unknown.com")
         && negb (_is_duplicate h business)
      then
        let unique_businesses := unique_businesses ++ [business] in
        let h :=
          {| existing_names :=
               {[PyStr.lower (PyStr.strip (name business))]}
               ∪ existing_names h;
             existing_emails :=
               {[PyStr.lower (PyStr.strip (email business))]}
               ∪ existing_emails h |} in
        if (target_count <=? Z.of_nat (length unique_businesses))%Z
        then (unique_businesses, h)
        else accept_batch target_count rest unique_businesses h
      else accept_batch target_count rest unique_businesses h
  end.

(** The [while] loop.  [remaining] is [max_attempts - attempts], so that
    [attempts < max_attempts] reads [remaining > 0]; an exception of the
    model call leaves the loop. *)
Fixpoint generate_loop (remaining attempts : nat) (category city : string)
  (target_count : Z) (unique_businesses : list BusinessData) (h : history)
  : result (list BusinessData) * history :=
  match remaining with
  | O => (Ok unique_businesses, h)
  | S remaining' =>
      if (Z.of_nat (length unique_businesses) <? target_count)%Z then
        let attempts := S attempts in
        match generate_content attempts with
        | Raise e => (Raise e, h)
        | Ok response_text =>
            let '(businesses, h) :=
              _parse_gemini_response decode response_text category city h in
            let '(unique_businesses, h) :=
              accept_batch target_count businesses unique_businesses h in
            generate_loop remaining' attempts category city target_count
              unique_businesses h
        end
      else (Ok unique_businesses, h)
  end.

(** [fallback_mode] stands for [self.fallback_mode or not self.model] *)
Definition generate_businesses (fallback_mode : bool)
  (category city : string) (target_count : Z) (h : history)
  : list BusinessData * history :=
  if fallback_mode
  then _get_fallback_businesses_with_duplicate_prevention
         category city target_count h
  else
    match generate_loop (Z.to_nat (target_count * 3)) 0 category city
            target_count [] h with
    | (Ok unique_businesses, h') => (unique_businesses, h')
    | (Raise _, h') =>
        _get_fallback_businesses_with_duplicate_prevention
          category city target_count h'
    end.

End Generate.

End GeminiBusinessGenerator.

(** * Properties *)

(** ** The greedy deduplication loops *)
Section TwoKeyDedupFacts.
Context {A : Type} (name_key email_key : A → string).

Lemma fold_dedup_step l : ∀ sn se acc,
  (fold_left (dedup_step name_key email_key) l (sn, se, acc)).2 = acc ++ kept_from name_key email_key sn se l.
Proof.
  induction l as [|b l IH]; intros sn se acc; simpl.
  - by rewrite app_nil_r.
  - destruct (bool_decide (name_key b ∉ sn) && bool_decide (email_key b ∉ se)).
    + rewrite IH. by rewrite <- app_assoc.
    + apply IH.
Qed.

Lemma dedup_two_keys_kept l :
  dedup_two_keys name_key email_key l = kept_from name_key email_key ∅ ∅ l.
Proof. unfold dedup_two_keys. by rewrite fold_dedup_step. Qed.

Lemma kept_from_fresh l : ∀ sn se b,
  b ∈ kept_from name_key email_key sn se l → (name_key b ∉ sn) ∧ (email_key b ∉ se).
Proof.
  induction l as [|a l IH]; intros sn se b; simpl.
  - by intros ?%elem_of_nil.
  - destruct (bool_decide (name_key a ∉ sn)) eqn:Hn;
      destruct (bool_decide (email_key a ∉ se)) eqn:He; simpl; try apply IH.
    apply bool_decide_eq_true in Hn. apply bool_decide_eq_true in He.
    intros [->|Hin]%elem_of_cons; [done|].
    apply IH in Hin as [Hin1 Hin2].
    split; intros ?; [apply Hin1|apply Hin2]; apply elem_of_union; by right.
Qed.

Lemma kept_from_NoDup l : ∀ sn se,
  NoDup (name_key <$> kept_from name_key email_key sn se l) ∧
  NoDup (email_key <$> kept_from name_key email_key sn se l).
Proof.
  induction l as [|a l IH]; intros sn se; simpl.
  - split; constructor.
  - destruct (bool_decide (name_key a ∉ sn) && bool_decide (email_key a ∉ se));
      [|apply IH].
    destruct (IH ({[name_key a]} ∪ sn) ({[email_key a]} ∪ se)) as [IHn IHe].
    rewrite !fmap_cons. split; constructor; trivial.
    + intros (b & Hb & Hin)%list_elem_of_fmap.
      apply kept_from_fresh in Hin as [Hin _]. apply Hin.
      apply elem_of_union. left. by apply elem_of_singleton.
    + intros (b & Hb & Hin)%list_elem_of_fmap.
      apply kept_from_fresh in Hin as [_ Hin]. apply Hin.
      apply elem_of_union. left. by apply elem_of_singleton.
Qed.

Lemma kept_from_fixed l : ∀ sn se,
  kept_from name_key email_key sn se (kept_from name_key email_key sn se l) = kept_from name_key email_key sn se l.
Proof.
  induction l as [|a l IH]; intros sn se; simpl; [done|].
  destruct (bool_decide (name_key a ∉ sn) && bool_decide (email_key a ∉ se))
    eqn:Hkeep.
  - simpl. rewrite Hkeep. by rewrite IH.
  - apply IH.
Qed.

End TwoKeyDedupFacts.

Section OneKeyDedupFacts.
Context {A : Type} (identifier : A → string).

Lemma fold_dedup1_step l : ∀ seen acc,
  (fold_left (dedup1_step identifier) l (seen, acc)).2 = acc ++ kept1_from identifier seen l.
Proof.
  induction l as [|b l IH]; intros seen acc; simpl.
  - by rewrite app_nil_r.
  - destruct (bool_decide (identifier b ∉ seen)).
    + rewrite IH. by rewrite <- app_assoc.
    + apply IH.
Qed.

Lemma kept1_from_fresh l : ∀ seen b,
  b ∈ kept1_from identifier seen l → identifier b ∉ seen.
Proof.
  induction l as [|a l IH]; intros seen b; simpl.
  - by intros ?%elem_of_nil.
  - destruct (bool_decide (identifier a ∉ seen)) eqn:Hn; [|apply IH].
    apply bool_decide_eq_true in Hn.
    intros [->|Hin]%elem_of_cons; [done|].
    apply IH in Hin. intros ?. apply Hin. apply elem_of_union. by right.
Qed.

Lemma kept1_from_NoDup l :
  ∀ seen, NoDup (identifier <$> kept1_from identifier seen l).
Proof.
  induction l as [|a l IH]; intros seen; simpl; [constructor|].
  destruct (bool_decide (identifier a ∉ seen)); [|apply IH].
  rewrite fmap_cons. constructor; [|apply IH].
  intros (b & Hb & Hin)%list_elem_of_fmap.
  apply kept1_from_fresh in Hin. apply Hin.
  apply elem_of_union. left. by apply elem_of_singleton.
Qed.


End OneKeyDedupFacts.

(** ** Deduplication in [BusinessCollector] *)

Lemma BusinessCollector_dedup_two_keys σ L :
  BusinessCollector._remove_duplicates σ L =
  dedup_two_keys (BusinessCollector.name_key σ) (BusinessCollector.email_key σ) L.
Proof. reflexivity. Qed.

(** C6.  For every list [L] of business dictionaries (references into any
    store [σ]), no two elements of [_remove_duplicates(L)] share a
    lowercased, trimmed name, and no two share a lowercased, trimmed
    e-mail: the lists of normalized names and of normalized e-mails of the
    result have no repetition. *)
Theorem remove_duplicates_distinct_keys
  (σ : BusinessCollector.store) (L : list BusinessCollector.loc) :
  NoDup (BusinessCollector.name_key σ <$> BusinessCollector._remove_duplicates σ L)
  ∧ NoDup (BusinessCollector.email_key σ
             <$> BusinessCollector._remove_duplicates σ L).
Proof.
  rewrite BusinessCollector_dedup_two_keys, dedup_two_keys_kept.
  apply kept_from_NoDup.
Qed.

(** C7.  [_remove_duplicates] is idempotent: applying it to its own result
    returns that result. *)
Theorem remove_duplicates_idempotent
  (σ : BusinessCollector.store) (L : list BusinessCollector.loc) :
  BusinessCollector._remove_duplicates σ (BusinessCollector._remove_duplicates σ L)
  = BusinessCollector._remove_duplicates σ L.
Proof.
  rewrite !BusinessCollector_dedup_two_keys, !dedup_two_keys_kept.
  apply kept_from_fixed.
Qed.

(** ** Deduplication in the enhanced and free collectors *)

Lemma EnhancedScraper_dedup_one_key L :
  EnhancedScraper._remove_duplicates L
  = dedup_one_key EnhancedScraper.identifier L.
Proof. reflexivity. Qed.

Lemma FreeBusinessCollector_dedup_one_key L :
  FreeBusinessCollector._remove_duplicates L
  = dedup_one_key FreeBusinessCollector.identifier L.
Proof. reflexivity. Qed.

Lemma dedup_one_key_NoDup {A} (identifier : A → string) L :
  NoDup (identifier <$> dedup_one_key identifier L).
Proof.
  unfold dedup_one_key. rewrite fold_dedup1_step. apply kept1_from_NoDup.
Qed.







(** ** Confidence scoring in [EnhancedScraper] *)

Definition full_record : EnhancedScraper.ScrapedBusiness :=
  EnhancedScraper.set_contact
    (EnhancedScraper.ContactInfo
       (Some "+92 21 345 6789") (Some "info@acme.com.pk")
       (Some "12 Main Road, Karachi") (Some "https://acme.com.pk"))
    (EnhancedScraper.new_ScrapedBusiness
       "Acme Ltd" "Technology" "Karachi" "yellow_pages_pk").

Definition name_only_record : EnhancedScraper.ScrapedBusiness :=
  EnhancedScraper.new_ScrapedBusiness
    "Acme Ltd" "Technology" "Karachi" "pakistan_companies".

(** C9.  [_calculate_confidence_score] is the weighted sum of the
    specification (+0.3 valid name, +0.25 e-mail, +0.2 telephone, +0.15 web
    site, +0.1 address, +0.1 business type inside category, +0.05 trusted
    directory), clamped to at most 1.0.  A record with a valid name, e-mail,
    telephone, web site, address and a trusted source scores exactly 1.0; a
    record with only a valid name scores exactly 0.3.  The name is measured
    as the code measures it, after trimming; the containment test ignores
    case. *)
Theorem confidence_score_weighted_sum (b : EnhancedScraper.ScrapedBusiness) :
  EnhancedScraper._calculate_confidence_score b
  = EnhancedScraper.confidence_score_spec b
  ∧ (EnhancedScraper.name_ok (EnhancedScraper.name b) = true →
     PyStr.truthy (EnhancedScraper.email b) = true →
     PyStr.truthy (EnhancedScraper.phone b) = true →
     PyStr.truthy (EnhancedScraper.website b) = true →
     PyStr.truthy (EnhancedScraper.address b) = true →
     EnhancedScraper.trusted_source b = true →
     EnhancedScraper._calculate_confidence_score b = 1.0%float)
  ∧ (EnhancedScraper.name_ok (EnhancedScraper.name b) = true →
     PyStr.truthy (EnhancedScraper.email b) = false →
     PyStr.truthy (EnhancedScraper.phone b) = false →
     PyStr.truthy (EnhancedScraper.website b) = false →
     PyStr.truthy (EnhancedScraper.address b) = false →
     EnhancedScraper.type_in_category b = false →
     EnhancedScraper.trusted_source b = false →
     EnhancedScraper._calculate_confidence_score b = 0.3%float).
Proof.
  split; [reflexivity|].
  unfold EnhancedScraper._calculate_confidence_score.
  split.
  - intros -> -> -> -> -> ->.
    destruct (EnhancedScraper.type_in_category b); reflexivity.
  - intros -> -> -> -> -> -> ->. reflexivity.
Qed.

Lemma confidence_score_examples :
  EnhancedScraper._calculate_confidence_score full_record = 1.0%float
  ∧ EnhancedScraper._calculate_confidence_score name_only_record = 0.3%float.
Proof.
  split.
  - apply (proj1 (proj2 (confidence_score_weighted_sum full_record)));
      reflexivity.
  - apply (proj2 (proj2 (confidence_score_weighted_sum name_only_record)));
      reflexivity.
Defined.

Lemma score_at_least_floor (b : EnhancedScraper.ScrapedBusiness) :
  EnhancedScraper.name_ok (EnhancedScraper.name b) = true →
  PrimFloat.leb 0.3 (EnhancedScraper._calculate_confidence_score b) = true.
Proof.
  unfold EnhancedScraper._calculate_confidence_score. intros ->.
  destruct (PyStr.truthy (EnhancedScraper.email b)),
    (PyStr.truthy (EnhancedScraper.phone b)),
    (PyStr.truthy (EnhancedScraper.website b)),
    (PyStr.truthy (EnhancedScraper.address b)),
    (EnhancedScraper.type_in_category b),
    (EnhancedScraper.trusted_source b); reflexivity.
Qed.

(** the guard of [_extract_business_from_element] is the negation of the
    name criterion of the score *)
Lemma name_guard_name_ok (nm : string) :
  String.eqb nm "" || (PyStr.len (PyStr.strip nm) <? 3)%Z
  = negb (EnhancedScraper.name_ok nm).
Proof.
  unfold EnhancedScraper.name_ok.
  rewrite negb_andb, negb_involutive. f_equal.
  rewrite Z.leb_antisym. by rewrite negb_involutive.
Qed.

Section FloorUnreachable.
Context (extract : string → EnhancedScraper.contact_info)
        (e : EnhancedScraper.element) (cfg : EnhancedScraper.source_config)
        (category city source_name : string).

(** C10.  A record that [_extract_business_from_element] constructs has
    passed the name guard and therefore scores at least 0.3, so the test
    against the 0.3 floor never discards it: the function returns a record
    exactly when the extracted name passes the guard, and then it returns
    the scored record itself. *)
Theorem confidence_floor_unreachable :
  (∀ b,
     EnhancedScraper._extract_business_from_element
       extract e cfg category city source_name = Some b →
     ∃ nm,
       EnhancedScraper.first_name (EnhancedScraper.name_selectors cfg) e
       = Some nm
       ∧ EnhancedScraper.name_ok nm = true
       ∧ b = EnhancedScraper.scored_business
               extract nm category city source_name e
       ∧ PrimFloat.leb 0.3 (EnhancedScraper.confidence_score b) = true)
  ∧ (∀ nm,
       EnhancedScraper.first_name (EnhancedScraper.name_selectors cfg) e
       = Some nm →
       EnhancedScraper.name_ok nm = true →
       EnhancedScraper._extract_business_from_element
         extract e cfg category city source_name
       = Some (EnhancedScraper.scored_business
                 extract nm category city source_name e)).
Proof.
  assert (Hfloor : ∀ nm, EnhancedScraper.name_ok nm = true →
    PrimFloat.leb 0.3
      (EnhancedScraper.confidence_score
         (EnhancedScraper.scored_business
            extract nm category city source_name e)) = true).
  { intros nm Hok. unfold EnhancedScraper.scored_business. simpl.
    by apply score_at_least_floor. }
  unfold EnhancedScraper._extract_business_from_element. split.
  - intros b.
    destruct (EnhancedScraper.first_name _ e) as [nm|]; [|done].
    rewrite name_guard_name_ok.
    destruct (EnhancedScraper.name_ok nm) eqn:Hok; [|done]. cbn [negb].
    rewrite (Hfloor nm Hok). intros [= <-]. exists nm.
    by rewrite (Hfloor nm Hok).
  - intros nm -> Hok. rewrite name_guard_name_ok, Hok. cbn [negb].
    by rewrite (Hfloor nm Hok).
Qed.

End FloorUnreachable.

Definition sample_element : EnhancedScraper.element :=
  {| EnhancedScraper.select_one :=
       λ selector, if String.eqb selector "h3" then Some "Acme Ltd" else None;
     EnhancedScraper.get_text := "Acme Ltd" |}.

Definition yellow_pages_pk : EnhancedScraper.source_config :=
  {| EnhancedScraper.base_url := "https://www.yellowpages.pk";
     EnhancedScraper.search_pattern := "search?category={category}&city={city}";
     EnhancedScraper.business_selectors :=
       [".business-listing"; ".company-item"; ".listing-item";
        ".business-card"; ".company-card"; ".result-item"];
     EnhancedScraper.name_selectors :=
       ["h3"; "h4"; ".business-name"; ".company-name"];
     EnhancedScraper.contact_selectors :=
       [".contact-details"; ".business-info"; ".company-info"] |}.

Definition no_contact (text : string) : EnhancedScraper.contact_info :=
  EnhancedScraper.ContactInfo None None None None.

Lemma confidence_floor_example :
  EnhancedScraper._extract_business_from_element
    no_contact sample_element yellow_pages_pk
    "Technology" "Karachi" "yellow_pages_pk"
  = Some (EnhancedScraper.scored_business
            no_contact "Acme Ltd" "Technology" "Karachi" "yellow_pages_pk"
            sample_element).
Proof.
  apply (proj2 (confidence_floor_unreachable
                  no_contact sample_element yellow_pages_pk
                  "Technology" "Karachi" "yellow_pages_pk"));
    reflexivity.
Defined.

(** ** E-mail validation in [BusinessCollector] *)

(** a world in which every fetch fails and no pattern matches *)
Definition offline (validator : string → result unit)
  : BusinessCollector.world :=
  {| BusinessCollector.get_google_search := λ _, None;
     BusinessCollector.get_google_maps := λ _, None;
     BusinessCollector.get_website := λ _, None;
     BusinessCollector.findall_email := λ _, [];
     BusinessCollector.findall_phone := λ _, [];
     BusinessCollector.validate_email := validator;
     BusinessCollector.resolve_mx := λ _, Raise OtherException |}.

(** What the loop of [_validate_business_emails] decides for one business:
    it is invalid exactly when the e-mail is absent or empty, or when
    [validate_email] raises [EmailNotValidError].  The answer of the MX
    lookup has no influence. *)
Lemma email_is_valid_false_iff (w : BusinessCollector.world)
  (b : BusinessCollector.business) :
  BusinessCollector.email_is_valid w b = false
  ↔ default "" (BusinessCollector.email b) = ""
    ∨ BusinessCollector.validate_email w (default "" (BusinessCollector.email b))
      = Raise EmailNotValidError.
Proof.
  unfold BusinessCollector.email_is_valid.
  destruct (String.eqb_spec (default "" (BusinessCollector.email b)) "")
    as [Heq|Hne]; [by split; [left|]|].
  split.
  - intros H. right.
    destruct (BusinessCollector.validate_email w _) as [u|e].
    + destruct (_ !! 1%nat); [|discriminate].
      destruct (BusinessCollector.resolve_mx w _); discriminate.
    + destruct e; try discriminate. reflexivity.
  - intros [H|H]; [contradiction|]. by rewrite H.
Qed.

Definition malformed : BusinessCollector.business :=
  {| BusinessCollector.name := Some "Acme Ltd";
     BusinessCollector.email := Some "not-an-email";
     BusinessCollector.phone := Some "+92-21-34567890";
     BusinessCollector.address := Some "Karachi, Pakistan";
     BusinessCollector.website := Some "https://acme.example";
     BusinessCollector.business_type := Some "Technology";
     BusinessCollector.verified := Some false;
     BusinessCollector.source := Some "google_search" |}.

(** C4 (defect).  With the built-in validator the malformed address
    "not-an-email" is classified valid: the validator raises a plain
    [ValueError], which the [except EmailNotValidError] clause does not
    catch and the [except Exception] clause turns into "valid".  The
    well-formed "info@example.com" is classified valid as well. *)
Theorem builtin_validator_keeps_malformed :
  BusinessCollector.fallback_validate_email "not-an-email" = Raise ValueError
  ∧ BusinessCollector._validate_business_emails
      (offline BusinessCollector.fallback_validate_email) [malformed] [0%nat]
    = ([0%nat], [])
  ∧ BusinessCollector.fallback_validate_email "info@example.com" = Ok tt.
Proof. vm_compute. repeat split; reflexivity. Qed.

(** ** The verified data and its aliases *)

Definition sources_of (σ : BusinessCollector.store) (category city : string)
  : list (option string) :=
  BusinessCollector.source
    <$> BusinessCollector.stored_records
          BusinessCollector.verified_businesses σ category city.

(** C3 (defect).  [list.copy()] copies the references only: after
    [_get_fallback_businesses("Technology", "Karachi", 1)] on a new
    collector the three dictionaries stored under Technology/Karachi carry
    the source tag 'verified_database_fallback' instead of
    'verified_database'. *)
Theorem fallback_lookup_rewrites_stored_records :
  sources_of BusinessCollector.initial_store "Technology" "Karachi"
  = [Some "verified_database"; Some "verified_database";
     Some "verified_database"]
  ∧ sources_of
      (BusinessCollector._get_fallback_businesses
         BusinessCollector.verified_businesses "Technology" "Karachi" 1
         BusinessCollector.initial_store).2
      "Technology" "Karachi"
    = [Some "verified_database_fallback"; Some "verified_database_fallback";
       Some "verified_database_fallback"].
Proof. vm_compute. split; reflexivity. Qed.

(** ** [collect_businesses] *)

(** C8 (defect).  "related_types" is a key of every category entry, next
    to the cities, and its list holds strings.  With that city and no
    scraped results the fallback branch raises [TypeError] on the first
    item assignment; the handler calls [_get_fallback_businesses], which
    raises the same [TypeError], and this one reaches the caller. *)
Theorem collect_businesses_raises_on_related_types :
  BusinessCollector.collect_businesses
    (offline BusinessCollector.fallback_validate_email)
    BusinessCollector.verified_businesses "Technology" "related_types" 2
    BusinessCollector.initial_store
  = (Raise TypeError, BusinessCollector.initial_store).
Proof. vm_compute. reflexivity. Qed.






Lemma retag_healthcare_lahore :
  alter (BusinessCollector.set_source "verified_database") 11%nat
    BusinessCollector.initial_store
  = BusinessCollector.initial_store.
Proof. vm_compute. reflexivity. Qed.




(** ** The [verified] flag *)

Lemma google_search_business_unverified w category city r b :
  BusinessCollector.google_search_business w category city r = Some b →
  BusinessCollector.verified b = Some false.
Proof.
  unfold BusinessCollector.google_search_business.
  destruct (BusinessCollector.sr_title r); [|done].
  destruct (BusinessCollector.sr_link r); intros [= <-]; reflexivity.
Qed.

Lemma google_maps_business_unverified category city e b :
  BusinessCollector.google_maps_business category city e = Some b →
  BusinessCollector.verified b = Some false.
Proof.
  unfold BusinessCollector.google_maps_business.
  destruct (_ || _); [done|]. intros [= <-]; reflexivity.
Qed.

Definition unverified (b : BusinessCollector.business) : Prop :=
  BusinessCollector.verified b = Some false.

Lemma maps_elements_loop_unverified category city count elements :
  ∀ businesses,
    Forall unverified businesses →
    Forall unverified
      (BusinessCollector.maps_elements_loop
         category city count elements businesses).
Proof.
  induction elements as [|e rest IH]; intros businesses Hall; [done|].
  cbn [BusinessCollector.maps_elements_loop].
  destruct (BusinessCollector.google_maps_business category city e)
    as [b|] eqn:Hb; [|by apply IH].
  apply google_maps_business_unverified in Hb.
  assert (Forall unverified
            (if BusinessCollector.name_already_added b businesses
             then businesses else businesses ++ [b])) as Hall'.
  { destruct (BusinessCollector.name_already_added b businesses); [done|].
    apply Forall_app. split; [done|]. by constructor. }
  destruct (_ <=? _)%Z; [done|]. by apply IH.
Qed.

Lemma maps_urls_loop_unverified w category city count urls :
  ∀ businesses,
    Forall unverified businesses →
    Forall unverified
      (BusinessCollector.maps_urls_loop w category city count urls businesses).
Proof.
  induction urls as [|url rest IH]; intros businesses Hall; [done|].
  cbn [BusinessCollector.maps_urls_loop].
  destruct (BusinessCollector.get_google_maps w url) as [elements|];
    [|by apply IH].
  pose proof (maps_elements_loop_unverified category city count
                (PyStr.slice_to count elements) businesses Hall) as Hall'.
  destruct (BusinessCollector.maps_elements_loop _ _ _ _ _); [|done].
  by apply IH.
Qed.

(** the flags of the records the fallback generation returns: [True] for
    the first five, [False] after them *)
Definition first_five (l : list GeminiBusinessGenerator.BusinessData)
  : list bool :=
  (λ i : nat, bool_decide (i < 5)%nat) <$> seq 0 (length l).

Lemma fallback_loop_flags category city count names :
  ∀ i st,
    GeminiBusinessGenerator.verified
      <$> GeminiBusinessGenerator.unique_businesses st
    = first_five (GeminiBusinessGenerator.unique_businesses st) →
    GeminiBusinessGenerator.verified
      <$> GeminiBusinessGenerator.unique_businesses
            (GeminiBusinessGenerator.fallback_loop
               category city count i names st)
    = first_five
        (GeminiBusinessGenerator.unique_businesses
           (GeminiBusinessGenerator.fallback_loop
              category city count i names st)).
Proof.
  induction names as [|nm rest IH]; intros i st Hst; [done|].
  cbn [GeminiBusinessGenerator.fallback_loop].
  destruct (_ <=? _)%Z; [done|].
  destruct (_ || _); [by apply IH|].
  destruct (_ || _); [by apply IH|].
  apply IH. cbn [GeminiBusinessGenerator.unique_businesses].
  unfold first_five in *.
  rewrite fmap_app, length_app, seq_app, fmap_app, Hst.
  reflexivity.
Qed.

(** C1, as stated, fails: the first record of the fallback-name generation
    is returned with [verified = True]. *)
Lemma fallback_generation_marks_verified :
  (λ b, (GeminiBusinessGenerator.name b, GeminiBusinessGenerator.source b,
         GeminiBusinessGenerator.verified b))
    <$> (GeminiBusinessGenerator._get_fallback_businesses_with_duplicate_prevention
           "Technology" "Karachi" 1
           (GeminiBusinessGenerator.History ∅ ∅)).1
  = [("TechVision Solutions", "realistic_fallback_data", true)].
Proof. vm_compute. reflexivity. Qed.

(** C1, amended.  The scraping paths never return a record with
    [verified = True]: every record of [_scrape_google_search] and of
    [_scrape_google_maps], and every record the directory extraction of the
    enhanced scraper returns, has [verified = False].  The generator paths
    can: the fallback-name generation marks exactly the first five records
    it returns as verified, and the parse of a model response copies the
    [verified] field of the response ([False] when it is absent). *)
Theorem verified_flag_by_path :
  (∀ w category city count,
     Forall unverified
       (BusinessCollector._scrape_google_search w category city count)
     ∧ Forall unverified
         (BusinessCollector._scrape_google_maps w category city count))
  ∧ (∀ extract e cfg category city source_name,
       from_option (λ b, EnhancedScraper.verified b = false) True
         (EnhancedScraper._extract_business_from_element
            extract e cfg category city source_name))
  ∧ (∀ category city count h,
       GeminiBusinessGenerator.verified
         <$> (GeminiBusinessGenerator._get_fallback_businesses_with_duplicate_prevention
                category city count h).1
       = first_five
           (GeminiBusinessGenerator._get_fallback_businesses_with_duplicate_prevention
              category city count h).1)
  ∧ (∀ category city d,
       from_option
         (λ b, GeminiBusinessGenerator.verified b
               = default false (GeminiBusinessGenerator.j_verified d))
         True (GeminiBusinessGenerator.parse_business category city d)).
Proof.
  repeat split.
  - unfold BusinessCollector._scrape_google_search.
    destruct (BusinessCollector.get_google_search w _); [|done].
    apply Forall_forall. intros b (r & Hr & Hb)%list_elem_of_omap.
    by eapply google_search_business_unverified.
  - unfold BusinessCollector._scrape_google_maps.
    by apply maps_urls_loop_unverified.
  - intros extract e cfg category city source_name.
    unfold EnhancedScraper._extract_business_from_element.
    destruct (EnhancedScraper.first_name _ e) as [nm|]; [|done].
    destruct (_ || _); [done|]. by destruct (PrimFloat.leb _ _).
  - intros category city count h.
    unfold GeminiBusinessGenerator._get_fallback_businesses_with_duplicate_prevention.
    cbn [fst]. by apply fallback_loop_flags.
  - intros category city d. unfold GeminiBusinessGenerator.parse_business.
    by destruct (_ || _).
Qed.

(** * Further properties of the generator

    [lname] and [lemail] are the keys under which the fallback generation
    registers a record in the history. *)

Definition lname (b : GeminiBusinessGenerator.BusinessData) : string :=
  PyStr.lower (GeminiBusinessGenerator.name b).

Definition lemail (b : GeminiBusinessGenerator.BusinessData) : string :=
  PyStr.lower (GeminiBusinessGenerator.email b).

Lemma contains_at_info (x : string) :
  PyStr.contains "@" ("info@" +:+ x) = true.
Proof. by destruct x. Qed.

(** what the loop of the fallback generation keeps true, relative to the
    history [h0] it started from *)
Record fallback_inv (h0 : GeminiBusinessGenerator.history)
  (st : GeminiBusinessGenerator.loop_state) : Prop := FallbackInv {
  inv_names_grow :
    GeminiBusinessGenerator.existing_names h0
    ⊆ GeminiBusinessGenerator.existing_names (GeminiBusinessGenerator.hist st);
  inv_emails_grow :
    GeminiBusinessGenerator.existing_emails h0
    ⊆ GeminiBusinessGenerator.existing_emails (GeminiBusinessGenerator.hist st);
  inv_names_distinct :
    NoDup (lname <$> GeminiBusinessGenerator.unique_businesses st);
  inv_emails_distinct :
    NoDup (lemail <$> GeminiBusinessGenerator.unique_businesses st);
  inv_records :
    Forall
      (λ b,
         ((lname b ∉ GeminiBusinessGenerator.existing_names h0)
          ∧ (lemail b ∉ GeminiBusinessGenerator.existing_emails h0))
         ∧ (lname b ∈ GeminiBusinessGenerator.existing_names
                        (GeminiBusinessGenerator.hist st)
            ∧ lemail b ∈ GeminiBusinessGenerator.existing_emails
                           (GeminiBusinessGenerator.hist st))
         ∧ (lname b ∈ GeminiBusinessGenerator.used_names st
            ∧ lemail b ∈ GeminiBusinessGenerator.used_emails st)
         ∧ PyStr.contains "@" (GeminiBusinessGenerator.email b) = true)
      (GeminiBusinessGenerator.unique_businesses st)
}.

Lemma fallback_loop_inv h0 category city count names :
  ∀ i st,
    fallback_inv h0 st →
    fallback_inv h0
      (GeminiBusinessGenerator.fallback_loop category city count i names st).
Proof.
  induction names as [|nm rest IH]; intros i st Hst; [done|].
  cbn [GeminiBusinessGenerator.fallback_loop].
  destruct (_ <=? _)%Z; [done|].
  destruct (bool_decide (_ ∈ GeminiBusinessGenerator.used_names st) || _)
    eqn:Hused; [by apply IH|].
  destruct (bool_decide (_ ∈ GeminiBusinessGenerator.existing_names _) || _)
    eqn:Hhist; [by apply IH|].
  apply orb_false_iff in Hused as [Hun Hue], Hhist as [Hhn Hhe].
  apply bool_decide_eq_false in Hun, Hue, Hhn, Hhe.
  destruct Hst as [Hng Heg Hnd Hed Hrec].
  apply IH. split; cbn [GeminiBusinessGenerator.unique_businesses
    GeminiBusinessGenerator.hist GeminiBusinessGenerator.used_names
    GeminiBusinessGenerator.used_emails
    GeminiBusinessGenerator.existing_names
    GeminiBusinessGenerator.existing_emails].
  - intros x Hx. apply elem_of_union. right. by apply Hng.
  - intros x Hx. apply elem_of_union. right. by apply Heg.
  - rewrite fmap_app. apply NoDup_app. repeat split; [done| |].
    + intros x (b & -> & Hb)%list_elem_of_fmap
        [Heq|[]%elem_of_nil]%elem_of_cons.
      rewrite Forall_forall in Hrec. apply Hrec in Hb.
      destruct Hb as (_ & _ & [Hb _] & _). apply Hun.
      rewrite Heq in Hb. exact Hb.
    + apply NoDup_singleton.
  - rewrite fmap_app. apply NoDup_app. repeat split; [done| |].
    + intros x (b & -> & Hb)%list_elem_of_fmap
        [Heq|[]%elem_of_nil]%elem_of_cons.
      rewrite Forall_forall in Hrec. apply Hrec in Hb.
      destruct Hb as (_ & _ & [_ Hb] & _). apply Hue.
      rewrite Heq in Hb. exact Hb.
    + apply NoDup_singleton.
  - apply Forall_app. split.
    + eapply Forall_impl; [exact Hrec|]. cbn beta.
      intros b (Hfresh & [Hn He] & [Hn' He'] & Hat).
      repeat split; try tauto;
        apply elem_of_union; by right.
    + constructor; [|constructor].
      unfold lname, lemail, GeminiBusinessGenerator.fallback_business.
      cbn [GeminiBusinessGenerator.name GeminiBusinessGenerator.email].
      repeat split.
      * intros Hin. by apply Hhn, Hng.
      * intros Hin. by apply Hhe, Heg.
      * apply elem_of_union. left. by apply elem_of_singleton.
      * apply elem_of_union. left. by apply elem_of_singleton.
      * apply elem_of_union. left. by apply elem_of_singleton.
      * apply elem_of_union. left. by apply elem_of_singleton.
      * apply contains_at_info.
Qed.

Lemma fallback_inv_initial (h : GeminiBusinessGenerator.history) :
  fallback_inv h
    {| GeminiBusinessGenerator.unique_businesses := [];
       GeminiBusinessGenerator.used_names := ∅;
       GeminiBusinessGenerator.used_emails := ∅;
       GeminiBusinessGenerator.hist := h |}.
Proof. split; simpl; try done; constructor. Qed.

Lemma fallback_generation_inv category city count h :
  fallback_inv h
    (GeminiBusinessGenerator.fallback_loop category city count 0
       (GeminiBusinessGenerator.fallback_names category)
       {| GeminiBusinessGenerator.unique_businesses := [];
          GeminiBusinessGenerator.used_names := ∅;
          GeminiBusinessGenerator.used_emails := ∅;
          GeminiBusinessGenerator.hist := h |}).
Proof. apply fallback_loop_inv, fallback_inv_initial. Qed.

Lemma fallback_loop_length category city count names :
  ∀ i st,
    (Z.of_nat
       (length
          (GeminiBusinessGenerator.unique_businesses
             (GeminiBusinessGenerator.fallback_loop
                category city count i names st)))
     ≤ Z.max count
         (Z.of_nat (length (GeminiBusinessGenerator.unique_businesses st))))%Z
    ∧ (length
         (GeminiBusinessGenerator.unique_businesses
            (GeminiBusinessGenerator.fallback_loop
               category city count i names st))
       ≤ length (GeminiBusinessGenerator.unique_businesses st) + length names)%nat.
Proof.
  induction names as [|nm rest IH]; intros i st; [simpl; lia|].
  cbn [GeminiBusinessGenerator.fallback_loop].
  destruct (_ <=? _)%Z eqn:Hfull; [simpl; lia|].
  apply Z.leb_gt in Hfull.
  destruct (bool_decide (_ ∈ GeminiBusinessGenerator.used_names st) || _);
    [specialize (IH (S i) st); simpl; lia|].
  destruct (bool_decide (_ ∈ GeminiBusinessGenerator.existing_names _) || _);
    [specialize (IH (S i) st); simpl; lia|].
  match goal with
  | |- context [GeminiBusinessGenerator.fallback_loop _ _ _ _ _ ?st'] =>
      specialize (IH (S i) st')
  end.
  cbn [GeminiBusinessGenerator.unique_businesses] in IH.
  rewrite length_app in IH. simpl in *. lia.
Qed.

(** X1.  The records of one fallback generation are new and pairwise
    distinct: no two of them share a lowercased name or a lowercased
    e-mail, and none of these was in the history the call started from. *)
Theorem fallback_generation_fresh_and_distinct
  (category city : string) (count : Z) (h : GeminiBusinessGenerator.history) :
  NoDup (lname
           <$> (GeminiBusinessGenerator._get_fallback_businesses_with_duplicate_prevention
                  category city count h).1)
  ∧ NoDup (lemail
             <$> (GeminiBusinessGenerator._get_fallback_businesses_with_duplicate_prevention
                    category city count h).1)
  ∧ Forall
      (λ b, (lname b ∉ GeminiBusinessGenerator.existing_names h)
            ∧ (lemail b ∉ GeminiBusinessGenerator.existing_emails h))
      (GeminiBusinessGenerator._get_fallback_businesses_with_duplicate_prevention
         category city count h).1.
Proof.
  destruct (fallback_generation_inv category city count h)
    as [_ _ Hnd Hed Hrec].
  repeat split; [done..|].
  eapply Forall_impl; [exact Hrec|].
  intros b (Hfresh & _). exact Hfresh.
Qed.

(** X2.  A fallback generation registers what it returns, and a later
    generation never returns it again: the history only grows, every
    returned name and e-mail is in the updated history, and a second call
    started from the updated history, for any category, city and count,
    returns no record that shares a lowercased name or e-mail with a record
    of the first call. *)
Theorem fallback_generation_never_reissues
  (category city category' city' : string) (count count' : Z)
  (h : GeminiBusinessGenerator.history) :
  let first :=
    GeminiBusinessGenerator._get_fallback_businesses_with_duplicate_prevention
      category city count h in
  let second :=
    GeminiBusinessGenerator._get_fallback_businesses_with_duplicate_prevention
      category' city' count' first.2 in
  (GeminiBusinessGenerator.existing_names h
   ⊆ GeminiBusinessGenerator.existing_names first.2
   ∧ GeminiBusinessGenerator.existing_emails h
     ⊆ GeminiBusinessGenerator.existing_emails first.2)
  ∧ Forall
      (λ b, lname b ∈ GeminiBusinessGenerator.existing_names first.2
            ∧ lemail b ∈ GeminiBusinessGenerator.existing_emails first.2)
      first.1
  ∧ Forall
      (λ b, (lname b ∉ lname <$> first.1) ∧ (lemail b ∉ lemail <$> first.1))
      second.1.
Proof.
  intros first second.
  destruct (fallback_generation_inv category city count h)
    as [Hng Heg _ _ Hrec].
  assert (Hreg : Forall
            (λ b, lname b ∈ GeminiBusinessGenerator.existing_names first.2
                  ∧ lemail b ∈ GeminiBusinessGenerator.existing_emails first.2)
            first.1).
  { eapply Forall_impl; [exact Hrec|].
    intros b (_ & Hreg & _). exact Hreg. }
  repeat split; [done..|].
  destruct (fallback_generation_inv category' city' count' first.2)
    as [_ _ _ _ Hrec'].
  eapply Forall_impl; [exact Hrec'|]. cbn beta.
  intros b ([Hn He] & _). rewrite Forall_forall in Hreg. split.
  - intros (b1 & Heq & Hb1)%list_elem_of_fmap.
    apply Hn. rewrite Heq. by apply Hreg.
  - intros (b1 & Heq & Hb1)%list_elem_of_fmap.
    apply He. rewrite Heq. by apply Hreg.
Qed.

Lemma fallback_generation_bounded
  (category city : string) (count : Z) (h : GeminiBusinessGenerator.history) :
  (Z.of_nat
     (length
        (GeminiBusinessGenerator._get_fallback_businesses_with_duplicate_prevention
           category city count h).1)
   ≤ Z.max 0 count)%Z
  ∧ (length
       (GeminiBusinessGenerator._get_fallback_businesses_with_duplicate_prevention
          category city count h).1
     ≤ length (GeminiBusinessGenerator.fallback_names category))%nat.
Proof.
  unfold GeminiBusinessGenerator._get_fallback_businesses_with_duplicate_prevention.
  cbn [fst].
  match goal with
  | |- context [GeminiBusinessGenerator.fallback_loop _ _ _ _ _ ?st] =>
      pose proof (fallback_loop_length category city count
                    (GeminiBusinessGenerator.fallback_names category) 0 st)
        as [H1 H2]
  end.
  cbn [GeminiBusinessGenerator.unique_businesses length] in H1, H2.
  split; lia.
Qed.

(** X3.  A fallback generation returns at most [count] records (none for a
    count of zero or less), and at most as many as the name table of the
    category holds. *)
Theorem fallback_generation_length
  (category city : string) (count : Z) (h : GeminiBusinessGenerator.history) :
  (Z.of_nat
     (length
        (GeminiBusinessGenerator._get_fallback_businesses_with_duplicate_prevention
           category city count h).1)
   ≤ Z.max 0 count)%Z
  ∧ (length
       (GeminiBusinessGenerator._get_fallback_businesses_with_duplicate_prevention
          category city count h).1
     ≤ length (GeminiBusinessGenerator.fallback_names category))%nat.
Proof. apply fallback_generation_bounded. Qed.

(** ** Duplicate detection *)

(** X4.  The fuzzy comparison of two names does not depend on their order. *)
Theorem names_are_similar_symmetric (name1 name2 : string) :
  GeminiBusinessGenerator._names_are_similar name1 name2
  = GeminiBusinessGenerator._names_are_similar name2 name1.
Proof.
  unfold GeminiBusinessGenerator._names_are_similar.
  rewrite (andb_comm (negb (bool_decide
                              (GeminiBusinessGenerator.name_words name1 = ∅)))).
  destruct (_ && _); [|done].
  rewrite (comm_L (∩) (GeminiBusinessGenerator.name_words name1)).
  by rewrite (comm_L (∪) (GeminiBusinessGenerator.name_words name1)).
Qed.

(** the keys under which [generate_businesses] and [_is_duplicate] look a
    record up *)
Definition gname (b : GeminiBusinessGenerator.BusinessData) : string :=
  PyStr.lower (PyStr.strip (GeminiBusinessGenerator.name b)).

Definition gemail (b : GeminiBusinessGenerator.BusinessData) : string :=
  PyStr.lower (PyStr.strip (GeminiBusinessGenerator.email b)).

Definition history_le (h h' : GeminiBusinessGenerator.history) : Prop :=
  GeminiBusinessGenerator.existing_names h
  ⊆ GeminiBusinessGenerator.existing_names h'
  ∧ GeminiBusinessGenerator.existing_emails h
    ⊆ GeminiBusinessGenerator.existing_emails h'.

Lemma history_le_refl h : history_le h h.
Proof. by split. Qed.

Lemma history_le_trans h1 h2 h3 :
  history_le h1 h2 → history_le h2 h3 → history_le h1 h3.
Proof. intros [? ?] [? ?]. split; by etrans. Qed.

Lemma is_duplicate_false_fresh h b :
  GeminiBusinessGenerator._is_duplicate h b = false →
  (gname b ∉ GeminiBusinessGenerator.existing_names h)
  ∧ (gemail b ∉ GeminiBusinessGenerator.existing_emails h).
Proof.
  unfold GeminiBusinessGenerator._is_duplicate.
  do 2 (case_bool_decide; [done|]). done.
Qed.

Lemma is_duplicate_mono h h' b :
  history_le h h' →
  GeminiBusinessGenerator._is_duplicate h b = true →
  GeminiBusinessGenerator._is_duplicate h' b = true.
Proof.
  intros [Hn He]. unfold GeminiBusinessGenerator._is_duplicate.
  case_bool_decide as H1.
  { intros _. rewrite bool_decide_eq_true_2; [done|]. by apply Hn. }
  case_bool_decide as H2.
  { intros _. case_bool_decide; [done|].
    rewrite bool_decide_eq_true_2; [done|]. by apply He. }
  intros (x & Hx & Hsim)%existsb_exists.
  do 2 (case_bool_decide; [done|]).
  apply existsb_exists. exists x. split; [|done].
  apply list_elem_of_In, elem_of_elements, Hn.
  by apply elem_of_elements, list_elem_of_In.
Qed.

(** X5.  [_is_duplicate] only grows with the history: a business whose
    stripped, lowercased name or e-mail is in the history is a duplicate,
    and a business that is a duplicate stays one when names and e-mails are
    added to the history. *)
Theorem is_duplicate_monotone
  (h h' : GeminiBusinessGenerator.history)
  (b : GeminiBusinessGenerator.BusinessData) :
  (gname b ∈ GeminiBusinessGenerator.existing_names h
   ∨ gemail b ∈ GeminiBusinessGenerator.existing_emails h →
   GeminiBusinessGenerator._is_duplicate h b = true)
  ∧ (history_le h h' →
     GeminiBusinessGenerator._is_duplicate h b = true →
     GeminiBusinessGenerator._is_duplicate h' b = true).
Proof.
  split; [|apply is_duplicate_mono].
  intros Hin.
  destruct (GeminiBusinessGenerator._is_duplicate h b) eqn:Hd; [done|].
  apply is_duplicate_false_fresh in Hd. tauto.
Qed.

Definition acme_generated : GeminiBusinessGenerator.BusinessData :=
  {| GeminiBusinessGenerator.name := " Acme Traders ";
     GeminiBusinessGenerator.email := "info@acmetraders.pk";
     GeminiBusinessGenerator.phone := "+92-42-1234567";
     GeminiBusinessGenerator.address := "Gulberg, Lahore";
     GeminiBusinessGenerator.website := "www.acmetraders.pk";
     GeminiBusinessGenerator.business_type := "Retail";
     GeminiBusinessGenerator.category := "Retail";
     GeminiBusinessGenerator.city := "Lahore";
     GeminiBusinessGenerator.verified := false;
     GeminiBusinessGenerator.source := "gemini_ai";
     GeminiBusinessGenerator.description := "";
     GeminiBusinessGenerator.employees := "";
     GeminiBusinessGenerator.founded_year := "";
     GeminiBusinessGenerator.services := "" |}.

Lemma is_duplicate_monotone_example :
  GeminiBusinessGenerator._is_duplicate
    (GeminiBusinessGenerator.History {["acme traders"]} ∅) acme_generated
  = true
  ∧ GeminiBusinessGenerator._is_duplicate
      (GeminiBusinessGenerator.History
         ({["other"]} ∪ {["acme traders"]}) ({["x@y.pk"]} ∪ ∅))
      acme_generated
    = true.
Proof.
  assert (Hdup : GeminiBusinessGenerator._is_duplicate
                   (GeminiBusinessGenerator.History {["acme traders"]} ∅)
                   acme_generated = true).
  { apply (proj1 (is_duplicate_monotone
                    (GeminiBusinessGenerator.History {["acme traders"]} ∅)
                    (GeminiBusinessGenerator.History {["acme traders"]} ∅)
                    acme_generated)).
    left. vm_compute. reflexivity. }
  split; [exact Hdup|].
  apply (proj2 (is_duplicate_monotone
                  (GeminiBusinessGenerator.History {["acme traders"]} ∅)
                  (GeminiBusinessGenerator.History
                     ({["other"]} ∪ {["acme traders"]}) ({["x@y.pk"]} ∪ ∅))
                  acme_generated)); [|exact Hdup].
  split; apply union_subseteq_r.
Defined.

(** ** [generate_businesses] *)

Lemma fallback_generation_grows category city count h :
  history_le h
    (GeminiBusinessGenerator._get_fallback_businesses_with_duplicate_prevention
       category city count h).2.
Proof.
  destruct (fallback_generation_inv category city count h) as [Hn He _ _ _].
  by split.
Qed.

Lemma fallback_generation_has_at category city count h :
  Forall (λ b, PyStr.contains "@" (GeminiBusinessGenerator.email b) = true)
    (GeminiBusinessGenerator._get_fallback_businesses_with_duplicate_prevention
       category city count h).1.
Proof.
  destruct (fallback_generation_inv category city count h)
    as [_ _ _ _ Hrec].
  eapply Forall_impl; [exact Hrec|]. intros b (_ & _ & _ & Hat). exact Hat.
Qed.

Lemma parse_business_has_at category city d b :
  GeminiBusinessGenerator.parse_business category city d = Some b →
  PyStr.contains "@" (GeminiBusinessGenerator.email b) = true
  ∧ GeminiBusinessGenerator.email b ≠ "info@unknown.com"
  ∧ GeminiBusinessGenerator.email b ≠ "".
Proof.
  unfold GeminiBusinessGenerator.parse_business.
  destruct (String.eqb_spec (default "" (GeminiBusinessGenerator.j_email d)) "")
    as [|Hne]; [done|].
  destruct (String.eqb_spec (default "" (GeminiBusinessGenerator.j_email d))
              "info@unknown.com") as [|Hne']; [done|].
  destruct (PyStr.contains "@" _) eqn:Hat; [|done].
  cbn [orb negb]. by intros [= <-].
Qed.

Lemma omap_length_le {A B} (f : A → option B) (l : list A) :
  (length (omap f l) ≤ length l)%nat.
Proof.
  induction l as [|a l IH]; [done|]. cbn. destruct (f a); simpl; lia.
Qed.

Section GenerateFacts.
Context (decode : string → GeminiBusinessGenerator.decoded)
        (generate_content : nat → result string).

Lemma parse_response_grows text category city h :
  history_le h
    (GeminiBusinessGenerator._parse_gemini_response
       decode text category city h).2.
Proof.
  unfold GeminiBusinessGenerator._parse_gemini_response.
  destruct (decode text);
    [apply fallback_generation_grows..|apply history_le_refl].
Qed.

(** X6.  Whatever the response text, every record that
    [_parse_gemini_response] returns has an e-mail containing "@".  A
    decoded response leaves the history untouched and yields at most one
    record per object, none with an empty or the placeholder e-mail; a
    response that cannot be decoded yields at most five fallback
    records. *)
Theorem parse_response_records
  (text category city : string) (h : GeminiBusinessGenerator.history) :
  Forall (λ b, PyStr.contains "@" (GeminiBusinessGenerator.email b) = true)
    (GeminiBusinessGenerator._parse_gemini_response
       decode text category city h).1
  ∧ match decode text with
    | GeminiBusinessGenerator.Decoded objects =>
        (GeminiBusinessGenerator._parse_gemini_response
           decode text category city h).2 = h
        ∧ (length (GeminiBusinessGenerator._parse_gemini_response
                     decode text category city h).1
           ≤ length objects)%nat
        ∧ Forall
            (λ b, GeminiBusinessGenerator.email b ≠ "info@unknown.com"
                  ∧ GeminiBusinessGenerator.email b ≠ "")
            (GeminiBusinessGenerator._parse_gemini_response
               decode text category city h).1
    | _ =>
        (length (GeminiBusinessGenerator._parse_gemini_response
                   decode text category city h).1
         ≤ 5)%nat
    end.
Proof.
  unfold GeminiBusinessGenerator._parse_gemini_response.
  destruct (decode text) as [| |objects].
  - split; [apply fallback_generation_has_at|].
    pose proof (fallback_generation_bounded category city 5 h) as [Hlen _]. lia.
  - split; [apply fallback_generation_has_at|].
    pose proof (fallback_generation_bounded category city 5 h) as [Hlen _]. lia.
  - cbn [fst snd]. repeat split.
    + apply Forall_forall. intros b (d & Hd & Hb)%list_elem_of_omap.
      by apply parse_business_has_at in Hb as (Hat & _).
    + apply omap_length_le.
    + apply Forall_forall. intros b (d & Hd & Hb)%list_elem_of_omap.
      by apply parse_business_has_at in Hb as (_ & Hne).
Qed.

(** what the acceptance loop keeps true, relative to the history [h0] that
    [generate_businesses] started from *)
Record accepted_inv (h0 : GeminiBusinessGenerator.history)
  (unique : list GeminiBusinessGenerator.BusinessData)
  (h : GeminiBusinessGenerator.history) : Prop := AcceptedInv {
  acc_grows : history_le h0 h;
  acc_names : NoDup (gname <$> unique);
  acc_emails : NoDup (gemail <$> unique);
  acc_records :
    Forall
      (λ b,
         (gname b ∈ GeminiBusinessGenerator.existing_names h
          ∧ gemail b ∈ GeminiBusinessGenerator.existing_emails h)
         ∧ GeminiBusinessGenerator._is_duplicate h0 b = false
         ∧ PyStr.contains "@" (GeminiBusinessGenerator.email b) = true)
      unique
}.

Lemma accepted_inv_grow h0 unique h h' :
  accepted_inv h0 unique h → history_le h h' → accepted_inv h0 unique h'.
Proof.
  intros [Hle Hn He Hrec] Hhh'. split; [by eapply history_le_trans|done..|].
  eapply Forall_impl; [exact Hrec|].
  intros b ([Hbn Hbe] & Hrest). destruct Hhh' as [Hhn Hhe].
  split; [split; [by apply Hhn|by apply Hhe]|done].
Qed.

Lemma accept_batch_inv h0 target_count businesses :
  ∀ unique h,
    accepted_inv h0 unique h →
    accepted_inv h0
      (GeminiBusinessGenerator.accept_batch target_count businesses unique h).1
      (GeminiBusinessGenerator.accept_batch target_count businesses unique h).2.
Proof.
  induction businesses as [|b rest IH]; intros unique h Hinv; [done|].
  cbn [GeminiBusinessGenerator.accept_batch].
  destruct (negb _ && _ && _ && _) eqn:Hacc; [|by apply IH].
  apply andb_true_iff in Hacc as [Hacc Hdup].
  apply andb_true_iff in Hacc as [Hacc _].
  apply andb_true_iff in Hacc as [_ Hat].
  apply negb_true_iff in Hdup.
  pose proof (is_duplicate_false_fresh _ _ Hdup) as [Hfn Hfe].
  destruct Hinv as [Hle Hn He Hrec].
  match goal with
  | |- context [GeminiBusinessGenerator.accept_batch _ _ ?u ?h'] =>
      assert (Hinv' : accepted_inv h0 u h')
  end.
  { split; cbn [GeminiBusinessGenerator.existing_names
                GeminiBusinessGenerator.existing_emails].
    - destruct Hle as [Hln Hlem].
      split; cbn [GeminiBusinessGenerator.existing_names
                  GeminiBusinessGenerator.existing_emails];
        intros x Hx; apply elem_of_union; right; auto.
    - rewrite fmap_app. apply NoDup_app. repeat split; [done| |].
      + intros x (b1 & -> & Hb1)%list_elem_of_fmap
          [Heq|[]%elem_of_nil]%elem_of_cons.
        rewrite Forall_forall in Hrec. apply Hrec in Hb1 as ([Hb1 _] & _).
        apply Hfn. rewrite Heq in Hb1. exact Hb1.
      + apply NoDup_singleton.
    - rewrite fmap_app. apply NoDup_app. repeat split; [done| |].
      + intros x (b1 & -> & Hb1)%list_elem_of_fmap
          [Heq|[]%elem_of_nil]%elem_of_cons.
        rewrite Forall_forall in Hrec. apply Hrec in Hb1 as ([_ Hb1] & _).
        apply Hfe. rewrite Heq in Hb1. exact Hb1.
      + apply NoDup_singleton.
    - apply Forall_app. split.
      + eapply Forall_impl; [exact Hrec|].
        intros b1 ([Hbn Hbe] & Hrest).
        split; [split; apply elem_of_union; by right|done].
      + constructor; [|constructor]. repeat split.
        * apply elem_of_union. left. by apply elem_of_singleton.
        * apply elem_of_union. left. by apply elem_of_singleton.
        * destruct (GeminiBusinessGenerator._is_duplicate h0 b) eqn:Hd0;
            [|done].
          by rewrite (is_duplicate_mono h0 h b Hle Hd0) in Hdup.
        * exact Hat. }
  destruct (_ <=? _)%Z; [exact Hinv'|by apply IH].
Qed.

Lemma accept_batch_length target_count businesses :
  ∀ unique h,
    (Z.of_nat (length unique) < target_count)%Z →
    (Z.of_nat
       (length (GeminiBusinessGenerator.accept_batch
                  target_count businesses unique h).1)
     ≤ target_count)%Z.
Proof.
  induction businesses as [|b rest IH]; intros unique h Hlt; [simpl; lia|].
  cbn [GeminiBusinessGenerator.accept_batch].
  destruct (negb _ && _ && _ && _); [|by apply IH].
  destruct (_ <=? _)%Z eqn:Hfull.
  - cbn [fst]. rewrite length_app. simpl. lia.
  - apply Z.leb_gt in Hfull. by apply IH.
Qed.

Lemma generate_loop_inv h0 category city target_count remaining :
  ∀ attempts unique h,
    accepted_inv h0 unique h →
    (Z.of_nat (length unique) ≤ Z.max 0 target_count)%Z →
    match GeminiBusinessGenerator.generate_loop decode generate_content
            remaining attempts category city target_count unique h with
    | (Ok l, h') =>
        accepted_inv h0 l h' ∧ (Z.of_nat (length l) ≤ Z.max 0 target_count)%Z
    | (Raise _, h') => history_le h0 h'
    end.
Proof.
  induction remaining as [|remaining IH]; intros attempts unique h Hinv Hlen;
    [done|].
  cbn [GeminiBusinessGenerator.generate_loop].
  destruct (_ <? _)%Z eqn:Hlt; [|done]. apply Z.ltb_lt in Hlt.
  destruct (generate_content (S attempts)) as [text|e]; [|by destruct Hinv].
  pose proof (parse_response_grows text category city h) as Hgrow.
  destruct (GeminiBusinessGenerator._parse_gemini_response _ _ _ _ _)
    as [businesses h1]. cbn [snd] in Hgrow.
  pose proof (accept_batch_inv h0 target_count businesses unique h1
                (accepted_inv_grow _ _ _ _ Hinv Hgrow)) as Hinv'.
  pose proof (accept_batch_length target_count businesses unique h1 Hlt)
    as Hlen'.
  destruct (GeminiBusinessGenerator.accept_batch _ _ _ _) as [unique' h2].
  cbn [fst snd] in Hinv', Hlen'. apply IH; [done|lia].
Qed.

(** X7.  On the model path, [generate_businesses] accepts a record only if
    it is no duplicate: when the loop ends without an exception, no two
    accepted records share a stripped, lowercased name or e-mail, and no
    accepted record is a duplicate (exact or fuzzy) with respect to the
    history the call started from. *)
Theorem generated_records_are_no_duplicates
  (category city : string) (target_count : Z)
  (h : GeminiBusinessGenerator.history) :
  match (GeminiBusinessGenerator.generate_loop decode generate_content
           (Z.to_nat (target_count * 3)) 0 category city target_count [] h).1
  with
  | Ok l =>
      NoDup (gname <$> l) ∧ NoDup (gemail <$> l)
      ∧ Forall (λ b, GeminiBusinessGenerator._is_duplicate h b = false) l
  | Raise _ => True
  end.
Proof.
  assert (Hinit : accepted_inv h [] h).
  { split; [apply history_le_refl|constructor..]. }
  pose proof (generate_loop_inv h category city target_count
                (Z.to_nat (target_count * 3)) 0 [] h Hinit) as Hloop.
  destruct (GeminiBusinessGenerator.generate_loop _ _ _ _ _ _ _ _ _)
    as [[l|e] h']; [|done].
  destruct Hloop as [[_ Hn He Hrec] _]; [simpl; lia|].
  repeat split; [done..|].
  eapply Forall_impl; [exact Hrec|]. intros b (_ & Hd & _). exact Hd.
Qed.

(** X8.  In every mode and whatever the model answers, [generate_businesses]
    returns at most [target_count] records (none for a target of zero or
    less), every returned record has an e-mail containing "@", and the
    history of the generator only grows. *)
Theorem generate_businesses_bounds
  (fallback_mode : bool) (category city : string) (target_count : Z)
  (h : GeminiBusinessGenerator.history) :
  (Z.of_nat
     (length (GeminiBusinessGenerator.generate_businesses
                decode generate_content fallback_mode
                category city target_count h).1)
   ≤ Z.max 0 target_count)%Z
  ∧ Forall (λ b, PyStr.contains "@" (GeminiBusinessGenerator.email b) = true)
      (GeminiBusinessGenerator.generate_businesses
         decode generate_content fallback_mode
         category city target_count h).1
  ∧ history_le h
      (GeminiBusinessGenerator.generate_businesses
         decode generate_content fallback_mode
         category city target_count h).2.
Proof.
  unfold GeminiBusinessGenerator.generate_businesses.
  destruct fallback_mode.
  - repeat split.
    + apply fallback_generation_bounded.
    + apply fallback_generation_has_at.
    + apply fallback_generation_grows.
    + apply fallback_generation_grows.
  - assert (Hinit : accepted_inv h [] h).
    { split; [apply history_le_refl|constructor..]. }
    pose proof (generate_loop_inv h category city target_count
                  (Z.to_nat (target_count * 3)) 0 [] h Hinit) as Hloop.
    destruct (GeminiBusinessGenerator.generate_loop _ _ _ _ _ _ _ _ _)
      as [[l|e] h'].
    + destruct Hloop as [[Hle _ _ Hrec] Hlen]; [simpl; lia|].
      cbn [fst snd]. repeat split; [done| |apply Hle..].
      eapply Forall_impl; [exact Hrec|]. intros b (_ & _ & Hat). exact Hat.
    + specialize (Hloop ltac:(simpl; lia)).
      pose proof (fallback_generation_grows category city target_count h')
        as Hgrow.
      repeat split.
      * apply fallback_generation_bounded.
      * apply fallback_generation_has_at.
      * apply (history_le_trans _ _ _ Hloop Hgrow).
      * apply (history_le_trans _ _ _ Hloop Hgrow).
Qed.

End GenerateFacts.

(** * Further properties of [BusinessCollector] *)

Section TwoKeyDedupMore.
Context {A : Type} (name_key email_key : A → string).

Lemma kept_from_sublist l :
  ∀ sn se, sublist (kept_from name_key email_key sn se l) l.
Proof.
  induction l as [|a l IH]; intros sn se; simpl; [constructor|].
  destruct (_ && _); [apply sublist_skip|apply sublist_cons]; apply IH.
Qed.

Lemma kept_from_represented l :
  ∀ sn se b,
    b ∈ l →
    name_key b ∈ sn ∨ email_key b ∈ se
    ∨ Exists (λ k, name_key k = name_key b ∨ email_key k = email_key b)
        (kept_from name_key email_key sn se l).
Proof.
  induction l as [|a l IH]; intros sn se b; [by intros ?%elem_of_nil|].
  cbn [kept_from].
  destruct (bool_decide (name_key a ∉ sn)) eqn:Hn;
    destruct (bool_decide (email_key a ∉ se)) eqn:He; cbn [andb].
  1: { intros [->|Hin]%elem_of_cons.
       - right. right. apply Exists_cons_hd. by left.
       - destruct (IH ({[name_key a]} ∪ sn) ({[email_key a]} ∪ se) b Hin)
           as [Hs|[Hs|Hk]].
         + apply elem_of_union in Hs as [Hs%elem_of_singleton|Hs]; [|by left].
           right. right. apply Exists_cons_hd. by left.
         + apply elem_of_union in Hs as [Hs%elem_of_singleton|Hs];
             [|by right; left].
           right. right. apply Exists_cons_hd. by right.
         + right. right. by apply Exists_cons_tl. }
  all: intros [->|Hin]%elem_of_cons; [|by apply IH].
  all: try (apply bool_decide_eq_false in Hn; left; by apply dec_stable).
  all: apply bool_decide_eq_false in He; right; left; by apply dec_stable.
Qed.

End TwoKeyDedupMore.

(** X9.  [_remove_duplicates] keeps its input order and loses no business
    without a reason: the result is a sub-list of the input, and every
    business of the input shares its normalized name or its normalized
    e-mail with a business of the result. *)
Theorem remove_duplicates_sublist_represented
  (σ : BusinessCollector.store) (L : list BusinessCollector.loc) :
  sublist (BusinessCollector._remove_duplicates σ L) L
  ∧ Forall
      (λ l,
         Exists
           (λ k, BusinessCollector.name_key σ k = BusinessCollector.name_key σ l
                 ∨ BusinessCollector.email_key σ k
                   = BusinessCollector.email_key σ l)
           (BusinessCollector._remove_duplicates σ L))
      L.
Proof.
  rewrite BusinessCollector_dedup_two_keys, dedup_two_keys_kept. split.
  - apply kept_from_sublist.
  - apply Forall_forall. intros l Hl.
    destruct (kept_from_represented
                (BusinessCollector.name_key σ) (BusinessCollector.email_key σ)
                L ∅ ∅ l Hl) as [Hs|[Hs|Hk]]; [| |done].
    + by apply not_elem_of_empty in Hs.
    + by apply not_elem_of_empty in Hs.
Qed.

(** ** E-mail validation *)

Lemma validate_fold w σ L :
  ∀ valid invalid,
    fold_left
      (λ '(valid_businesses, invalid_businesses) business,
         if BusinessCollector.email_is_valid w (BusinessCollector.deref σ business)
         then (valid_businesses ++ [business], invalid_businesses)
         else (valid_businesses, invalid_businesses ++ [business]))
      L (valid, invalid)
    = (valid
       ++ List.filter
            (λ l, BusinessCollector.email_is_valid w (BusinessCollector.deref σ l))
            L,
       invalid
       ++ List.filter
            (λ l, negb (BusinessCollector.email_is_valid
                          w (BusinessCollector.deref σ l)))
            L).
Proof.
  induction L as [|l L IH]; intros valid invalid; simpl.
  - by rewrite !app_nil_r.
  - destruct (BusinessCollector.email_is_valid w _); simpl; rewrite IH;
      by rewrite <- app_assoc.
Qed.

(** X10.  [_validate_business_emails] is a partition that keeps the input
    order: the valid list holds, in order, the businesses the validity
    check accepts, the invalid list holds, in order, all the others, and a
    business is in the invalid list exactly when its e-mail is absent or
    empty or [validate_email] raises [EmailNotValidError] for it. *)
Theorem validate_business_emails_partition
  (w : BusinessCollector.world) (σ : BusinessCollector.store)
  (L : list BusinessCollector.loc) :
  BusinessCollector._validate_business_emails w σ L
  = (List.filter
       (λ l, BusinessCollector.email_is_valid w (BusinessCollector.deref σ l))
       L,
     List.filter
       (λ l, negb (BusinessCollector.email_is_valid
                     w (BusinessCollector.deref σ l)))
       L)
  ∧ Forall
      (λ l,
         default "" (BusinessCollector.email (BusinessCollector.deref σ l)) = ""
         ∨ BusinessCollector.validate_email w
             (default "" (BusinessCollector.email (BusinessCollector.deref σ l)))
           = Raise EmailNotValidError)
      (BusinessCollector._validate_business_emails w σ L).2
  ∧ Forall
      (λ l,
         default "" (BusinessCollector.email (BusinessCollector.deref σ l)) ≠ ""
         ∧ BusinessCollector.validate_email w
             (default "" (BusinessCollector.email (BusinessCollector.deref σ l)))
           ≠ Raise EmailNotValidError)
      (BusinessCollector._validate_business_emails w σ L).1.
Proof.
  unfold BusinessCollector._validate_business_emails.
  rewrite validate_fold. cbn [app fst snd]. repeat split.
  - apply Forall_forall. intros l Hl%list_elem_of_In%filter_In.
    destruct Hl as [_ Hl%negb_true_iff]. by apply email_is_valid_false_iff.
  - apply Forall_forall. intros l Hl%list_elem_of_In%filter_In.
    destruct Hl as [_ Hl].
    split; intros Hbad;
      assert (BusinessCollector.email_is_valid w (BusinessCollector.deref σ l)
              = false) as Hf by (apply email_is_valid_false_iff; tauto);
      by rewrite Hf in Hl.
Qed.



(** ** The store under the stateful methods *)

Lemma slice_to_length_le {A} (n : Z) (l : list A) :
  (0 ≤ n)%Z → (Z.of_nat (length (PyStr.slice_to n l)) ≤ n)%Z.
Proof.
  intros Hn. unfold PyStr.slice_to.
  replace (n <? 0)%Z with false by (symmetry; apply Z.ltb_ge; lia).
  rewrite length_take. lia.
Qed.

Lemma slice_to_sublist {A} (n : Z) (l : list A) :
  sublist (PyStr.slice_to n l) l.
Proof. unfold PyStr.slice_to. destruct (n <? 0)%Z; apply sublist_take. Qed.

(** the store is a list indexed by natural numbers *)
Ltac unalias := unfold BusinessCollector.store, BusinessCollector.loc in *.

(** a relation between the contents of an object before and after *)
Section StoreRelation.
Context (R : BusinessCollector.business → BusinessCollector.business → Prop)
        (R_refl : ∀ b, R b b)
        (R_trans : ∀ b1 b2 b3, R b1 b2 → R b2 b3 → R b1 b3).

Definition store_rel (σ σ' : BusinessCollector.store) : Prop :=
  length σ' = length σ
  ∧ ∀ l, R (BusinessCollector.deref σ l) (BusinessCollector.deref σ' l).

Lemma store_rel_refl σ : store_rel σ σ.
Proof using R_refl. by split. Qed.

Lemma store_rel_trans σ1 σ2 σ3 :
  store_rel σ1 σ2 → store_rel σ2 σ3 → store_rel σ1 σ3.
Proof using R_trans.
  intros [Hl1 H1] [Hl2 H2]. split; [congruence|].
  intros l. exact (R_trans _ _ _ (H1 l) (H2 l)).
Qed.

Lemma store_rel_alter (f : BusinessCollector.business → BusinessCollector.business)
  l σ :
  (∀ b, R b (f b)) → store_rel σ (alter f l σ).
Proof using R_refl.
  intros Hf. split; [apply length_alter|].
  intros l'. unfold BusinessCollector.deref. unalias.
  destruct (decide (l = l')) as [<-|Hne].
  - rewrite (list_lookup_alter_eq f σ l).
    destruct (σ !! l); simpl; [apply Hf|apply R_refl].
  - rewrite (list_lookup_alter_ne f σ l l') by done. apply R_refl.
Qed.

End StoreRelation.

(** equal in every field but [source] *)
Definition same_but_source (b b' : BusinessCollector.business) : Prop :=
  BusinessCollector.set_source "" b' = BusinessCollector.set_source "" b.

(** [enhance] may change e-mail, telephone, address and source only *)
Definition same_identity (b b' : BusinessCollector.business) : Prop :=
  BusinessCollector.name b' = BusinessCollector.name b
  ∧ BusinessCollector.website b' = BusinessCollector.website b
  ∧ BusinessCollector.business_type b' = BusinessCollector.business_type b
  ∧ BusinessCollector.verified b' = BusinessCollector.verified b.

Lemma same_but_source_refl b : same_but_source b b.
Proof. done. Qed.

Lemma same_but_source_trans b1 b2 b3 :
  same_but_source b1 b2 → same_but_source b2 b3 → same_but_source b1 b3.
Proof. unfold same_but_source. congruence. Qed.

Lemma same_identity_refl b : same_identity b b.
Proof. done. Qed.

Lemma same_identity_trans b1 b2 b3 :
  same_identity b1 b2 → same_identity b2 b3 → same_identity b1 b3.
Proof. unfold same_identity. intros (?&?&?&?) (?&?&?&?). repeat split; congruence. Qed.

Lemma same_but_source_identity b b' :
  same_but_source b b' → same_identity b b'.
Proof.
  unfold same_but_source, same_identity. destruct b, b'. simpl.
  intros [= -> -> -> -> -> -> ->]. done.
Qed.

(** the object at [l], when there is one, carries the source tag *)
Definition tagged (σ : BusinessCollector.store) (tag : string)
  (l : BusinessCollector.loc) : Prop :=
  match σ !! l with
  | Some b => BusinessCollector.source b = Some tag
  | None => True
  end.

Definition is_dict (i : BusinessCollector.item) : bool :=
  match i with
  | BusinessCollector.IDict _ => true
  | BusinessCollector.IStr _ => false
  end.

Definition dict_refs (items : list BusinessCollector.item)
  : list BusinessCollector.loc :=
  omap (λ i, match i with
             | BusinessCollector.IDict l => Some l
             | BusinessCollector.IStr _ => None
             end) items.

Lemma tagged_alter σ tag l l' :
  tagged σ tag l' →
  tagged (alter (BusinessCollector.set_source tag) l σ) tag l'.
Proof.
  unfold tagged. unalias. destruct (decide (l = l')) as [<-|Hne].
  - rewrite (list_lookup_alter_eq _ σ l). by destruct (σ !! l).
  - by rewrite (list_lookup_alter_ne _ σ l l').
Qed.

Lemma tagged_alter_eq σ tag l :
  tagged (alter (BusinessCollector.set_source tag) l σ) tag l.
Proof.
  unfold tagged. unalias.
  rewrite (list_lookup_alter_eq _ σ l). by destruct (σ !! l).
Qed.

Lemma tag_sources_spec tag items :
  ∀ σ,
    store_rel same_but_source σ (BusinessCollector.tag_sources tag items σ).2
    ∧ (∀ l, tagged σ tag l →
            tagged (BusinessCollector.tag_sources tag items σ).2 tag l)
    ∧ match (BusinessCollector.tag_sources tag items σ).1 with
      | Ok refs =>
          refs = dict_refs items ∧ forallb is_dict items = true
          ∧ Forall (tagged (BusinessCollector.tag_sources tag items σ).2 tag)
              refs
      | Raise e => e = TypeError ∧ forallb is_dict items = false
      end.
Proof.
  induction items as [|[s|l] items IH]; intros σ.
  - split; [apply (store_rel_refl _ same_but_source_refl)|].
    split; [done|]. cbn. repeat split. constructor.
  - split; [apply (store_rel_refl _ same_but_source_refl)|].
    split; [done|]. by cbn.
  - cbn [BusinessCollector.tag_sources].
    unfold BusinessCollector.bind, BusinessCollector.modify.
    specialize (IH (alter (BusinessCollector.set_source tag) l σ)).
    destruct (BusinessCollector.tag_sources tag items _) as [[refs|e] σ'];
      cbn [fst snd BusinessCollector.ret] in *;
      destruct IH as (Hrel & Htag & Hres).
    + split; [|split].
      * eapply (store_rel_trans _ same_but_source_trans); [|exact Hrel].
        apply (store_rel_alter _ same_but_source_refl).
        intros b. by destruct b.
      * intros l' Hl'. by apply Htag, tagged_alter.
      * destruct Hres as (-> & Hall & Href). repeat split; [done|].
        constructor; [|done]. apply Htag, tagged_alter_eq.
    + split; [|split].
      * eapply (store_rel_trans _ same_but_source_trans); [|exact Hrel].
        apply (store_rel_alter _ same_but_source_refl).
        intros b. by destruct b.
      * intros l' Hl'. by apply Htag, tagged_alter.
      * done.
Qed.

Lemma get_fallback_businesses_spec
  (db : BusinessCollector.database) (category city : string) (count : Z)
  (σ : BusinessCollector.store) :
  store_rel same_but_source σ
    (BusinessCollector._get_fallback_businesses db category city count σ).2
  ∧ match BusinessCollector.lookup_city db category city with
    | None =>
        BusinessCollector._get_fallback_businesses db category city count σ
        = (Ok [], σ)
    | Some items =>
        match (BusinessCollector._get_fallback_businesses
                 db category city count σ).1 with
        | Ok refs =>
            refs = PyStr.slice_to count (dict_refs items)
            ∧ forallb is_dict items = true
            ∧ Forall
                (tagged
                   (BusinessCollector._get_fallback_businesses
                      db category city count σ).2
                   "verified_database_fallback")
                refs
        | Raise e => e = TypeError ∧ forallb is_dict items = false
        end
    end.
Proof.
  unfold BusinessCollector._get_fallback_businesses.
  destruct (BusinessCollector.lookup_city db category city) as [items|].
  - pose proof (tag_sources_spec "verified_database_fallback" items σ)
      as (Hrel & _ & Hres).
    unfold BusinessCollector.bind.
    destruct (BusinessCollector.tag_sources _ items σ) as [[refs|e] σ'];
      cbn [fst snd BusinessCollector.ret] in *; split; try done.
    destruct Hres as (-> & Hall & Htag). repeat split; [done|].
    rewrite Forall_forall in Htag. apply Forall_forall. intros l Hl.
    apply Htag. eapply elem_of_sublist; [exact Hl|apply slice_to_sublist].
  - split; [|done]. apply (store_rel_refl _ same_but_source_refl).
Qed.

(** X12.  [_get_fallback_businesses] changes nothing but source tags.  The
    store keeps its size and every object keeps all fields other than
    [source].  For a key that is absent the result is the empty list and
    the store is untouched; for a key whose list holds dictionaries the
    result is the slice [[:count]] of that list and every returned
    dictionary carries the tag 'verified_database_fallback'; the call
    raises only [TypeError], and only when the list holds a string. *)
Theorem get_fallback_businesses_frame
  (db : BusinessCollector.database) (category city : string) (count : Z)
  (σ : BusinessCollector.store) :
  store_rel same_but_source σ
    (BusinessCollector._get_fallback_businesses db category city count σ).2
  ∧ match BusinessCollector.lookup_city db category city with
    | None =>
        BusinessCollector._get_fallback_businesses db category city count σ
        = (Ok [], σ)
    | Some items =>
        match (BusinessCollector._get_fallback_businesses
                 db category city count σ).1 with
        | Ok refs =>
            refs = PyStr.slice_to count (dict_refs items)
            ∧ forallb is_dict items = true
            ∧ Forall
                (tagged
                   (BusinessCollector._get_fallback_businesses
                      db category city count σ).2
                   "verified_database_fallback")
                refs
        | Raise e => e = TypeError ∧ forallb is_dict items = false
        end
    end.
Proof. apply get_fallback_businesses_spec. Qed.

(** ** Enhancement *)

(** objects outside [L] are the same in both stores *)
Definition unchanged_outside (L : list BusinessCollector.loc)
  (σ σ' : BusinessCollector.store) : Prop :=
  ∀ l : nat, l ∈ L ∨ σ' !! l = σ !! l.

Lemma unchanged_outside_refl L σ : unchanged_outside L σ σ.
Proof. intros l. by right. Qed.

Lemma unchanged_outside_trans L σ1 σ2 σ3 :
  unchanged_outside L σ1 σ2 → unchanged_outside L σ2 σ3 →
  unchanged_outside L σ1 σ3.
Proof.
  intros H1 H2 l. destruct (H1 l) as [?|E1]; [by left|].
  destruct (H2 l) as [?|E2]; [by left|]. right. congruence.
Qed.

Lemma unchanged_outside_weaken L L' σ σ' :
  L ⊆ L' → unchanged_outside L σ σ' → unchanged_outside L' σ σ'.
Proof. intros Hsub H l. destruct (H l); [left; by apply Hsub|by right]. Qed.

Lemma unchanged_outside_alter f l (σ : list BusinessCollector.business) :
  unchanged_outside [l] σ (alter f l σ).
Proof.
  intros l'. destruct (decide (l = l')) as [<-|Hne].
  - left. by apply list_elem_of_singleton.
  - right. by apply list_lookup_alter_ne.
Qed.

Lemma update_same_identity d b : same_identity b (BusinessCollector.update d b).
Proof. done. Qed.

Lemma set_source_same_identity s b :
  same_identity b (BusinessCollector.set_source s b).
Proof. done. Qed.

Lemma enhance_one_spec w business σ :
  store_rel same_identity σ (BusinessCollector.enhance_one w business σ).2
  ∧ unchanged_outside [business] σ
      (BusinessCollector.enhance_one w business σ).2
  ∧ ((BusinessCollector.enhance_one w business σ).1 = Ok tt
     ∨ BusinessCollector.enhance_one w business σ = (Raise KeyError, σ)).
Proof.
  unfold BusinessCollector.enhance_one, BusinessCollector.bind,
    BusinessCollector.get_store.
  destruct (_ && _).
  2: { cbn. split; [apply (store_rel_refl _ same_identity_refl)|].
       split; [apply unchanged_outside_refl|by left]. }
  destruct (BusinessCollector.name _) as [nm|].
  2: { cbn. split; [apply (store_rel_refl _ same_identity_refl)|].
       split; [apply unchanged_outside_refl|by right]. }
  destruct (BusinessCollector.nonempty_data _).
  2: { cbn. split; [apply (store_rel_refl _ same_identity_refl)|].
       split; [apply unchanged_outside_refl|by left]. }
  destruct (BusinessCollector.source _) as [src|]; cbn.
  - split; [|split; [apply unchanged_outside_alter|by left]].
    apply (store_rel_alter _ same_identity_refl). intros b.
    eapply same_identity_trans;
      [apply update_same_identity|apply set_source_same_identity].
  - split; [|split; [apply unchanged_outside_alter|by left]].
    apply (store_rel_alter _ same_identity_refl). intros b.
    apply update_same_identity.
Qed.

Lemma enhance_business_data_spec w L :
  ∀ σ,
    store_rel same_identity σ
      (BusinessCollector._enhance_business_data w L σ).2
    ∧ unchanged_outside L σ (BusinessCollector._enhance_business_data w L σ).2
    ∧ match (BusinessCollector._enhance_business_data w L σ).1 with
      | Ok L' => L' = L
      | Raise e => e = KeyError
      end.
Proof.
  induction L as [|business L IH]; intros σ.
  - cbn. split; [apply (store_rel_refl _ same_identity_refl)|].
    split; [apply unchanged_outside_refl|done].
  - cbn [BusinessCollector._enhance_business_data].
    unfold BusinessCollector.bind.
    destruct (enhance_one_spec w business σ) as (Hrel & Hout & Hres).
    destruct (BusinessCollector.enhance_one w business σ) as [[[]|e] σ1];
      cbn [fst snd] in *.
    + specialize (IH σ1). destruct IH as (Hrel' & Hout' & Hres').
      destruct (BusinessCollector._enhance_business_data w L σ1)
        as [[L'|e] σ2]; cbn [fst snd BusinessCollector.ret] in *.
      * split; [exact (store_rel_trans _ same_identity_trans _ _ _ Hrel Hrel')|].
        split; [|by subst].
        eapply unchanged_outside_trans.
        -- eapply unchanged_outside_weaken; [|exact Hout].
           intros x ->%list_elem_of_singleton. apply elem_of_cons. by left.
        -- eapply unchanged_outside_weaken; [|exact Hout'].
           intros x Hx. apply elem_of_cons. by right.
      * split; [exact (store_rel_trans _ same_identity_trans _ _ _ Hrel Hrel')|].
        split; [|done].
        eapply unchanged_outside_trans.
        -- eapply unchanged_outside_weaken; [|exact Hout].
           intros x ->%list_elem_of_singleton. apply elem_of_cons. by left.
        -- eapply unchanged_outside_weaken; [|exact Hout'].
           intros x Hx. apply elem_of_cons. by right.
    + destruct Hres as [|[= -> ->]]; [done|].
      split; [done|]. split; [|done].
      eapply unchanged_outside_weaken; [|exact Hout].
      intros x ->%list_elem_of_singleton. apply elem_of_cons. by left.
Qed.

(** X13.  [_enhance_business_data] returns the list it was given and
    touches nothing else: the store keeps its size, every object keeps its
    name, web site, business type and [verified] flag, an object that is
    not in the list is not modified at all, and the only exception that can
    escape is the [KeyError] of a dictionary without a name. *)
Theorem enhance_business_data_frame
  (w : BusinessCollector.world) (L : list BusinessCollector.loc)
  (σ : BusinessCollector.store) :
  store_rel same_identity σ (BusinessCollector._enhance_business_data w L σ).2
  ∧ unchanged_outside L σ (BusinessCollector._enhance_business_data w L σ).2
  ∧ match (BusinessCollector._enhance_business_data w L σ).1 with
    | Ok L' => L' = L
    | Raise e => e = KeyError
    end.
Proof. apply enhance_business_data_spec. Qed.

(** ** [collect_businesses] as a whole *)

Lemma tag_sources_all_dicts tag items σ :
  forallb is_dict items = true →
  ∃ refs, (BusinessCollector.tag_sources tag items σ).1 = Ok refs.
Proof.
  intros Hall. pose proof (tag_sources_spec tag items σ) as (_ & _ & Hres).
  destruct (BusinessCollector.tag_sources tag items σ).1 as [refs|e];
    [by exists refs|].
  destruct Hres as [_ Hres]. congruence.
Qed.

(** the stored list of a key, when there is one, holds dictionaries only *)
Definition all_dicts (db : BusinessCollector.database)
  (category city : string) : bool :=
  match BusinessCollector.lookup_city db category city with
  | Some items => forallb is_dict items
  | None => true
  end.

Lemma get_fallback_businesses_returns db category city count σ :
  all_dicts db category city = true →
  ∃ refs,
    (BusinessCollector._get_fallback_businesses db category city count σ).1
    = Ok refs.
Proof.
  unfold all_dicts, BusinessCollector._get_fallback_businesses.
  destruct (BusinessCollector.lookup_city db category city) as [items|];
    [|by exists []].
  intros Hall. unfold BusinessCollector.bind.
  destruct (tag_sources_all_dicts "verified_database_fallback" items σ Hall)
    as [refs Hrefs].
  destruct (BusinessCollector.tag_sources _ items σ) as [r σ'].
  cbn [fst] in Hrefs. subst r. by eexists.
Qed.

(** X14.  [collect_businesses] truncates: for a non-negative
    [target_count], a call that returns, returns at most [target_count]
    businesses, on the normal path and on the fallback path alike. *)
Theorem collect_businesses_truncates
  (w : BusinessCollector.world) (db : BusinessCollector.database)
  (category city : string) (target_count : Z) (σ : BusinessCollector.store) :
  (0 ≤ target_count)%Z →
  match (BusinessCollector.collect_businesses
           w db category city target_count σ).1 with
  | Ok refs => (Z.of_nat (length refs) ≤ target_count)%Z
  | Raise _ => True
  end.
Proof.
  intros Htc.
  unfold BusinessCollector.collect_businesses, BusinessCollector.try_except,
    BusinessCollector.bind.
  destruct (BusinessCollector.collect_pipeline w db category city target_count σ)
    as [[valid|e] σ']; cbn [BusinessCollector.ret fst].
  - by apply slice_to_length_le.
  - pose proof (get_fallback_businesses_spec db category city target_count σ')
      as [_ Hres].
    destruct (BusinessCollector.lookup_city db category city) as [items|].
    + destruct (BusinessCollector._get_fallback_businesses _ _ _ _ _).1
        as [refs|]; [|done].
      destruct Hres as (-> & _). by apply slice_to_length_le.
    + rewrite Hres. cbn. lia.
Qed.

Lemma collect_businesses_truncates_example :
  match (BusinessCollector.collect_businesses
           (offline BusinessCollector.fallback_validate_email)
           BusinessCollector.verified_businesses "Technology" "Karachi" 2
           BusinessCollector.initial_store).1 with
  | Ok refs => (Z.of_nat (length refs) ≤ 2)%Z
  | Raise _ => True
  end.
Proof.
  apply (collect_businesses_truncates
           (offline BusinessCollector.fallback_validate_email)
           BusinessCollector.verified_businesses "Technology" "Karachi" 2
           BusinessCollector.initial_store).
  lia.
Defined.

Lemma collect_returns_of_all_dicts
  (w : BusinessCollector.world) (db : BusinessCollector.database)
  (category city : string) (target_count : Z) (σ : BusinessCollector.store) :
  all_dicts db category city = true →
  ∃ refs,
    (BusinessCollector.collect_businesses
       w db category city target_count σ).1 = Ok refs.
Proof.
  intros Hall.
  unfold BusinessCollector.collect_businesses, BusinessCollector.try_except,
    BusinessCollector.bind.
  destruct (BusinessCollector.collect_pipeline w db category city target_count σ)
    as [[valid|e] σ']; cbn [BusinessCollector.ret fst].
  - by eexists.
  - by apply get_fallback_businesses_returns.
Qed.

(** X15.  [collect_businesses] does not raise when the list stored under
    the (category, city) key holds dictionaries only, or when there is no
    such key: whatever happens in the pipeline, the caller receives a
    list. *)
Theorem collect_businesses_returns
  (w : BusinessCollector.world) (db : BusinessCollector.database)
  (category city : string) (target_count : Z) (σ : BusinessCollector.store) :
  all_dicts db category city = true →
  ∃ refs,
    (BusinessCollector.collect_businesses
       w db category city target_count σ).1 = Ok refs.
Proof. apply collect_returns_of_all_dicts. Qed.

Lemma collect_businesses_returns_example :
  ∃ refs,
    (BusinessCollector.collect_businesses
       (offline BusinessCollector.fallback_validate_email)
       BusinessCollector.verified_businesses "Technology" "Karachi" 4
       BusinessCollector.initial_store).1 = Ok refs.
Proof.
  apply (collect_businesses_returns
           (offline BusinessCollector.fallback_validate_email)
           BusinessCollector.verified_businesses "Technology" "Karachi" 4
           BusinessCollector.initial_store).
  vm_compute. reflexivity.
Defined.

(** *** The loaded data *)

Lemma forallb_is_dict_fmap ls :
  forallb is_dict (BusinessCollector.IDict <$> ls) = true.
Proof. induction ls as [|l ls IH]; [done|]. exact IH. Qed.

Lemma load_cities_dicts cities :
  ∀ σ city items,
    (BusinessCollector.load_cities cities σ).1 !! city = Some items →
    forallb is_dict items = true.
Proof.
  induction cities as [|[c bs] rest IH]; intros σ city items.
  - cbn. by rewrite lookup_empty.
  - cbn [BusinessCollector.load_cities].
    destruct (BusinessCollector.alloc_all bs σ) as [ls σ1].
    specialize (IH σ1 city items).
    destruct (BusinessCollector.load_cities rest σ1) as [m σ2].
    cbn [fst] in *. rewrite lookup_insert. case_decide; [|exact IH].
    intros [= <-]. apply forallb_is_dict_fmap.
Qed.

Lemma load_categories_dicts cats :
  ∀ σ category city,
    city ≠ "related_types" →
    all_dicts (BusinessCollector.load_categories cats σ).1 category city
    = true.
Proof.
  unfold all_dicts, BusinessCollector.lookup_city.
  induction cats as [|[cat [related cities]] rest IH];
    intros σ category city Hcity.
  - cbn [BusinessCollector.load_categories fst].
    unfold BusinessCollector.database. by rewrite lookup_empty.
  - cbn [BusinessCollector.load_categories].
    pose proof (load_cities_dicts cities σ city) as Hcities.
    destruct (BusinessCollector.load_cities cities σ) as [entry σ1].
    specialize (IH σ1 category city Hcity).
    destruct (BusinessCollector.load_categories rest σ1) as [db σ2].
    cbn [fst] in *. unfold BusinessCollector.database in *.
    rewrite lookup_insert. case_decide; [|exact IH].
    rewrite lookup_insert_ne by done.
    destruct (entry !! city) as [items|] eqn:Hentry; [|done].
    by apply Hcities.
Qed.

(** X16.  On the data the collector ships with, "related_types" is the only
    dangerous city argument: for every category, for every city other
    than "related_types" (known or unknown), every target count and every
    behaviour of the network, [collect_businesses] returns a list and does
    not raise. *)
Theorem collect_businesses_returns_on_shipped_data
  (w : BusinessCollector.world) (category city : string) (target_count : Z)
  (σ : BusinessCollector.store) :
  String.eqb city "related_types" = false →
  ∃ refs,
    (BusinessCollector.collect_businesses
       w BusinessCollector.verified_businesses category city target_count σ).1
    = Ok refs.
Proof.
  intros Hcity%String.eqb_neq.
  apply collect_returns_of_all_dicts.
  by apply load_categories_dicts.
Qed.

Lemma collect_businesses_returns_on_shipped_data_example :
  ∃ refs,
    (BusinessCollector.collect_businesses
       (offline BusinessCollector.fallback_validate_email)
       BusinessCollector.verified_businesses "Technology" "Atlantis" 3
       BusinessCollector.initial_store).1 = Ok refs.
Proof.
  apply (collect_businesses_returns_on_shipped_data
           (offline BusinessCollector.fallback_validate_email)
           "Technology" "Atlantis" 3 BusinessCollector.initial_store).
  reflexivity.
Defined.

(** ** The two scrapers *)

(** what every dictionary built by a scraper carries *)
Definition scraped_as (tag category : string)
  (b : BusinessCollector.business) : Prop :=
  BusinessCollector.source b = Some tag
  ∧ BusinessCollector.business_type b = Some category
  ∧ BusinessCollector.verified b = Some false
  ∧ ∃ url, BusinessCollector.website b = Some url
           ∧ PyStr.startswith "http" url = true.

Lemma google_search_business_scraped w category city r b :
  BusinessCollector.google_search_business w category city r = Some b →
  scraped_as "google_search" category b.
Proof.
  unfold BusinessCollector.google_search_business.
  destruct (BusinessCollector.sr_title r) as [t|]; [|done].
  assert (∀ link,
    PyStr.startswith "http"
      (if PyStr.startswith "http" link then link else "https://" +:+ link)
    = true) as Hweb.
  { intros link. destruct (PyStr.startswith "http" link) eqn:Hl; [done|].
    reflexivity. }
  destruct (BusinessCollector.sr_link r) as [| |link]; [|done|];
    intros [= <-]; repeat split; cbn; eexists; (split; [reflexivity|]);
    first [apply Hweb | reflexivity].
Qed.

Lemma google_maps_business_scraped category city e b :
  BusinessCollector.google_maps_business category city e = Some b →
  scraped_as "google_maps" category b.
Proof.
  unfold BusinessCollector.google_maps_business.
  destruct (_ || _); [done|]. intros [= <-].
  repeat split; cbn. eexists; split; [reflexivity|].
  destruct (BusinessCollector.me_link e) as [| |href]; try reflexivity.
  destruct (PyStr.startswith "http" href) eqn:Hhttp.
  - destruct href as [|c href']; [done|]. cbn [String.eqb]. exact Hhttp.
  - destruct (PyStr.startswith "/" href); reflexivity.
Qed.

(** the name as the duplicate test of [_scrape_google_maps] compares it *)
Definition lower_name (b : BusinessCollector.business) : string :=
  PyStr.lower (default "" (BusinessCollector.name b)).

Lemma name_already_added_false b bs :
  BusinessCollector.name_already_added b bs = false →
  lower_name b ∉ lower_name <$> bs.
Proof.
  unfold BusinessCollector.name_already_added.
  induction bs as [|b' bs IH]; cbn [existsb fmap list_fmap].
  - intros _. apply not_elem_of_nil.
  - intros [Hne Hrest]%orb_false_iff. rewrite not_elem_of_cons. split.
    + apply String.eqb_neq in Hne. intros Heq. apply Hne. symmetry. exact Heq.
    + by apply IH.
Qed.

(** what the element loop keeps true between two iterations, and what
    holds of the list it leaves *)
Definition maps_partial (category : string) (bound : Z)
  (bs : list BusinessCollector.business) : Prop :=
  NoDup (lower_name <$> bs)
  ∧ (Z.of_nat (length bs) ≤ bound)%Z
  ∧ Forall (scraped_as "google_maps" category) bs.

Lemma maps_elements_loop_inv category city count elements :
  ∀ bs,
    maps_partial category (Z.max 0 (count - 1)) bs →
    maps_partial category (Z.max 1 count)
      (BusinessCollector.maps_elements_loop category city count elements bs).
Proof.
  induction elements as [|e rest IH]; intros bs (Hnd & Hlen & Hall);
    cbn [BusinessCollector.maps_elements_loop].
  - repeat split; [done|lia|done].
  - destruct (BusinessCollector.google_maps_business category city e)
      as [b|] eqn:Hb; [|by apply IH].
    apply google_maps_business_scraped in Hb.
    set (bs' := if BusinessCollector.name_already_added b bs
                then bs else bs ++ [b]).
    assert (maps_partial category (Z.max 1 count) bs') as (Hnd' & Hlen' & Hall').
    { subst bs'.
      destruct (BusinessCollector.name_already_added b bs) eqn:Hadded.
      - repeat split; [done|lia|done].
      - apply name_already_added_false in Hadded. repeat split.
        + rewrite fmap_app. apply NoDup_app. split; [done|]. split.
          * intros x Hx [->|[]%elem_of_nil]%elem_of_cons. done.
          * apply NoDup_singleton.
        + rewrite length_app. cbn. lia.
        + apply Forall_app. split; [done|]. by constructor. }
    destruct (count <=? Z.of_nat (length bs'))%Z eqn:Hbreak.
    + by repeat split.
    + apply Z.leb_gt in Hbreak. apply IH. repeat split; [done|lia|done].
Qed.

Lemma maps_urls_loop_inv w category city count urls :
  ∀ bs,
    maps_partial category (Z.max 0 (count - 1)) bs →
    maps_partial category (Z.max 1 count)
      (BusinessCollector.maps_urls_loop w category city count urls bs).
Proof.
  induction urls as [|url rest IH]; intros bs Hbs;
    cbn [BusinessCollector.maps_urls_loop].
  - destruct Hbs as (Hnd & Hlen & Hall). repeat split; [done|lia|done].
  - destruct (BusinessCollector.get_google_maps w url) as [elements|];
      [|by apply IH].
    pose proof (maps_elements_loop_inv category city count
                  (PyStr.slice_to count elements) bs Hbs) as Hloop.
    destruct (BusinessCollector.maps_elements_loop _ _ _ _ _) as [|b bs'];
      [|exact Hloop].
    apply IH. repeat split; [constructor|cbn; lia|constructor].
Qed.

(** X17.  [_scrape_google_maps] returns businesses whose names are
    pairwise different when compared case-insensitively, at most
    [max(1, count)] of them, each one tagged "google_maps", not verified,
    of the requested business type and with a web address that starts
    with "http". *)
Theorem scrape_google_maps_records
  (w : BusinessCollector.world) (category city : string) (count : Z) :
  let businesses := BusinessCollector._scrape_google_maps w category city count in
  NoDup (lower_name <$> businesses)
  ∧ (Z.of_nat (length businesses) ≤ Z.max 1 count)%Z
  ∧ Forall (scraped_as "google_maps" category) businesses.
Proof.
  apply maps_urls_loop_inv. repeat split; [constructor|cbn; lia|constructor].
Qed.

(** a result page with two entries *)
Definition two_results : list BusinessCollector.search_result :=
  [ {| BusinessCollector.sr_title := Some "Acme Software - Home";
       BusinessCollector.sr_link := BusinessCollector.Href "acme.example";
       BusinessCollector.sr_snippet := None;
       BusinessCollector.sr_randint := 12345678 |};
    {| BusinessCollector.sr_title := Some "Bolt Systems";
       BusinessCollector.sr_link := BusinessCollector.Href "https://bolt.example";
       BusinessCollector.sr_snippet := None;
       BusinessCollector.sr_randint := 87654321 |} ].

Definition search_only : BusinessCollector.world :=
  {| BusinessCollector.get_google_search := λ _, Some two_results;
     BusinessCollector.get_google_maps := λ _, None;
     BusinessCollector.get_website := λ _, None;
     BusinessCollector.findall_email := λ _, [];
     BusinessCollector.findall_phone := λ _, [];
     BusinessCollector.validate_email := λ _, Ok tt;
     BusinessCollector.resolve_mx := λ _, Raise OtherException |}.

(** X18.  For a non-negative [count], [_scrape_google_search] returns at
    most [count] businesses; each one is tagged "google_search", not
    verified, of the requested business type and with a web address that
    starts with "http" (the scheme "https://" is put in front of any
    other link). *)
Theorem scrape_google_search_records
  (w : BusinessCollector.world) (category city : string) (count : Z) :
  (0 ≤ count)%Z →
  (Z.of_nat (length (BusinessCollector._scrape_google_search
                       w category city count)) ≤ count)%Z
  ∧ Forall (scraped_as "google_search" category)
           (BusinessCollector._scrape_google_search w category city count).
Proof.
  intros Hcount. unfold BusinessCollector._scrape_google_search.
  destruct (BusinessCollector.get_google_search w _) as [search_results|].
  - split.
    + pose proof (omap_length_le
                    (BusinessCollector.google_search_business w category city)
                    (PyStr.slice_to count search_results)).
      pose proof (slice_to_length_le count search_results Hcount). lia.
    + apply Forall_forall. intros b (r & _ & Hb)%list_elem_of_omap.
      by eapply google_search_business_scraped.
  - split; [cbn; lia|constructor].
Qed.

Lemma scrape_google_search_records_example :
  (Z.of_nat (length (BusinessCollector._scrape_google_search
                       search_only "Technology" "Karachi" 1)) ≤ 1)%Z
  ∧ Forall (scraped_as "google_search" "Technology")
           (BusinessCollector._scrape_google_search
              search_only "Technology" "Karachi" 1).
Proof.
  apply (scrape_google_search_records search_only "Technology" "Karachi" 1).
  lia.
Defined.

(** ** Generated e-mail addresses *)

(** the cleaned name [_generate_email_from_name] works with *)
Definition clean_name (business_name : string) : string :=
  PyStr.filter PyStr.isalnum
    (PyStr.replace "-" ""
       (PyStr.replace "&" "" (PyStr.replace " " "" (PyStr.lower business_name)))).



(** ** Statistics *)

(** [business.get('source', 'unknown')] *)
Definition source_of (σ : BusinessCollector.store) (l : BusinessCollector.loc)
  : string :=
  default "unknown" (BusinessCollector.source (BusinessCollector.deref σ l)).

(** how many businesses of the list come from source [s] *)
Definition occurrences (σ : BusinessCollector.store) (s : string)
  (businesses : list BusinessCollector.loc) : nat :=
  length (filter (λ l, source_of σ l = s) businesses).

Lemma count_sources_from σ s businesses :
  ∀ source_counts : gmap string nat,
    fold_left
      (λ source_counts business,
         let src := default "unknown"
                      (BusinessCollector.source
                         (BusinessCollector.deref σ business)) in
         <[src := (default 0 (source_counts !! src) + 1)%nat]> source_counts)
      businesses source_counts !! s
    = if decide (occurrences σ s businesses = 0%nat)
      then source_counts !! s
      else Some (default 0 (source_counts !! s)
                 + occurrences σ s businesses)%nat.
Proof.
  unfold occurrences.
  induction businesses as [|b bs IH]; intros m; [done|].
  cbn [fold_left]. rewrite IH. rewrite filter_cons. fold (source_of σ b).
  destruct (decide (source_of σ b = s)) as [Hs|Hs].
  - rewrite Hs, lookup_insert_eq. cbn [length default].
    rewrite (decide_False (P := S _ = 0%nat)) by done.
    case_decide as Hz; [rewrite Hz|]; cbn [from_option id]; f_equal; lia.
  - rewrite lookup_insert_ne by done. done.
Qed.

(** X20.  For a non-empty list, [_log_scraping_statistics] stores the
    number of businesses and, for every source, the number of businesses
    of the list that carry it ("unknown" for a business without a
    source); a source no business carries has no entry. *)
Theorem log_scraping_statistics_counts
  (σ : BusinessCollector.store) (b : BusinessCollector.loc)
  (bs : list BusinessCollector.loc)
  (previous : option BusinessCollector.scraping_stats) :
  ∃ stats,
    BusinessCollector._log_scraping_statistics σ (b :: bs) previous
    = Some stats
    ∧ BusinessCollector.total_businesses stats = length (b :: bs)
    ∧ ∀ s, BusinessCollector.sources stats !! s
           = if decide (occurrences σ s (b :: bs) = 0%nat) then None
             else Some (occurrences σ s (b :: bs)).
Proof.
  eexists. split; [reflexivity|]. split; [reflexivity|].
  intros s. cbn [BusinessCollector.sources].
  unfold BusinessCollector.count_sources. rewrite count_sources_from.
  rewrite lookup_empty. done.
Qed.

(** ** The list of cities *)

(** X21.  [get_cities] lists exactly the keys other than "related_types"
    found under some category. *)
Theorem get_cities_spec (db : BusinessCollector.database) (city : string) :
  city ∈ BusinessCollector.get_cities db
  ↔ city ≠ "related_types"
    ∧ ∃ category category_data,
        db !! category = Some category_data
        ∧ is_Some (category_data !! city).
Proof.
  unfold BusinessCollector.get_cities. rewrite elem_of_union_list. split.
  - intros (X & HX & Hcity).
    apply list_elem_of_fmap in HX as (category_data & -> & Hdata).
    apply list_elem_of_fmap in Hdata as ([category d] & -> & Hin).
    apply elem_of_map_to_list in Hin.
    apply elem_of_difference in Hcity as [Hdom Hne].
    split; [by rewrite elem_of_singleton in Hne|].
    exists category, d. split; [done|]. by apply elem_of_dom.
  - intros (Hne & category & category_data & Hdb & Hsome).
    exists (dom category_data ∖ {["related_types"]}). split.
    + apply list_elem_of_fmap. exists category_data. split; [done|].
      apply list_elem_of_fmap. exists (category, category_data).
      split; [done|]. by apply elem_of_map_to_list.
    + apply elem_of_difference. split; [by apply elem_of_dom|].
      by rewrite elem_of_singleton.
Qed.

(** ** The store across a whole collection run *)

(** the store has only grown, and every object it held has kept its
    name, web site, business type and verified flag *)
Definition grows_from (σ σ' : BusinessCollector.store) : Prop :=
  (length σ ≤ length σ')%nat
  ∧ ∀ l : nat, (l < length σ)%nat →
      same_identity (BusinessCollector.deref σ l) (BusinessCollector.deref σ' l).

Lemma grows_from_refl σ : grows_from σ σ.
Proof. split; [done|]. intros l _. apply same_identity_refl. Qed.

Lemma grows_from_trans σ1 σ2 σ3 :
  grows_from σ1 σ2 → grows_from σ2 σ3 → grows_from σ1 σ3.
Proof.
  intros [Hl1 H1] [Hl2 H2]. split; [lia|]. intros l Hl.
  eapply same_identity_trans; [by apply H1|]. apply H2. lia.
Qed.

Lemma store_rel_grows σ σ' : store_rel same_identity σ σ' → grows_from σ σ'.
Proof. intros [Hlen H]. split; [lia|]. intros l _. apply H. Qed.

Lemma alloc_all_spec bs :
  ∀ σ : list BusinessCollector.business,
    BusinessCollector.alloc_all bs σ = (seq (length σ) (length bs), σ ++ bs).
Proof.
  induction bs as [|b bs IH]; intros σ; cbn [BusinessCollector.alloc_all].
  - by rewrite app_nil_r.
  - unfold BusinessCollector.alloc. rewrite IH, length_app. cbn [length seq].
    rewrite Nat.add_1_r, <- app_assoc. done.
Qed.

Lemma grows_from_app (σ bs : list BusinessCollector.business) :
  grows_from σ (σ ++ bs).
Proof.
  split; [rewrite length_app; lia|]. intros l Hl.
  unfold BusinessCollector.deref. unalias.
  rewrite lookup_app_l by done. apply same_identity_refl.
Qed.

(** a computation under which the store only grows *)
Definition growing {A} (m : BusinessCollector.M A) : Prop :=
  ∀ σ, grows_from σ (m σ).2.

Lemma growing_ret {A} (a : A) : growing (BusinessCollector.ret a).
Proof. intros σ. apply grows_from_refl. Qed.

Lemma growing_get_store : growing BusinessCollector.get_store.
Proof. intros σ. apply grows_from_refl. Qed.

Lemma growing_bind {A B} (m : BusinessCollector.M A)
  (k : A → BusinessCollector.M B) :
  growing m → (∀ a, growing (k a)) → growing (BusinessCollector.bind m k).
Proof.
  intros Hm Hk σ. unfold BusinessCollector.bind. specialize (Hm σ).
  destruct (m σ) as [[a|e] σ1]; cbn [snd] in *; [|done].
  eapply grows_from_trans; [exact Hm|apply Hk].
Qed.

Lemma growing_try_except {A} (m : BusinessCollector.M A)
  (h : exn → BusinessCollector.M A) :
  growing m → (∀ e, growing (h e)) →
  growing (BusinessCollector.try_except m h).
Proof.
  intros Hm Hh σ. unfold BusinessCollector.try_except. specialize (Hm σ).
  destruct (m σ) as [[a|e] σ1]; cbn [snd] in *; [done|].
  eapply grows_from_trans; [exact Hm|apply Hh].
Qed.

Lemma growing_new_dicts bs : growing (BusinessCollector.new_dicts bs).
Proof.
  intros σ. unfold BusinessCollector.new_dicts. unalias.
  rewrite alloc_all_spec. apply grows_from_app.
Qed.

Lemma growing_tag_sources tag items :
  growing (BusinessCollector.tag_sources tag items).
Proof.
  intros σ. destruct (tag_sources_spec tag items σ) as ([Hlen Hrel] & _).
  apply store_rel_grows. split; [done|].
  intros l. apply same_but_source_identity, Hrel.
Qed.

Lemma growing_enhance w L :
  growing (BusinessCollector._enhance_business_data w L).
Proof.
  intros σ. apply store_rel_grows. apply enhance_business_data_spec.
Qed.

Lemma growing_get_fallback db category city count :
  growing (BusinessCollector._get_fallback_businesses db category city count).
Proof.
  unfold BusinessCollector._get_fallback_businesses.
  destruct (BusinessCollector.lookup_city db category city);
    [|apply growing_ret].
  apply growing_bind; [apply growing_tag_sources|].
  intros refs. apply growing_ret.
Qed.

Lemma growing_collect_pipeline w db category city target_count :
  growing (BusinessCollector.collect_pipeline w db category city target_count).
Proof.
  unfold BusinessCollector.collect_pipeline.
  apply growing_bind; [apply growing_new_dicts|]. intros google_refs.
  apply growing_bind; [apply growing_new_dicts|]. intros maps_refs.
  apply growing_bind.
  { destruct (_ <? _)%Z; [|apply growing_ret].
    destruct (BusinessCollector.lookup_city db category city);
      [|apply growing_ret].
    apply growing_bind; [apply growing_tag_sources|].
    intros verified. apply growing_ret. }
  intros all_businesses.
  apply growing_bind; [apply growing_get_store|]. intros σ1.
  apply growing_bind; [apply growing_enhance|]. intros enhanced.
  apply growing_bind; [apply growing_get_store|]. intros σ2.
  destruct (BusinessCollector._validate_business_emails w σ2 enhanced).
  apply growing_ret.
Qed.

(** X22.  Whatever the network returns and whether it returns or raises,
    [collect_businesses] leaves every dictionary that existed before the
    call with its name, web site, business type and verified flag: the
    call creates new dictionaries and may rewrite the source, e-mail,
    telephone and address of existing ones, nothing else. *)
Theorem collect_businesses_keeps_identity
  (w : BusinessCollector.world) (db : BusinessCollector.database)
  (category city : string) (target_count : Z) (σ : BusinessCollector.store) :
  let σ' := (BusinessCollector.collect_businesses
               w db category city target_count σ).2 in
  (length σ ≤ length σ')%nat
  ∧ ∀ l : BusinessCollector.loc,
      (l < length σ)%nat →
      same_identity (BusinessCollector.deref σ l) (BusinessCollector.deref σ' l).
Proof.
  revert σ. change (growing (BusinessCollector.collect_businesses
                               w db category city target_count)).
  unfold BusinessCollector.collect_businesses.
  apply growing_try_except.
  - apply growing_bind; [apply growing_collect_pipeline|].
    intros valid. apply growing_ret.
  - intros e. apply growing_get_fallback.
Qed.

(** ** Requests of the enhanced scraper *)

(** [self.current_proxy_index] after [k] calls of [_get_next_proxy] *)
Fixpoint index_after (proxy_list : list string) (k index : nat) : nat :=
  match k with
  | O => index
  | S k' =>
      index_after proxy_list k'
        (EnhancedScraper._get_next_proxy proxy_list index).2
  end.

Lemma index_after_in_range proxy_list k :
  ∀ index,
    (index < length proxy_list)%nat →
    index_after proxy_list k index = ((index + k) `mod` length proxy_list)%nat.
Proof.
  induction k as [|k IH]; intros index Hindex; cbn [index_after].
  - rewrite Nat.add_0_r. symmetry. by apply Nat.mod_small.
  - unfold EnhancedScraper._get_next_proxy.
    destruct proxy_list as [|p proxy_list']; [cbn in Hindex; lia|].
    set (pl := p :: proxy_list') in *.
    destruct (lookup_lt_is_Some_2 pl index Hindex) as [proxy Hproxy].
    rewrite Hproxy. cbn [snd].
    rewrite IH by (apply Nat.mod_upper_bound; cbn; lia).
    rewrite Nat.Div0.add_mod_idemp_l. f_equal. lia.
Qed.

(** X23.  [_get_next_proxy] hands the proxies out in rotation: counted from
    the construction of the scraper, where the index is 0, call number [k]
    returns the proxy at position [k mod len(proxy_list)] and never raises;
    with an empty list every call returns [None]. *)
Theorem get_next_proxy_rotation (proxy_list : list string) (k : nat) :
  (EnhancedScraper._get_next_proxy proxy_list (index_after proxy_list k 0)).1
  = Ok (proxy_list !! (k `mod` length proxy_list)%nat).
Proof.
  destruct proxy_list as [|p proxy_list'].
  - unfold EnhancedScraper._get_next_proxy. by rewrite lookup_nil.
  - set (pl := p :: proxy_list').
    rewrite index_after_in_range by (cbn; lia). cbn [Nat.add].
    unfold EnhancedScraper._get_next_proxy. fold pl.
    assert (k `mod` length pl < length pl)%nat as Hlt
      by (apply Nat.mod_upper_bound; cbn; lia).
    destruct (lookup_lt_is_Some_2 pl _ Hlt) as [proxy Hproxy].
    subst pl. by rewrite Hproxy.
Qed.

Section RequestFacts.
Context (proxy_list : list string)
        (session_get : nat → string → option string → result EnhancedScraper.response)
        (url : string).

(** what a call of [_make_request] leaves behind: an answer, the requests
    it sent after those of [st], at most [bound] of them and all for [url],
    and a response only with status 200 *)
Definition requested (bound : nat) (st : EnhancedScraper.requester)
  (res : option (option EnhancedScraper.response) * EnhancedScraper.requester)
  : Prop :=
  ∃ out attempts,
    res.1 = Some out
    ∧ EnhancedScraper.sent res.2 = EnhancedScraper.sent st ++ attempts
    ∧ (length attempts ≤ bound)%nat
    ∧ Forall (λ a, a.1 = url) attempts
    ∧ match out with
      | Some r => EnhancedScraper.status_code r = 200%Z
      | None => True
      end.

Lemma requested_later bound st st' attempt res :
  EnhancedScraper.sent st' = EnhancedScraper.sent st ++ [attempt] →
  attempt.1 = url →
  requested bound st' res → requested (S bound) st res.
Proof.
  intros Hsent Hurl (out & attempts & Hout & Hs & Hlen & Hall & Hok).
  exists out, (attempt :: attempts). split; [done|]. split.
  { rewrite Hs, Hsent, <- app_assoc. done. }
  split; [cbn; lia|]. split; [by constructor|done].
Qed.

Lemma requested_same bound st st' res :
  EnhancedScraper.sent st' = EnhancedScraper.sent st →
  requested bound st' res → requested (S bound) st res.
Proof.
  intros Hsent (out & attempts & Hout & Hs & Hlen & Hall & Hok).
  exists out, attempts. rewrite <- Hsent. repeat split; try done. lia.
Qed.

Lemma requested_none bound st : requested bound st (Some None, st).
Proof.
  exists None, []. rewrite app_nil_r. repeat split; [cbn; lia|constructor].
Qed.

Lemma make_request_go_spec fuel :
  ∀ retries st,
    (0 < fuel)%nat →
    (EnhancedScraper.max_retries - retries < Z.of_nat fuel)%Z →
    requested fuel st
      (EnhancedScraper.make_request_go proxy_list session_get fuel url retries st).
Proof.
  induction fuel as [|fuel IH]; intros retries st Hpos Hfuel; [lia|].
  cbn [EnhancedScraper.make_request_go].
  assert (∀ st',
    requested fuel st'
      (if (retries <? EnhancedScraper.max_retries)%Z
       then EnhancedScraper.make_request_go proxy_list session_get fuel url
              (retries + 1) st'
       else (Some None, st'))) as Hretry.
  { intros st'. destruct (retries <? EnhancedScraper.max_retries)%Z eqn:Hlt;
      [|apply requested_none].
    apply Z.ltb_lt in Hlt. apply IH; lia. }
  destruct (if (0 <? retries)%Z
            then EnhancedScraper._get_next_proxy proxy_list
                   (EnhancedScraper.current_proxy_index st)
            else (Ok None, EnhancedScraper.current_proxy_index st))
    as [[proxy|e] index].
  - set (proxies := match proxy with
                    | Some p => if String.eqb p "" then None else Some p
                    | None => None
                    end).
    set (st' := {| EnhancedScraper.current_proxy_index := index;
                   EnhancedScraper.sent :=
                     EnhancedScraper.sent st ++ [(url, proxies)] |}).
    assert (∀ res, requested fuel st' res → requested (S fuel) st res) as Hlater.
    { intros res. by apply (requested_later fuel st st' (url, proxies)). }
    destruct (session_get (length (EnhancedScraper.sent st)) url proxies)
      as [r|e]; [|apply Hlater, Hretry].
    destruct (EnhancedScraper.status_code r =? 200)%Z eqn:Hok.
    + apply Z.eqb_eq in Hok. exists (Some r), [(url, proxies)].
      repeat split; [cbn; lia|by repeat constructor|done].
    + destruct (_ || _); cbn [andb]; [apply Hlater, Hretry|].
      apply Hlater, requested_none.
  - apply (requested_same fuel st
             {| EnhancedScraper.current_proxy_index := index;
                EnhancedScraper.sent := EnhancedScraper.sent st |});
      [done|apply Hretry].
Qed.

(** X24.  [_make_request(url)] always returns, after at least one and at
    most [max_retries + 1 = 4] calls of [session.get], all of them for
    [url]; the first call uses no proxy; a response is returned only when
    its status is 200. *)
Theorem make_request_attempts (st : EnhancedScraper.requester) :
  ∃ out later,
    (EnhancedScraper._make_request proxy_list session_get url 0 st).1 = Some out
    ∧ EnhancedScraper.sent
        (EnhancedScraper._make_request proxy_list session_get url 0 st).2
      = EnhancedScraper.sent st ++ (url, None) :: later
    ∧ (length later ≤ 3)%nat
    ∧ Forall (λ a, a.1 = url) later
    ∧ match out with
      | Some r => EnhancedScraper.status_code r = 200%Z
      | None => True
      end.
Proof.
  unfold EnhancedScraper._make_request.
  change (S (Z.to_nat (EnhancedScraper.max_retries - 0))) with 4%nat.
  cbn [EnhancedScraper.make_request_go]. change (0 <? 0)%Z with false.
  cbn iota.
  set (st' := {| EnhancedScraper.current_proxy_index :=
                   EnhancedScraper.current_proxy_index st;
                 EnhancedScraper.sent :=
                   EnhancedScraper.sent st ++ [(url, None)] |}).
  assert (∀ res, requested 3 st' res →
    ∃ out later,
      res.1 = Some out
      ∧ EnhancedScraper.sent res.2
        = EnhancedScraper.sent st ++ (url, None) :: later
      ∧ (length later ≤ 3)%nat
      ∧ Forall (λ a, a.1 = url) later
      ∧ match out with
        | Some r => EnhancedScraper.status_code r = 200%Z
        | None => True
        end) as Hlater.
  { intros res (out & attempts & Hout & Hs & Hlen & Hall & Hok).
    exists out, attempts. repeat split; try done.
    rewrite Hs. subst st'. cbn. by rewrite <- app_assoc. }
  assert (requested 3 st'
            (EnhancedScraper.make_request_go proxy_list session_get 3 url
               (0 + 1) st')) as Hretry.
  { apply make_request_go_spec; [lia|]. unfold EnhancedScraper.max_retries. lia. }
  change (0 <? EnhancedScraper.max_retries)%Z with true. cbn iota.
  destruct (session_get (length (EnhancedScraper.sent st)) url None)
    as [r|e]; [|by apply Hlater].
  destruct (EnhancedScraper.status_code r =? 200)%Z eqn:Hok.
  - apply Z.eqb_eq in Hok. apply Hlater. exists (Some r), [].
    rewrite app_nil_r. repeat split; [cbn; lia|constructor|done].
  - rewrite andb_true_r. destruct (_ || _); apply Hlater; [exact Hretry|].
    apply requested_none.
Qed.

End RequestFacts.

(** ** Directory scraping *)

(** what every record extracted from a listing of [source_name] carries *)
Definition listed_by (source_name category city : string)
  (b : EnhancedScraper.ScrapedBusiness) : Prop :=
  EnhancedScraper.source b = source_name
  ∧ EnhancedScraper.business_type b = Some category
  ∧ EnhancedScraper.city b = Some city
  ∧ EnhancedScraper.category b = None
  ∧ EnhancedScraper.name_ok (EnhancedScraper.name b) = true
  ∧ EnhancedScraper.confidence_score b
    = EnhancedScraper._calculate_confidence_score b.

Lemma extract_business_listed extract e cfg category city source_name b :
  EnhancedScraper._extract_business_from_element
    extract e cfg category city source_name = Some b →
  listed_by source_name category city b.
Proof.
  unfold EnhancedScraper._extract_business_from_element.
  destruct (EnhancedScraper.first_name _ e) as [nm|]; [|done].
  rewrite name_guard_name_ok.
  destruct (EnhancedScraper.name_ok nm) eqn:Hok; [|done]. cbn [negb].
  destruct (PrimFloat.leb _ _); [|done]. intros [= <-].
  repeat split. exact Hok.
Qed.

Section DirectoryFacts.
Context (proxy_list : list string)
        (session_get : nat → string → option string
                       → result EnhancedScraper.response)
        (quote_plus : string → string)
        (format : string → list (string * string) → result string)
        (select : EnhancedScraper.response → string
                  → result (list EnhancedScraper.element))
        (extract : string → EnhancedScraper.contact_info).

(** X25.  [scrape_business_directory] returns at most 20 businesses, each
    carrying the source name, the requested category as its business type
    and the requested city, a name of at least three characters, and the
    score of its own fields; its [category] field is never set, so the
    category criterion of the score never counts for it.  The call sends at
    most four requests, and none at all for a source name that is not
    configured, for which it returns the empty list. *)
Theorem scrape_business_directory_records
  (sources : gmap string EnhancedScraper.source_config)
  (source_name category city : string) (st : EnhancedScraper.requester) :
  let res :=
    EnhancedScraper.scrape_business_directory proxy_list session_get
      quote_plus format select extract sources source_name category city st in
  (length res.1 ≤ 20)%nat
  ∧ Forall (listed_by source_name category city) res.1
  ∧ (∃ attempts,
       EnhancedScraper.sent res.2 = EnhancedScraper.sent st ++ attempts
       ∧ (length attempts ≤ 4)%nat)
  ∧ match sources !! source_name with
    | None => res = ([], st)
    | Some _ => True
    end.
Proof.
  cbn zeta.
  assert (∀ st, ∃ attempts : list (string * option string),
            EnhancedScraper.sent st = EnhancedScraper.sent st ++ attempts
            ∧ (length attempts ≤ 4)%nat) as Hnone.
  { intros st0. exists []. rewrite app_nil_r. split; [done|cbn; lia]. }
  unfold EnhancedScraper.scrape_business_directory.
  destruct (sources !! source_name) as [cfg|];
    [|repeat split; [cbn; lia|constructor|apply Hnone]].
  destruct (if _ && _ then _ else _) as [path|e];
    [|repeat split; [cbn; lia|constructor|apply Hnone]].
  set (search_url := EnhancedScraper.base_url cfg +:+ "/" +:+ path).
  pose proof (make_request_go_spec proxy_list session_get search_url 4 0 st)
    as (out & attempts & Hout & Hsent & Hlen & _).
  { lia. } { unfold EnhancedScraper.max_retries. lia. }
  change (EnhancedScraper.make_request_go proxy_list session_get 4 search_url 0 st)
    with (EnhancedScraper._make_request proxy_list session_get search_url 0 st)
    in *.
  destruct (EnhancedScraper._make_request proxy_list session_get search_url 0 st)
    as [r st']. cbn [fst snd] in *.
  assert (∃ attempts : list (string * option string),
            EnhancedScraper.sent st' = EnhancedScraper.sent st ++ attempts
            ∧ (length attempts ≤ 4)%nat) as Hreq by eauto.
  destruct r as [[r|]|];
    try (repeat split; [cbn; lia|constructor|exact Hreq]).
  destruct (EnhancedScraper.first_elements select r _) as [[|e es]|];
    try (repeat split; [cbn; lia|constructor|exact Hreq]).
  cbn [fst snd]. split; [|split; [|split; [exact Hreq|done]]].
  - etransitivity; [apply omap_length_le|]. rewrite length_take. lia.
  - apply Forall_forall. intros b (e' & _ & Hb)%list_elem_of_omap.
    by eapply extract_business_listed.
Qed.

End DirectoryFacts.

(** ** Scores *)

(** [<] on floats is asymmetric *)
Lemma SFcompare_Lt_Gt x y :
  SFcompare x y = Some Lt → SFcompare y x = Some Gt.
Proof.
  destruct x as [sx|sx| |sx mx ex], y as [sy|sy| |sy my ey]; simpl;
    try discriminate;
    try (destruct sx; simpl; congruence);
    try (destruct sy; simpl; congruence);
    try (destruct sx, sy; simpl; congruence).
  change (PosDef.Pos.compare_cont Eq mx my) with (mx ?= my)%positive.
  change (PosDef.Pos.compare_cont Eq my mx) with (my ?= mx)%positive.
  rewrite (Z.compare_antisym ex ey), (Pos.compare_antisym mx my).
  destruct sx, sy; simpl; try congruence;
    destruct (ex ?= ey)%Z; simpl; try congruence;
    destruct (mx ?= my)%positive; simpl; congruence.
Qed.

Lemma float_ltb_asym (x y : float) :
  PrimFloat.ltb x y = true → PrimFloat.ltb y x = false.
Proof.
  rewrite !FloatAxioms.ltb_spec. unfold SFltb. intros H.
  destruct (SFcompare (Prim2SF x) (Prim2SF y)) as [[]|] eqn:E;
    try discriminate.
  by rewrite (SFcompare_Lt_Gt _ _ E).
Qed.

(** X26.  The confidence score is a number between 0 and 1, and it is 0
    only for a record that meets no criterion. *)
Theorem confidence_score_range (b : EnhancedScraper.ScrapedBusiness) :
  PrimFloat.leb 0 (EnhancedScraper._calculate_confidence_score b) = true
  ∧ PrimFloat.leb (EnhancedScraper._calculate_confidence_score b) 1 = true
  ∧ PrimFloat.eqb (EnhancedScraper._calculate_confidence_score b) 0
    = negb (EnhancedScraper.name_ok (EnhancedScraper.name b)
            || PyStr.truthy (EnhancedScraper.email b)
            || PyStr.truthy (EnhancedScraper.phone b)
            || PyStr.truthy (EnhancedScraper.website b)
            || PyStr.truthy (EnhancedScraper.address b)
            || EnhancedScraper.type_in_category b
            || EnhancedScraper.trusted_source b).
Proof.
  unfold EnhancedScraper._calculate_confidence_score.
  destruct (EnhancedScraper.name_ok (EnhancedScraper.name b)),
    (PyStr.truthy (EnhancedScraper.email b)),
    (PyStr.truthy (EnhancedScraper.phone b)),
    (PyStr.truthy (EnhancedScraper.website b)),
    (PyStr.truthy (EnhancedScraper.address b)),
    (EnhancedScraper.type_in_category b),
    (EnhancedScraper.trusted_source b); vm_compute; repeat split.
Qed.

(** ** Several directories at once *)

(** no record is directly followed by one with a higher score *)
Fixpoint descending (l : list EnhancedScraper.ScrapedBusiness) : Prop :=
  match l with
  | a :: (b :: _) as l' =>
      PrimFloat.ltb (EnhancedScraper.confidence_score a)
                    (EnhancedScraper.confidence_score b) = false
      ∧ descending l'
  | _ => True
  end.

Lemma insert_by_score_descending x l :
  descending l → descending (EnhancedScraper.insert_by_score x l).
Proof.
  induction l as [|y l IH]; [done|]. intros Hl.
  cbn [EnhancedScraper.insert_by_score].
  destruct (PrimFloat.ltb _ _) eqn:Hyx.
  - split; [by apply float_ltb_asym|done].
  - assert (descending l) as Hl' by (destruct l; [done|apply Hl]).
    specialize (IH Hl'). destruct l as [|z l]; [by split|].
    cbn [EnhancedScraper.insert_by_score] in *.
    destruct (PrimFloat.ltb (EnhancedScraper.confidence_score z) _).
    + by split.
    + split; [apply Hl|exact IH].
Qed.

Lemma insert_by_score_perm x l :
  EnhancedScraper.insert_by_score x l ≡ₚ x :: l.
Proof.
  induction l as [|y l IH]; [done|]. cbn [EnhancedScraper.insert_by_score].
  destruct (PrimFloat.ltb _ _); [done|]. rewrite IH. apply Permutation_swap.
Qed.

Lemma sorted_by_score_from l :
  ∀ acc,
    descending acc →
    descending (fold_left (λ acc x, EnhancedScraper.insert_by_score x acc) l acc)
    ∧ fold_left (λ acc x, EnhancedScraper.insert_by_score x acc) l acc
      ≡ₚ acc ++ l.
Proof.
  induction l as [|x l IH]; intros acc Hacc; cbn [fold_left].
  - by rewrite app_nil_r.
  - destruct (IH (EnhancedScraper.insert_by_score x acc)) as [Hd Hp];
      [by apply insert_by_score_descending|].
    split; [done|]. rewrite Hp, insert_by_score_perm. cbn [app].
    apply Permutation_middle.
Qed.

Lemma descending_take n :
  ∀ l, descending l → descending (take n l).
Proof.
  induction n as [|n IH]; intros [|a l] Hl; try done.
  cbn [take]. destruct l as [|b l]; [by destruct n|].
  destruct n as [|n']; [done|].
  specialize (IH (b :: l) (proj2 Hl)). cbn [take] in *.
  split; [apply Hl|exact IH].
Qed.

Lemma kept1_from_subseteq {A} (identifier : A → string) l :
  ∀ seen, kept1_from identifier seen l ⊆ l.
Proof.
  induction l as [|a l IH]; intros seen; cbn [kept1_from]; [done|].
  destruct (bool_decide _).
  - intros b [->|Hb]%elem_of_cons; [left|right; by eapply IH].
  - intros b Hb. right. by eapply IH.
Qed.

Lemma dedup_one_key_subseteq {A} (identifier : A → string) L :
  dedup_one_key identifier L ⊆ L.
Proof.
  unfold dedup_one_key. rewrite fold_dedup1_step. apply kept1_from_subseteq.
Qed.

(** X27.  Whatever the directories returned and in whatever order they
    completed, the list [scrape_multiple_sources] returns holds no two
    records with the same identifier, holds only records some directory
    returned, and is ordered by score: no record is directly followed by
    one with a higher score. *)
Theorem scrape_multiple_sources_result
  (completed : list (list EnhancedScraper.ScrapedBusiness))
  (max_businesses : Z) :
  let final_businesses :=
    EnhancedScraper.scrape_multiple_sources completed max_businesses in
  NoDup (EnhancedScraper.identifier <$> final_businesses)
  ∧ descending final_businesses
  ∧ ∀ b, b ∈ final_businesses → ∃ businesses,
           businesses ∈ completed ∧ b ∈ businesses.
Proof.
  cbn zeta. unfold EnhancedScraper.scrape_multiple_sources.
  rewrite EnhancedScraper_dedup_one_key.
  set (unique := dedup_one_key EnhancedScraper.identifier (concat completed)).
  destruct (sorted_by_score_from unique [] I) as [Hdesc Hperm].
  fold (EnhancedScraper.sorted_by_score unique) in Hdesc, Hperm.
  cbn [app] in Hperm.
  pose proof (slice_to_sublist max_businesses
                (EnhancedScraper.sorted_by_score unique)) as Hsub.
  split; [|split].
  - eapply sublist_NoDup; [|by apply fmap_sublist].
    rewrite Hperm. apply dedup_one_key_NoDup.
  - unfold PyStr.slice_to. destruct (_ <? _)%Z; by apply descending_take.
  - intros b Hb.
    assert (b ∈ concat completed) as Hin.
    { apply (dedup_one_key_subseteq EnhancedScraper.identifier).
      fold unique. rewrite <- Hperm.
      eapply elem_of_sublist; [exact Hb|exact Hsub]. }
    apply list_elem_of_In, in_concat in Hin as (businesses & H1 & H2).
    exists businesses. by rewrite !list_elem_of_In.
Qed.

(** ** The free collector *)

Section FreeCollectFacts.
Context (search_businesses_duckduckgo
           : string → string → list FreeBusinessCollector.BusinessData)
        (scrape_business_directory
           : string → string → list FreeBusinessCollector.BusinessData).

(** X28.  For a non-negative [target_count], the free collector returns at
    most [target_count] businesses; they come from the two searches, in
    the order found, no two share an identifier, and each one passes the
    three relevance tests of [_filter_businesses]. *)
Theorem free_collect_businesses_result
  (category city : string) (target_count : Z) :
  (0 ≤ target_count)%Z →
  let final_businesses :=
    FreeBusinessCollector.collect_businesses
      search_businesses_duckduckgo scrape_business_directory
      category city target_count in
  (Z.of_nat (length final_businesses) ≤ target_count)%Z
  ∧ sublist final_businesses
      (search_businesses_duckduckgo category city
       ++ scrape_business_directory category city)
  ∧ NoDup (FreeBusinessCollector.identifier <$> final_businesses)
  ∧ Forall (λ b, FreeBusinessCollector.relevant category city b = true)
      final_businesses.
Proof.
  intros Htc. cbn zeta. unfold FreeBusinessCollector.collect_businesses.
  set (all := search_businesses_duckduckgo category city
              ++ scrape_business_directory category city).
  rewrite FreeBusinessCollector_dedup_one_key.
  unfold FreeBusinessCollector._filter_businesses.
  set (unique := dedup_one_key FreeBusinessCollector.identifier all).
  set (filtered := List.filter (FreeBusinessCollector.relevant category city)
                     unique).
  pose proof (slice_to_sublist target_count filtered) as Hslice.
  assert (sublist filtered unique) as Hfilter.
  { subst filtered. generalize unique. intros l.
    induction l as [|a l IH]; cbn [List.filter]; [constructor|].
    destruct (FreeBusinessCollector.relevant category city a);
      [by apply sublist_skip|by apply sublist_cons]. }
  assert (sublist unique all) as Hunique.
  { subst unique. unfold dedup_one_key. rewrite fold_dedup1_step. cbn [app].
    generalize (∅ : gset string). generalize all. intros l.
    induction l as [|a l IH]; intros seen; cbn [kept1_from]; [constructor|].
    destruct (bool_decide _); [apply sublist_skip|apply sublist_cons];
      apply IH. }
  split; [by apply slice_to_length_le|]. split; [|split].
  - by do 2 (etransitivity; [eassumption|]).
  - eapply sublist_NoDup;
      [apply (dedup_one_key_NoDup FreeBusinessCollector.identifier all)|].
    apply fmap_sublist. fold unique. by etransitivity.
  - apply Forall_forall. intros b Hb.
    assert (b ∈ filtered) as Hin by (by eapply elem_of_sublist).
    apply list_elem_of_In in Hin. by apply filter_In in Hin as [_ ?].
Qed.

End FreeCollectFacts.

Definition free_acme_listing : FreeBusinessCollector.BusinessData :=
  {| FreeBusinessCollector.name := "Acme Software";
     FreeBusinessCollector.email := None;
     FreeBusinessCollector.phone := None;
     FreeBusinessCollector.address := None;
     FreeBusinessCollector.website := None;
     FreeBusinessCollector.business_type := Some "Technology";
     FreeBusinessCollector.category := None;
     FreeBusinessCollector.city := Some "Karachi";
     FreeBusinessCollector.verified := false;
     FreeBusinessCollector.source := "duckduckgo_search" |}.

Lemma free_collect_businesses_result_example :
  let final_businesses :=
    FreeBusinessCollector.collect_businesses
      (λ _ _, [free_acme_listing; free_acme_listing]) (λ _ _, [])
      "Technology" "Karachi" 5 in
  (Z.of_nat (length final_businesses) ≤ 5)%Z
  ∧ sublist final_businesses ([free_acme_listing; free_acme_listing] ++ [])
  ∧ NoDup (FreeBusinessCollector.identifier <$> final_businesses)
  ∧ Forall (λ b, FreeBusinessCollector.relevant "Technology" "Karachi" b = true)
      final_businesses.
Proof.
  apply (free_collect_businesses_result
           (λ _ _, [free_acme_listing; free_acme_listing]) (λ _ _, [])
           "Technology" "Karachi" 5).
  lia.
Defined.

(** ** A key the data does not hold *)

Lemma remove_duplicates_subseteq σ L :
  BusinessCollector._remove_duplicates σ L ⊆ L.
Proof.
  intros l Hl. eapply elem_of_sublist; [exact Hl|].
  rewrite BusinessCollector_dedup_two_keys, dedup_two_keys_kept.
  apply kept_from_sublist.
Qed.

Lemma validate_business_emails_subseteq w σ L :
  (BusinessCollector._validate_business_emails w σ L).1 ⊆ L.
Proof.
  unfold BusinessCollector._validate_business_emails.
  rewrite validate_fold. cbn [fst app]. intros l Hl.
  apply list_elem_of_In, filter_In in Hl as [Hl _]. by apply list_elem_of_In.
Qed.

(** a computation that leaves the first [n] objects of the store alone
    and whose value, when it returns one, satisfies [Q] *)
Definition leaves_alone {A} (n : nat) (Q : A → Prop)
  (m : BusinessCollector.M A) : Prop :=
  ∀ σ : list BusinessCollector.business,
    (n ≤ length σ)%nat →
    (n ≤ length (m σ).2)%nat
    ∧ (∀ l : nat, (l < n)%nat → (m σ).2 !! l = σ !! l)
    ∧ match (m σ).1 with
      | Ok a => Q a
      | Raise _ => True
      end.

Lemma leaves_alone_ret {A} n (Q : A → Prop) a :
  Q a → leaves_alone n Q (BusinessCollector.ret a).
Proof. intros Ha σ Hσ. by repeat split. Qed.

Lemma leaves_alone_get_store n :
  leaves_alone n (λ _, True) BusinessCollector.get_store.
Proof. intros σ Hσ. by repeat split. Qed.

Lemma leaves_alone_bind {A B} n (Q : A → Prop) (R : B → Prop)
  (m : BusinessCollector.M A) (k : A → BusinessCollector.M B) :
  leaves_alone n Q m → (∀ a, Q a → leaves_alone n R (k a)) →
  leaves_alone n R (BusinessCollector.bind m k).
Proof.
  intros Hm Hk σ Hσ. unfold BusinessCollector.bind.
  destruct (Hm σ Hσ) as (Hlen & Hsame & Hres).
  destruct (m σ) as [[a|e] σ1]; cbn [fst snd] in *; [|by repeat split].
  destruct (Hk a Hres σ1 Hlen) as (Hlen' & Hsame' & Hres').
  split; [done|]. split; [|done].
  intros l Hl. rewrite Hsame' by done. by apply Hsame.
Qed.

Lemma leaves_alone_try_except {A} n (Q : A → Prop)
  (m : BusinessCollector.M A) (h : exn → BusinessCollector.M A) :
  leaves_alone n Q m → (∀ e, leaves_alone n Q (h e)) →
  leaves_alone n Q (BusinessCollector.try_except m h).
Proof.
  intros Hm Hh σ Hσ. unfold BusinessCollector.try_except.
  destruct (Hm σ Hσ) as (Hlen & Hsame & Hres).
  destruct (m σ) as [[a|e] σ1]; cbn [fst snd] in *; [by repeat split|].
  destruct (Hh e σ1 Hlen) as (Hlen' & Hsame' & Hres').
  split; [done|]. split; [|done].
  intros l Hl. rewrite Hsame' by done. by apply Hsame.
Qed.

Lemma leaves_alone_new_dicts n bs :
  leaves_alone n (Forall (λ l : nat, (n ≤ l)%nat))
    (BusinessCollector.new_dicts bs).
Proof.
  intros σ Hσ. unfold BusinessCollector.new_dicts. unalias.
  rewrite alloc_all_spec. cbn [fst snd]. split; [rewrite length_app; lia|].
  split.
  - intros l Hl. apply lookup_app_l. lia.
  - apply Forall_forall. intros l Hl%elem_of_seq. lia.
Qed.

Lemma leaves_alone_enhance w n L :
  Forall (λ l : nat, (n ≤ l)%nat) L →
  leaves_alone n (Forall (λ l : nat, (n ≤ l)%nat))
    (BusinessCollector._enhance_business_data w L).
Proof.
  intros HL σ Hσ.
  destruct (enhance_business_data_spec w L σ) as ([Hlen _] & Hout & Hres).
  unalias. split; [lia|]. split.
  - intros l Hl. destruct (Hout l) as [Hin|Heq]; [|done].
    rewrite Forall_forall in HL. apply HL in Hin. lia.
  - match type of Hres with
    | match ?r with _ => _ end => destruct r as [L'|e]; [by subst|done]
    end.
Qed.

Lemma Forall_subseteq_ge n (L L' : list nat) :
  L' ⊆ L → Forall (λ l, (n ≤ l)%nat) L → Forall (λ l, (n ≤ l)%nat) L'.
Proof.
  rewrite !Forall_forall. intros Hsub HL l Hl. by apply HL, Hsub.
Qed.

Lemma collect_pipeline_unknown_key w db category city target_count n :
  BusinessCollector.lookup_city db category city = None →
  leaves_alone n (Forall (λ l : nat, (n ≤ l)%nat))
    (BusinessCollector.collect_pipeline w db category city target_count).
Proof.
  intros Hkey. unfold BusinessCollector.collect_pipeline. rewrite Hkey.
  eapply leaves_alone_bind; [apply leaves_alone_new_dicts|].
  intros google_refs Hg.
  eapply leaves_alone_bind; [apply leaves_alone_new_dicts|].
  intros maps_refs Hm.
  eapply (leaves_alone_bind _ (Forall (λ l : nat, (n ≤ l)%nat))).
  { destruct (_ <? _)%Z; apply leaves_alone_ret; by apply Forall_app. }
  intros all_businesses Hall.
  eapply leaves_alone_bind; [apply leaves_alone_get_store|]. intros σ1 _.
  eapply leaves_alone_bind.
  { apply leaves_alone_enhance.
    eapply Forall_subseteq_ge; [apply remove_duplicates_subseteq|done]. }
  intros enhanced Henh.
  eapply leaves_alone_bind; [apply leaves_alone_get_store|]. intros σ2 _.
  pose proof (validate_business_emails_subseteq w σ2 enhanced) as Hvalid.
  destruct (BusinessCollector._validate_business_emails w σ2 enhanced)
    as [valid invalid].
  apply leaves_alone_ret. by eapply Forall_subseteq_ge.
Qed.

(** X29.  For a (category, city) pair the data does not hold,
    [collect_businesses] returns without raising, every business it
    returns is a dictionary the call itself created, and every dictionary
    that existed before the call is left exactly as it was. *)
Theorem collect_businesses_unknown_key
  (w : BusinessCollector.world) (db : BusinessCollector.database)
  (category city : string) (target_count : Z) (σ : BusinessCollector.store) :
  BusinessCollector.lookup_city db category city = None →
  let res :=
    BusinessCollector.collect_businesses w db category city target_count σ in
  (∃ refs, res.1 = Ok refs ∧ Forall (λ l : nat, (length σ ≤ l)%nat) refs)
  ∧ take (length σ) res.2 = σ.
Proof.
  intros Hkey. cbn zeta.
  assert (leaves_alone (length σ) (Forall (λ l : nat, (length σ ≤ l)%nat))
            (BusinessCollector.collect_businesses
               w db category city target_count)) as Hrun.
  { unfold BusinessCollector.collect_businesses.
    apply leaves_alone_try_except.
    - eapply leaves_alone_bind; [by apply collect_pipeline_unknown_key|].
      intros valid Hvalid. apply leaves_alone_ret.
      eapply Forall_subseteq_ge; [|exact Hvalid].
      intros l Hl. eapply elem_of_sublist; [exact Hl|apply slice_to_sublist].
    - intros e. unfold BusinessCollector._get_fallback_businesses.
      rewrite Hkey. by apply leaves_alone_ret. }
  destruct (Hrun σ (le_n _)) as (Hlen & Hsame & Hres).
  split.
  - destruct (collect_returns_of_all_dicts w db category city target_count σ)
      as [refs Hrefs].
    { unfold all_dicts. by rewrite Hkey. }
    exists refs. split; [exact Hrefs|].
    assert (∀ r : result (list nat),
              r = Ok refs →
              match r with
              | Ok a => Forall (λ l : nat, (length σ ≤ l)%nat) a
              | Raise _ => True
              end →
              Forall (λ l : nat, (length σ ≤ l)%nat) refs) as Hcase
      by (by intros r ->).
    exact (Hcase _ Hrefs Hres).
  - apply list_eq. intros l. unalias.
    destruct (decide (l < length σ)%nat) as [Hl|Hl].
    + rewrite lookup_take_lt by done. by apply Hsame.
    + rewrite lookup_take_ge by lia. symmetry. apply lookup_ge_None. lia.
Qed.

Lemma collect_businesses_unknown_key_example :
  let res :=
    BusinessCollector.collect_businesses
      (offline BusinessCollector.fallback_validate_email)
      BusinessCollector.verified_businesses "Technology" "Atlantis" 4
      BusinessCollector.initial_store in
  (∃ refs, res.1 = Ok refs
           ∧ Forall (λ l : nat,
                       (length BusinessCollector.initial_store ≤ l)%nat) refs)
  ∧ take (length BusinessCollector.initial_store) res.2
    = BusinessCollector.initial_store.
Proof.
  apply (collect_businesses_unknown_key
           (offline BusinessCollector.fallback_validate_email)
           BusinessCollector.verified_businesses "Technology" "Atlantis" 4
           BusinessCollector.initial_store).
  vm_compute. reflexivity.
Defined.
